(** * showyourwork: preprocessing and environment provisioning

    A shallow embedding of

    - [showyourwork/workflow/scripts/preprocess.py]
      ([flatten_zenodo_contents], [parse_overleaf], [parse_zenodo_datasets],
      [check_figure_format], [get_json_tree] and the module-level
      finalisation),
    - [workflow/utils/tex.py] ([compile_tex]),
    - [workflow/utils/paths.py] (the path registry),
    - [showyourwork/cli/conda_env.py] (the requested version and the
      environment-file step of [run]),

    followed by the properties of these functions.

    Python values that come from the YAML configuration are kept untyped
    ([pyval]); dictionaries are insertion-ordered association lists with the
    update-in-place behaviour of Python's [dict]; exceptions are values of
    [exn] carried by the [result] monad.  The modules [zenodo] and [paths]
    of the package, the builtins and the operating system are interfaces
    (type classes): the code above only calls them. *)

From Stdlib Require Import List String Ascii ZArith Lia Bool Permutation.
From Stdlib Require Import DecimalString.
Import ListNotations.

Set Warnings "-register-all".

Open Scope string_scope.
Open Scope list_scope.

Infix "+++" := String.append (at level 60, right associativity).

(* ================================================================= *)
(** ** Exceptions and the error monad *)

(** The exception classes the modelled code raises itself (module
    [exceptions]) and the builtin ones its operations can raise. *)
Inductive exn : Type :=
| ConfigError (msg : string)
| ZenodoRecordNotFound (deposit_id : string)
| InvalidZenodoIdType (msg : string)
| ZenodoContentsError (msg : string)
| FigureFormatError (msg : string)
| FigureGenerationError (msg : string)
| GraphicsPathError
| MissingXMLFile (msg : string)
| TectonicError
| ShowyourworkException
| KeyError (key : string)
| IndexError
| TypeError
| AttributeError
| ValueError
| UnicodeDecodeError
| OSError (msg : string).

Inductive result (A : Type) : Type :=
| Ok (a : A)
| Raise (e : exn).

Arguments Ok {A} a.
Arguments Raise {A} e.

Definition bind {A B : Type} (m : result A) (k : A -> result B) : result B :=
  match m with
  | Ok a => k a
  | Raise e => Raise e
  end.

Notation "x <- m ;; k" := (bind m (fun x => k))
  (at level 61, m at next level, right associativity).
Notation "m ;;; k" := (bind m (fun _ => k))
  (at level 61, right associativity).

(** [for x in l: f x], stopping at the first exception. *)
Fixpoint for_each {A : Type} (f : A -> result unit) (l : list A) : result unit :=
  match l with
  | [] => Ok tt
  | x :: rest => f x ;;; for_each f rest
  end.

(** A list comprehension whose body can raise. *)
Fixpoint map_result {A B : Type} (f : A -> result B) (l : list A) : result (list B) :=
  match l with
  | [] => Ok []
  | x :: rest => y <- f x ;; ys <- map_result f rest ;; Ok (y :: ys)
  end.

(** A loop threading an accumulator, stopping at the first exception. *)
Fixpoint fold_result {A S : Type} (f : S -> A -> result S) (l : list A) (s : S) : result S :=
  match l with
  | [] => Ok s
  | x :: rest => s' <- f s x ;; fold_result f rest s'
  end.

Definition is_raise {A : Type} (r : result A) : Prop :=
  exists e, r = Raise e.

Definition is_FigureFormatError {A : Type} (r : result A) : Prop :=
  exists msg, r = Raise (FigureFormatError msg).

(* ================================================================= *)
(** ** Strings *)

(** [s.split(sep)] for a one-character separator: never empty. *)
Fixpoint split (sep : ascii) (s : string) : list string :=
  match s with
  | EmptyString => [EmptyString]
  | String c rest =>
      if Ascii.eqb c sep then EmptyString :: split sep rest
      else match split sep rest with
           | [] => [String c EmptyString]
           | w :: ws => String c w :: ws
           end
  end.

(** [sep.join(l)]. *)
Definition join (sep : string) (l : list string) : string := String.concat sep l.

Fixpoint startswith (s p : string) : bool :=
  match p, s with
  | EmptyString, _ => true
  | String _ _, EmptyString => false
  | String a p', String b s' => Ascii.eqb a b && startswith s' p'
  end.

(** [s.endswith(suffix)]. *)
Definition endswith (s suffix : string) : bool :=
  let n := String.length s in
  let m := String.length suffix in
  Nat.leb m n && String.eqb (String.substring (n - m) m s) suffix.

(** [s[:-n]] for [n >= 1]. *)
Definition drop_end (n : nat) (s : string) : string :=
  String.substring 0 (String.length s - n) s.

(** [str(z)] for an [int]. *)
Definition str_of_int (z : Z) : string := NilZero.string_of_int (Z.to_int z).

(** [l[-i:]] for [1 <= i]: the last [i] elements (all of them when [i]
    exceeds the length). *)
Definition last_n {A : Type} (i : nat) (l : list A) : list A :=
  skipn (List.length l - i) l.

Definition mem (x : string) (l : list string) : bool :=
  existsb (String.eqb x) l.

(** [c in s] for a character. *)
Fixpoint contains (c : ascii) (s : string) : bool :=
  match s with
  | EmptyString => false
  | String a rest => Ascii.eqb a c || contains c rest
  end.

(* ================================================================= *)
(** ** Python dictionaries *)

(** Keys with a decidable equality: strings, and [None]-or-string for the
    figure labels. *)
Class EqKey (K : Type) : Type := { key_eqb : K -> K -> bool }.

#[export] Instance string_EqKey : EqKey string := {| key_eqb := String.eqb |}.

Definition option_eqb {K : Type} (eqb : K -> K -> bool) (a b : option K) : bool :=
  match a, b with
  | None, None => true
  | Some x, Some y => eqb x y
  | _, _ => false
  end.

#[export] Instance option_EqKey {K : Type} {E : EqKey K} : EqKey (option K) :=
  {| key_eqb := option_eqb key_eqb |}.

(** The test decides equality. *)
Class EqKeyOk (K : Type) {E : EqKey K} : Prop :=
  key_eqb_eq : forall a b : K, key_eqb a b = true <-> a = b.

(** Insertion-ordered.  [dict_set] keeps the position of a key that is
    already present, as assignment to a Python [dict] does. *)
Definition kdict (K V : Type) : Type := list (K * V).

(** The usual case: keys are strings. *)
Definition dict (V : Type) : Type := kdict string V.

Section Dict.
Context {K V : Type} {E : EqKey K}.

Fixpoint dict_get (k : K) (d : kdict K V) : option V :=
  match d with
  | [] => None
  | (k', v) :: rest => if key_eqb k k' then Some v else dict_get k rest
  end.

Fixpoint dict_set (k : K) (v : V) (d : kdict K V) : kdict K V :=
  match d with
  | [] => [(k, v)]
  | (k', v') :: rest =>
      if key_eqb k k' then (k', v) :: rest else (k', v') :: dict_set k v rest
  end.

Fixpoint dict_del (k : K) (d : kdict K V) : kdict K V :=
  match d with
  | [] => []
  | (k', v') :: rest =>
      if key_eqb k k' then dict_del k rest else (k', v') :: dict_del k rest
  end.

Definition dict_has (k : K) (d : kdict K V) : bool :=
  match dict_get k d with Some _ => true | None => false end.

Definition dict_keys (d : kdict K V) : list K := map fst d.
Definition dict_values (d : kdict K V) : list V := map snd d.

(** [dict(items)]: later pairs win, the first occurrence fixes the place. *)
Definition dict_of_items (items : list (K * V)) : kdict K V :=
  fold_left (fun d kv => dict_set (fst kv) (snd kv) d) items [].

(** [d.get(k, default)]. *)
Definition dict_get_default (k : K) (default : V) (d : kdict K V) : V :=
  match dict_get k d with
  | Some v => v
  | None => default
  end.

End Dict.

(** [d[k]]. *)
Definition dict_item {V : Type} (k : string) (d : dict V) : result V :=
  match dict_get k d with
  | Some v => Ok v
  | None => Raise (KeyError k)
  end.

(* ================================================================= *)
(** ** Untyped configuration values *)

(** What the YAML loader produces. *)
Inductive pyval : Type :=
| PNone
| PBool (b : bool)
| PInt (z : Z)
| PStr (s : string)
| PList (l : list pyval)
| PDict (d : list (string * pyval)).

Definition is_list (v : pyval) : bool :=
  match v with PList _ => true | _ => false end.

(** Truth value of a configuration value. *)
Definition truthy (v : pyval) : bool :=
  match v with
  | PNone => false
  | PBool b => b
  | PInt z => negb (Z.eqb z 0)
  | PStr s => negb (String.eqb s "")
  | PList l => match l with [] => false | _ => true end
  | PDict d => match d with [] => false | _ => true end
  end.

(** [x in values] for a string [x]. *)
Definition str_in_values (x : string) (vs : list pyval) : bool :=
  existsb (fun v => match v with PStr s => String.eqb x s | _ => false end) vs.

(* ================================================================= *)
(** ** Pure POSIX paths ([pathlib]) *)

(** A parsed path: the root (empty, one slash or two slashes) and the
    segments, with empty and single-dot segments dropped. *)
Record PurePath : Type := mkPath { root : string; segs : list string }.

Definition path_root (s : string) : string :=
  if startswith s "//" && negb (startswith s "///") then "//"
  else if startswith s "/" then "/"
  else "".

Definition keep_segment (x : string) : bool :=
  negb (String.eqb x "") && negb (String.eqb x ".").

(** [Path(s)]. *)
Definition Path (s : string) : PurePath :=
  mkPath (path_root s) (filter keep_segment (split "/" s)).

(** [p / q]: an absolute right operand replaces the left one. *)
Definition joinpath (p q : PurePath) : PurePath :=
  if String.eqb (root q) "" then mkPath (root p) (segs p ++ segs q) else q.

(** [p.parts]. *)
Definition parts (p : PurePath) : list string :=
  if String.eqb (root p) "" then segs p else root p :: segs p.

(** [p.as_posix()], which is [str(p)] on POSIX. *)
Definition as_posix (p : PurePath) : string :=
  match root p, segs p with
  | EmptyString, [] => "."
  | r, l => r +++ join "/" l
  end.

(** [Path] applied to the unpacked list [l]. *)
Definition Path_of_parts (l : list string) : PurePath :=
  fold_left (fun p s => joinpath p (Path s)) l (mkPath "" []).

(** [p.name]. *)
Definition name (p : PurePath) : string := last (segs p) "".

Fixpoint is_prefix (p l : list string) : bool :=
  match p, l with
  | [], _ => true
  | _ :: _, [] => false
  | a :: p', b :: l' => String.eqb a b && is_prefix p' l'
  end.

(** [p.is_relative_to(base)]. *)
Definition is_relative_to (p base : PurePath) : bool :=
  String.eqb (root p) (root base) && is_prefix (segs base) (segs p).

(** [p.relative_to(base)]. *)
Definition relative_to (p base : PurePath) : result PurePath :=
  if is_relative_to p base
  then Ok (mkPath "" (skipn (List.length (segs base)) (segs p)))
  else Raise ValueError.

(* ================================================================= *)
(** ** The interfaces of the package's own modules *)

(** Module [zenodo]: only its uses are in the modelled files. *)
Class Zenodo : Type := {
  (** the archive extensions, without the leading dot *)
  zip_exts : list string;
  (** base domain per host *)
  zenodo_url : string -> string;
  (** classification of a deposit id by the web API *)
  get_id_type : Z -> string -> result string
}.

(** Module [paths], as used by the preprocessing script: [paths.user()]
    with all directories inside the repository. *)
Class Paths : Type := {
  (** [paths.user().repo], absolute *)
  repo : PurePath;
  (** [paths.user().data.relative_to(paths.user().repo)] *)
  data_rel : PurePath;
  (** [paths.user().zenodo.relative_to(...)] and the sandbox one *)
  zenodo_rel : PurePath;
  zenodo_sandbox_rel : PurePath;
  (** [paths.user().tex], absolute *)
  tex : PurePath;
  (** [paths.user().scripts], [.figures], [.static], absolute *)
  scripts_dir : PurePath;
  figures_dir : PurePath;
  static_dir : PurePath
}.

(** What the script asks of the file system: [Path.resolve] (symbolic
    links and the working directory) and [Path.exists]. *)
Class FileSystem : Type := {
  resolve : PurePath -> PurePath;
  file_exists : PurePath -> bool
}.

(** Builtins whose behaviour is left to the interpreter. *)
Class Builtins : Type := {
  (** [int(s)] on a string: [None] when it raises *)
  py_int : string -> option Z;
  (** [list(set(l))]: the iteration order of a set is not fixed *)
  list_of_set : list string -> list string;
  (** [template.format(script=, output=, datasets=, dependencies=)] *)
  py_format :
    string -> option string -> list string -> list string -> list string ->
    result string
}.

(* ================================================================= *)
(** ** [flatten_zenodo_contents] *)

Section Flatten.
Context {Z_ : Zenodo} {P_ : Paths}.

(** The [for ext in zenodo.zip_exts ... else ...] block computing the
    default target of [new_key].  [default_path] is only looked at
    here, after the first segment of the key. *)
Definition default_target (new_key : string) (default_path : result PurePath)
  : result string :=
  match parts (Path new_key) with
  | [] => Raise IndexError
  | zip_file :: rest =>
      match find (fun ext => endswith zip_file ("." +++ ext)) zip_exts with
      | Some ext =>
          let mod_key :=
            joinpath (Path (drop_end (String.length ("." +++ ext)) zip_file))
                     (Path_of_parts rest) in
          dp <- default_path ;;
          Ok (as_posix (joinpath dp mod_key))
      | None =>
          dp <- default_path ;;
          Ok (as_posix (joinpath dp (Path new_key)))
      end
  end.

(** [(Path(parent_key) / k).as_posix() if parent_key else k]. *)
Definition new_key_of (parent_key k : string) : string :=
  if String.eqb parent_key "" then k
  else as_posix (joinpath (Path parent_key) (Path k)).

(** The body of the loop for a value that is not a mapping. *)
Definition flatten_leaf (new_key : string) (v : pyval)
  (default_path : result PurePath) : result (string * pyval) :=
  match v with
  | PNone => t <- default_target new_key default_path ;; Ok (new_key, PStr t)
  | _ => Ok (new_key, v)
  end.

(** [for k, v in d.items()], collecting [items]; [recur] is the
    recursive call for a value that is a mapping. *)
Fixpoint flatten_items (recur : pyval -> string -> result (dict pyval))
  (parent_key : string) (default_path : result PurePath)
  (kvs : list (string * pyval)) (items : list (string * pyval))
  {struct kvs} : result (list (string * pyval)) :=
  match kvs with
  | [] => Ok items
  | (k, v) :: rest =>
      let new_key := new_key_of parent_key k in
      match v with
      | PDict _ =>
          sub <- recur v new_key ;;
          flatten_items recur parent_key default_path rest (items ++ sub)
      | _ =>
          kv <- flatten_leaf new_key v default_path ;;
          flatten_items recur parent_key default_path rest (items ++ [kv])
      end
  end.

(** The recursion, with the falsy [default_path] already replaced. *)
Fixpoint flatten_rec (d : pyval) (parent_key : string)
  (default_path : result PurePath) {struct d} : result (dict pyval) :=
  match d with
  | PStr s =>
      items <- flatten_items (fun _ _ => Raise TypeError) parent_key default_path
                 [(s, PNone)] [] ;;
      Ok (dict_of_items items)
  | PList _ =>
      Raise (ConfigError
        ("Error parsing the config. " +++
         "Something is not formatted correctly in either the `zenodo` or " +++
         "`zenodo_sandbox` field."))
  | PDict kvs =>
      items <- flatten_items (fun v new_key => flatten_rec v new_key default_path)
                 parent_key default_path kvs [] ;;
      Ok (dict_of_items items)
  | PNone | PBool _ | PInt _ => Raise AttributeError
  end.

(** [if not default_path: default_path = paths.user().data...]; a
    truthy value that is not a string fails in [Path(default_path)]. *)
Definition resolve_default_path (default_path : pyval) : result PurePath :=
  if truthy default_path then
    match default_path with
    | PStr s => Ok (Path s)
    | _ => Raise TypeError
    end
  else Ok data_rel.

Definition flatten_zenodo_contents (d : pyval) (parent_key : string)
  (default_path : pyval) : result (dict pyval) :=
  flatten_rec d parent_key (resolve_default_path default_path).

End Flatten.

(* ================================================================= *)
(** ** The configuration *)

Module FigureEntry.
(** One value of [config["tree"]["figures"]]. *)
Record t : Type := mk {
  script : option string;
  graphics : list string;
  datasets : list string;
  dependencies : list string;
  command : option string
}.
End FigureEntry.

(** [config["tree"]]: the labels are texts of [LABEL] elements, which can
    be [None]. *)
Record Tree : Type := mkTree { figures : kdict (option string) FigureEntry.t }.

(** The fields of the Snakemake [config] the script reads and writes. *)
Record Config : Type := mkConfig {
  ms_tex : string;
  tex_files_out : list string;
  script_extensions : list string;
  scripts : dict string;
  dependencies : dict (list string);
  zenodo : pyval;
  zenodo_sandbox : pyval;
  overleaf : pyval;
  tree : option Tree;
  labels : dict string
}.

Definition host_entries (host : string) (config : Config) : pyval :=
  if String.eqb host "zenodo" then zenodo config else zenodo_sandbox config.

Definition set_host_entries (host : string) (v : pyval) (config : Config) : Config :=
  if String.eqb host "zenodo" then
    mkConfig (ms_tex config) (tex_files_out config) (script_extensions config)
      (scripts config) (dependencies config) v (zenodo_sandbox config)
      (overleaf config) (tree config) (labels config)
  else
    mkConfig (ms_tex config) (tex_files_out config) (script_extensions config)
      (scripts config) (dependencies config) (zenodo config) v
      (overleaf config) (tree config) (labels config).

Definition set_overleaf (v : pyval) (config : Config) : Config :=
  mkConfig (ms_tex config) (tex_files_out config) (script_extensions config)
    (scripts config) (dependencies config) (zenodo config) (zenodo_sandbox config)
    v (tree config) (labels config).

Definition set_tree (t : Tree) (config : Config) : Config :=
  mkConfig (ms_tex config) (tex_files_out config) (script_extensions config)
    (scripts config) (dependencies config) (zenodo config) (zenodo_sandbox config)
    (overleaf config) (Some t) (labels config).

Definition set_dependencies (d : dict (list string)) (config : Config) : Config :=
  mkConfig (ms_tex config) (tex_files_out config) (script_extensions config)
    (scripts config) d (zenodo config) (zenodo_sandbox config)
    (overleaf config) (tree config) (labels config).

Definition set_labels (l : dict string) (config : Config) : Config :=
  mkConfig (ms_tex config) (tex_files_out config) (script_extensions config)
    (scripts config) (dependencies config) (zenodo config) (zenodo_sandbox config)
    (overleaf config) (tree config) l.

(** [d.items()] of a configuration value. *)
Definition items_of (v : pyval) : result (list (string * pyval)) :=
  match v with
  | PDict d => Ok d
  | _ => Raise AttributeError
  end.

(* ================================================================= *)
(** ** [parse_zenodo_datasets] *)

Section ParseZenodo.
Context {Z_ : Zenodo} {P_ : Paths} {B_ : Builtins}.

(** The two messages of [InvalidZenodoIdType]. *)
Definition concept_id_message (deposit_id : Z) : string :=
  "Error parsing the config. " +++
  "Zenodo id " +++ str_of_int deposit_id +++ " seems to be a concept id." +++
  "Datasets should be specified using their static " +++
  "version id instead.".

Definition invalid_id_message (deposit_id : Z) : string :=
  "Error parsing the config. " +++
  "Zenodo id " +++ str_of_int deposit_id +++ " is not a valid version id.".

(** The check on [entry["id_type"]]. *)
Definition check_id_type (deposit_id : Z) (id_type : string) : result unit :=
  if negb (String.eqb id_type "version") then
    if String.eqb id_type "concept" then
      Raise (InvalidZenodoIdType (concept_id_message deposit_id))
    else
      Raise (InvalidZenodoIdType (invalid_id_message deposit_id))
  else Ok tt.

(** "We'll host the zipfile in a temporary directory":
    [(tmp_path / str(deposit_id) / zip_file).as_posix()]. *)
Definition staging_path (tmp_path : PurePath) (deposit_id : Z) (zip_file : string)
  : string :=
  as_posix (joinpath (joinpath tmp_path (Path (str_of_int deposit_id)))
                     (Path zip_file)).

Definition is_zip_file (zip_file : string) : bool :=
  existsb (fun ext => endswith zip_file ("." +++ ext)) zip_exts.

(** One iteration of [for source in list(contents.keys())], on the
    pair ([contents], [entry["zip_files"]]). *)
Definition archive_step (tmp_path : PurePath) (deposit_id : Z)
  (st : dict pyval * dict (dict pyval)) (source : string)
  : result (dict pyval * dict (dict pyval)) :=
  let (contents, zip_files) := st in
  target <- dict_item source contents ;;
  if is_list target then
    Raise (ZenodoContentsError
      ("Error parsing the config. " +++
       "The `contents` field of a Zenodo deposit must be " +++
       "provided as a mapping, not as a list."))
  else
    match parts (Path source) with
    | [] => Raise IndexError
    | zip_file :: rest =>
        if is_zip_file zip_file then
          let new_source := as_posix (Path_of_parts rest) in
          let zip_files' :=
            match dict_get zip_file zip_files with
            | Some m => dict_set zip_file (dict_set new_source target m) zip_files
            | None => dict_set zip_file [(new_source, target)] zip_files
            end in
          let contents' := dict_del source contents in
          Ok (dict_set zip_file (PStr (staging_path tmp_path deposit_id zip_file))
                       contents',
              zip_files')
        else Ok st
    end.

Definition extract_archives (tmp_path : PurePath) (deposit_id : Z)
  (contents : dict pyval) : result (dict pyval * dict (dict pyval)) :=
  fold_result (archive_step tmp_path deposit_id) (dict_keys contents) (contents, []).

Definition zip_files_value (zf : dict (dict pyval)) : pyval :=
  PDict (map (fun kv => (fst kv, PDict (snd kv))) zf).

Definition host_tmp_path (host : string) : PurePath :=
  if String.eqb host "zenodo" then zenodo_rel else zenodo_sandbox_rel.

(** "Deposit contents" and the archives: the rest of the loop body
    once the id type is accepted, on the entry updated so far. *)
Definition parse_contents (host : string) (deposit_id : Z) (e1 : dict pyval)
  : result pyval :=
  let destination :=
    dict_get_default "destination" (PStr (as_posix data_rel)) e1 in
  let e2 := dict_set "destination" destination e1 in
  contents <- flatten_zenodo_contents
                (dict_get_default "contents" (PDict []) e2) "" destination ;;
  let e3 := dict_set "zip_files" (PDict []) e2 in
  st <- extract_archives (host_tmp_path host) deposit_id contents ;;
  let e4 := dict_set "zip_files" (zip_files_value (snd st)) e3 in
  Ok (PDict (dict_set "contents" (PDict (fst st)) e4)).

(** The body of [for deposit_id, entry in config[host].items()]; the
    result is the entry after its in-place updates.  Keys are text (an
    integer key of the YAML file is its decimal text). *)
Definition parse_entry (host : string) (key : string) (entry : pyval)
  : result pyval :=
  deposit_id <-
    match py_int key with
    | Some z => Ok z
    | None => Raise (ZenodoRecordNotFound key)
    end ;;
  id_type <- get_id_type deposit_id (zenodo_url host) ;;
  match entry with
  | PDict e =>
      check_id_type deposit_id id_type ;;;
      parse_contents host deposit_id (dict_set "id_type" (PStr id_type) e)
  | _ => Raise TypeError
  end.

Definition parse_host (host : string) (config : Config) : result Config :=
  entries <- items_of (host_entries host config) ;;
  entries' <-
    map_result (fun kv => e <- parse_entry host (fst kv) (snd kv) ;; Ok (fst kv, e))
               entries ;;
  Ok (set_host_entries host (PDict entries') config).

Definition parse_zenodo_datasets (config : Config) : result Config :=
  c1 <- parse_host "zenodo" config ;;
  parse_host "zenodo_sandbox" c1.

End ParseZenodo.

(* ================================================================= *)
(** ** [parse_overleaf] *)

Section ParseOverleaf.
Context {P_ : Paths} {F_ : FileSystem}.

(** "Make sure [push] (or [pull]) is defined and is a list". *)
Definition normalize_list_field (field : string) (ov : dict pyval)
  : result (dict pyval * list pyval) :=
  let v := dict_get_default field (PList []) ov in
  let ov1 := dict_set field v ov in
  match v with
  | PNone => Ok (dict_set field (PList []) ov1, [])
  | PList l => Ok (ov1, l)
  | _ =>
      Raise (ConfigError
        ("Error parsing the config. " +++
         "The `overleaf." +++ field +++ "` field must be a list."))
  end.

(** [Path(file).resolve()] for an element of the lists. *)
Definition resolved (file : pyval) : result PurePath :=
  match file with
  | PStr s => Ok (resolve (Path s))
  | _ => Raise TypeError
  end.

Definition check_under_tex (file : pyval) : result unit :=
  p <- resolved file ;;
  if negb (is_relative_to p tex) then
    Raise (ConfigError
      ("Error parsing the config. " +++
       "Files specified in `overleaf.push` and `overleaf.pull` must " +++
       "be located under the `src/tex` directory."))
  else Ok tt.

(** [str(Path(file).resolve().relative_to(paths.user().tex))]. *)
Definition tex_relative (file : pyval) : result string :=
  p <- resolved file ;;
  r <- relative_to p tex ;;
  Ok (as_posix r).

(** [len(a & b)] is not zero. *)
Definition overlap (a b : list string) : bool :=
  existsb (fun x => mem x b) a.

Definition parse_overleaf_dict (ov : dict pyval) : result (dict pyval) :=
  let ov1 := dict_set "id" (dict_get_default "id" PNone ov) ov in
  let ov2 := dict_set "auto-commit"
               (dict_get_default "auto-commit" (PBool false) ov1) ov1 in
  r3 <- normalize_list_field "push" ov2 ;;
  r4 <- normalize_list_field "pull" (fst r3) ;;
  let push := snd r3 in
  let pull := snd r4 in
  for_each check_under_tex (push ++ pull) ;;;
  push_files <- map_result tex_relative push ;;
  pull_files <- map_result tex_relative pull ;;
  if overlap push_files pull_files then
    Raise (ConfigError
      ("Error parsing the config. " +++
       "One more more files are listed in both `overleaf.push` and " +++
       "`overleaf.pull`, which is not supported."))
  else Ok (fst r4).

Definition parse_overleaf (config : Config) : result Config :=
  match overleaf config with
  | PDict ov =>
      ov' <- parse_overleaf_dict ov ;;
      Ok (set_overleaf (PDict ov') config)
  | _ => Raise AttributeError
  end.

End ParseOverleaf.

(* ================================================================= *)
(** ** The XML tree and [check_figure_format] *)

(** An [xml.etree.ElementTree] element: [text] is [None] for an element
    without character data. *)
Inductive Element : Type :=
| mkElement (tag : string) (text : option string) (children : list Element).

Definition tag (e : Element) : string :=
  match e with mkElement t _ _ => t end.
Definition text (e : Element) : option string :=
  match e with mkElement _ t _ => t end.
Definition children (e : Element) : list Element :=
  match e with mkElement _ _ c => c end.

Definition has_tag (t : string) (e : Element) : bool := String.eqb (tag e) t.

(** [e.findall(t)]: the direct children with that tag, in order. *)
Definition findall (t : string) (e : Element) : list Element :=
  filter (has_tag t) (children e).

(** ["{}".format(x)] for a text. *)
Definition format_text (t : option string) : string :=
  match t with
  | Some s => s
  | None => "None"
  end.

(** [", ".join(e.text for e in l)]: a [None] item is a [TypeError]. *)
Definition join_texts (l : list Element) : result string :=
  ts <- map_result (fun e => match text e with
                             | Some s => Ok s
                             | None => Raise TypeError
                             end) l ;;
  Ok (join ", " ts).

(** Index of the first element with the tag. *)
Fixpoint index_of_tag (t : string) (l : list Element) : option nat :=
  match l with
  | [] => None
  | e :: rest =>
      if has_tag t e then Some 0
      else option_map S (index_of_tag t rest)
  end.

(** [for idx, element in enumerate(l): if element.tag == t: break]: the
    value of [idx] after the loop.  Without a [break] it is the last
    index (the loops below run on lists that contain the tag). *)
Definition break_index (t : string) (l : list Element) : Z :=
  match index_of_tag t l with
  | Some i => Z.of_nat i
  | None => Z.of_nat (List.length l) - 1
  end.

Definition nested_label_check (caption : Element) : result unit :=
  match findall "LABEL" caption with
  | [] => Ok tt
  | l :: _ =>
      Raise (FigureFormatError
        ("Label `" +++ format_text (text l) +++
         "` should not be nested within the figure caption"))
  end.

Definition order_check (elements captions labels : list Element) : result unit :=
  match captions with
  | [] => Ok tt
  | _ :: _ =>
      let caption_idx :=
        (Z.of_nat (List.length elements) - 1 - break_index "CAPTION" (rev elements))%Z in
      match labels with
      | [] => Ok tt
      | label0 :: _ =>
          let label_idx := break_index "LABEL" elements in
          if (label_idx <? caption_idx)%Z then
            Raise (FigureFormatError
              ("Figure label `" +++ format_text (text label0) +++
               "` must come after the caption."))
          else
            let marginicon_idx :=
              match index_of_tag "MARGINICON" elements with
              | Some i => Z.of_nat i
              | None => 0%Z
              end in
            if (marginicon_idx >? label_idx)%Z then
              Raise (FigureFormatError
                "Command \marginicon must always come before the figure label.")
            else Ok tt
      end
  end.

Definition check_figure_format (figure : Element) : result unit :=
  let elements := children figure in
  let captions := findall "CAPTION" figure in
  let labels := findall "LABEL" figure in
  let scripts := findall "SCRIPT" figure in
  for_each nested_label_check captions ;;;
  order_check elements captions labels ;;;
  (if Nat.leb 2 (List.length labels) then
     msg <- join_texts labels ;;
     Raise (FigureFormatError ("A figure has multiple labels: `" +++ msg +++ "`"))
   else Ok tt) ;;;
  (if Nat.leb 2 (List.length scripts) then
     msg <- join_texts scripts ;;
     Raise (FigureFormatError ("A figure has multiple scripts: `" +++ msg +++ "`"))
   else Ok tt) ;;;
  (match scripts, labels with
   | _ :: _, [] =>
       msg <- join_texts scripts ;;
       Raise (FigureFormatError
         ("A figure defines a script but has no label: `" +++ msg +++ "`"))
   | _, _ => Ok tt
   end).

(* ================================================================= *)
(** ** [get_json_tree] *)

(** [re.findall("\{(.*?)\}", s)[0]]: the text between the first opening
    brace that is closed on its line and the nearest closing brace. *)
Fixpoint until_brace (s : string) : option string :=
  match s with
  | EmptyString => None
  | String c rest =>
      if Ascii.eqb c "}" then Some EmptyString
      else if Ascii.eqb c "010" then None
      else option_map (String c) (until_brace rest)
  end.

Fixpoint first_braced (s : string) : option string :=
  match s with
  | EmptyString => None
  | String c rest =>
      if Ascii.eqb c "{" then
        match until_brace rest with
        | Some x => Some x
        | None => first_braced rest
        end
      else first_braced rest
  end.

(** A comprehension with a condition that can raise. *)
Fixpoint filter_result {A : Type} (f : A -> result bool) (l : list A)
  : result (list A) :=
  match l with
  | [] => Ok []
  | x :: rest =>
      b <- f x ;;
      ys <- filter_result f rest ;;
      Ok (if b then x :: ys else ys)
  end.

Fixpoint segs_eqb (a b : list string) : bool :=
  match a, b with
  | [], [] => true
  | x :: a', y :: b' => String.eqb x y && segs_eqb a' b'
  | _, _ => false
  end.

(** [p == q] on paths. *)
Definition path_eqb (p q : PurePath) : bool :=
  String.eqb (root p) (root q) && segs_eqb (segs p) (segs q).

(** [p.parents[0]]. *)
Definition parent (p : PurePath) : result PurePath :=
  match segs p with
  | [] => Raise IndexError
  | _ :: _ => Ok (mkPath (root p) (removelast (segs p)))
  end.

Section JsonTree.
Context {Z_ : Zenodo} {P_ : Paths} {F_ : FileSystem} {B_ : Builtins}.

(** The [try] block on [GRAPHICSPATH]: every exception inside it
    becomes [GraphicsPathError]. *)
Definition parse_graphicspath (xml_tree : Element) : result PurePath :=
  match rev (findall "GRAPHICSPATH" xml_tree) with
  | [] => Ok (Path ".")
  | g :: _ =>
      match text g with
      | None => Raise GraphicsPathError
      | Some t =>
          match first_braced t with
          | Some x => Ok (Path x)
          | None => Raise GraphicsPathError
          end
      end
  end.

(** [str((paths.user().tex / graphicspath / graphic.text).resolve()
    .relative_to(paths.user().repo))]. *)
Definition resolve_graphic (graphicspath : PurePath) (graphic : Element)
  : result string :=
  match text graphic with
  | None => Raise TypeError
  | Some t =>
      r <- relative_to (resolve (joinpath (joinpath tex graphicspath) (Path t))) repo ;;
      Ok (as_posix r)
  end.

Definition static_file (graphic : string) : PurePath :=
  joinpath static_dir (Path (name (Path graphic))).

(** [(repo / graphic).parents[0] == figures and
    (static / Path(graphic).name).exists()]. *)
Definition is_static_graphic (graphic : string) : result bool :=
  par <- parent (joinpath repo (Path graphic)) ;;
  Ok (path_eqb par figures_dir && file_exists (static_file graphic)).

(** [f"cp {srcs} {dest}"] for the static copies of [graphics]. *)
Definition cp_command (graphics : list string) : result string :=
  srcs <- map_result (fun g => r <- relative_to (static_file g) repo ;;
                               Ok (as_posix r)) graphics ;;
  dest <- relative_to figures_dir repo ;;
  Ok ("cp " +++ join " " srcs +++ " " +++ as_posix dest).

(** The [for i in range(1, len(parts))] loop: the first [i] whose
    suffix is a known extension. *)
Fixpoint find_ext (extensions : list string) (name_parts : list string)
  (range : list nat) : option string :=
  match range with
  | [] => None
  | i :: rest =>
      let ext := join "." (last_n i name_parts) in
      if mem ext extensions then Some ext
      else find_ext extensions name_parts rest
  end.

Definition script_command (config : Config) (script_text : string)
  : result string :=
  let name_parts := split "." script_text in
  match find_ext (script_extensions config) name_parts
                 (seq 1 (List.length name_parts - 1)) with
  | Some ext => dict_item ext (scripts config)
  | None =>
      Raise (FigureGenerationError
        ("Can't determine how to execute the figure " +++
         "script " +++ script_text +++ ". Please provide instructions " +++
         "on how to execute scripts with this extension in the " +++
         "config file."))
  end.

Definition entry_field (k : string) (entry : pyval) : result pyval :=
  match entry with
  | PDict e => dict_item k e
  | _ => Raise TypeError
  end.

Definition values_of (v : pyval) : result (list pyval) :=
  match v with
  | PDict d => Ok (dict_values d)
  | _ => Raise AttributeError
  end.

(** [for zip_file in zip_files: if dep in zip_files[zip_file].values()]. *)
Fixpoint in_zip_files (dep : string) (zip_files : list (string * pyval))
  : result bool :=
  match zip_files with
  | [] => Ok false
  | (_, m) :: rest =>
      vs <- values_of m ;;
      if str_in_values dep vs then Ok true else in_zip_files dep rest
  end.

(** Does the deposit provide [dep]? *)
Definition dep_matches (entry : pyval) (dep : string) : result bool :=
  c <- entry_field "contents" entry ;;
  vs <- values_of c ;;
  if str_in_values dep vs then Ok true
  else
    zf <- entry_field "zip_files" entry ;;
    match zf with
    | PDict zfs => in_zip_files dep zfs
    | _ => Raise TypeError
    end.

Definition record_url (host key : string) : string :=
  "https://" +++ zenodo_url host +++ "/record/" +++ key.

Definition deposit_datasets (host : string) (deps : list string)
  (datasets : list string) (kv : string * pyval) : result (list string) :=
  fold_result (fun ds dep =>
                 b <- dep_matches (snd kv) dep ;;
                 Ok (if b then ds ++ [record_url host (fst kv)] else ds))
              deps datasets.

Definition host_datasets (config : Config) (deps : list string)
  (datasets : list string) (host : string) : result (list string) :=
  match host_entries host config with
  | PDict entries => fold_result (deposit_datasets host deps) entries datasets
  | _ => Raise TypeError
  end.

(** The URLs appended by the loops over hosts, deposits and
    dependencies, before [list(set(...))]. *)
Definition matching_urls (config : Config) (deps : list string)
  : result (list string) :=
  fold_result (host_datasets config deps) ["zenodo"; "zenodo_sandbox"] [].

Definition find_datasets (config : Config) (deps : list string)
  : result (list string) :=
  urls <- matching_urls config deps ;;
  Ok (list_of_set urls).

(** [script] and [command] of a labelled figure. *)
Definition script_and_command (config : Config) (figure : Element)
  (graphics : list string) (static : bool)
  : result (option string * option string) :=
  let no_script :=
    if static then c <- cp_command graphics ;; Ok (None, Some c)
    else Ok (None, None) in
  match findall "SCRIPT" figure with
  | s0 :: _ =>
      match text s0 with
      | Some t =>
          r <- relative_to (joinpath scripts_dir (Path t)) repo ;;
          command <- script_command config t ;;
          Ok (Some (as_posix r), Some command)
      | None => no_script
      end
  | [] => no_script
  end.

(** The body of [for figure in xml_tree.findall("FIGURE")], on the
    pair ([figures], [unlabeled_graphics]). *)
Definition figure_step (config : Config) (graphicspath : PurePath)
  (st : kdict (option string) FigureEntry.t * list string) (figure : Element)
  : result (kdict (option string) FigureEntry.t * list string) :=
  check_figure_format figure ;;;
  graphics <- map_result (resolve_graphic graphicspath) (findall "GRAPHICS" figure) ;;
  flags <- map_result is_static_graphic graphics ;;
  let static := forallb (fun b => b) flags in
  match findall "LABEL" figure with
  | [] => Ok (fst st, snd st ++ graphics)
  | label0 :: _ =>
      let label := text label0 in
      sc <- script_and_command config figure graphics static ;;
      let script := fst sc in
      let deps :=
        match script with
        | Some s => dict_get_default s [] (dependencies config)
        | None => []
        end in
      datasets <- find_datasets config deps ;;
      command <-
        match snd sc with
        | Some c => c' <- py_format c script graphics datasets deps ;; Ok (Some c')
        | None => Ok None
        end ;;
      Ok (dict_set label (FigureEntry.mk script graphics datasets deps command) (fst st),
          snd st)
  end.

(** [xml] is what [get_xml_tree] gave: the typesetting run and the
    reading of its artefact are outside the script. *)
Definition get_json_tree (config : Config) (xml : result Element) : result Tree :=
  xml_tree <- xml ;;
  graphicspath <- parse_graphicspath xml_tree ;;
  st <- fold_result (figure_step config graphicspath)
                    (findall "FIGURE" xml_tree) ([], []) ;;
  top <- map_result (resolve_graphic graphicspath) (findall "GRAPHICS" xml_tree) ;;
  let free_floating_graphics :=
    filter (fun g => negb (mem g (tex_files_out config))) (top ++ snd st) in
  free_floating_static <- filter_result is_static_graphic free_floating_graphics ;;
  let free_floating_dynamic :=
    filter (fun g => negb (mem g free_floating_static)) free_floating_graphics in
  let figures1 :=
    dict_set (Some "free-floating-dynamic")
             (FigureEntry.mk None free_floating_dynamic [] [] None) (fst st) in
  command <- cp_command free_floating_static ;;
  Ok (mkTree
        (dict_set (Some "free-floating-static")
                  (FigureEntry.mk None free_floating_static [] [] (Some command))
                  figures1)).

(* --------------------------------------------------------------- *)
(** *** The module body after the function definitions *)

(** The label entries of one figure. *)
Definition figure_labels (labels : dict string)
  (kv : option string * FigureEntry.t) : dict string :=
  let label := format_text (fst kv) in
  let labels1 :=
    match FigureEntry.script (snd kv) with
    | Some s => dict_set (label +++ "_script") s labels
    | None => labels
    end in
  fold_left (fun l dn => dict_set (label +++ "_dataset" +++ snd dn) (fst dn) l)
            (combine (FigureEntry.datasets (snd kv)) ["One"; "Two"; "Three"])
            labels1.

Definition make_labels (figs : kdict (option string) FigureEntry.t) : dict string :=
  fold_left figure_labels figs [].

(** "Make all of the graphics dependencies of the article". *)
Definition ms_dependencies (config : Config)
  (figs : kdict (option string) FigureEntry.t) : list string :=
  fold_left (fun deps kv =>
               deps ++ map (fun g => as_posix (Path g)) (FigureEntry.graphics (snd kv)))
            figs (dict_get_default (ms_tex config) [] (dependencies config)).

(** A figure whose script is the manuscript itself holds the very list
    [config["dependencies"][ms_tex]] when that key was there, and sees
    it extended. *)
Definition alias_dependencies (config : Config) (extended : list string)
  (e : FigureEntry.t) : FigureEntry.t :=
  match FigureEntry.script e with
  | Some s =>
      if String.eqb s (ms_tex config) && dict_has (ms_tex config) (dependencies config)
      then FigureEntry.mk (FigureEntry.script e) (FigureEntry.graphics e)
                          (FigureEntry.datasets e) extended (FigureEntry.command e)
      else e
  | None => e
  end.

(** From [config["tree"] = ...] to the [labels]. *)
Definition finalize (config : Config) (t : Tree) : Config :=
  let extended := ms_dependencies config (figures t) in
  let figs :=
    map (fun kv => (fst kv, alias_dependencies config extended (snd kv)))
        (figures t) in
  let c3 := set_tree (mkTree figs) config in
  let c4 := set_dependencies
              (dict_set (ms_tex config) extended (dependencies config)) c3 in
  set_labels (make_labels figs) c4.

Definition preprocess (config : Config) (xml : result Element) : result Config :=
  c1 <- parse_zenodo_datasets config ;;
  c2 <- @parse_overleaf P_ F_ c1 ;;
  t <- get_json_tree c2 xml ;;
  Ok (finalize c2 t).

End JsonTree.

(* ================================================================= *)
(** ** [workflow/utils/paths.py] and [workflow/utils/tex.py] *)

Module WorkflowPaths.
Section Registry.
(** [user]: the repository that vendors the workflow. *)
Variable user : PurePath.

Definition src : PurePath := joinpath user (Path "src").
Definition tex : PurePath := joinpath src (Path "tex").
Definition figure_scripts : PurePath := joinpath src (Path "figure-scripts").
Definition static_figures : PurePath := joinpath src (Path "static-figures").
Definition figures : PurePath := joinpath tex (Path "figures").
Definition temp : PurePath := joinpath user (Path ".showyourwork").
Definition preprocess : PurePath := joinpath temp (Path "preprocess").
Definition compile : PurePath := joinpath temp (Path "compile").
Definition logs : PurePath := joinpath temp (Path "logs").
End Registry.
End WorkflowPaths.

(** What [subprocess.run] returns. *)
Record CompletedProcess : Type := mkCompletedProcess {
  returncode : Z;
  stdout : list Byte.byte;
  stderr : list Byte.byte
}.

(** The value a Python call evaluates to, where it matters whether a
    function hands back an object or falls off its end. *)
Inductive retval : Type :=
| RNone
| RCompletedProcess (r : CompletedProcess).

(** The operating system as [compile_tex] uses it. *)
Class OS : Type := {
  (** files and whatever else the engine can see or change *)
  world : Type;
  path_exists : PurePath -> world -> bool;
  (** [shutil.copy(src, dst)] *)
  shutil_copy : string -> string -> world -> result world;
  (** [subprocess.run(argv, stdout=PIPE, stderr=PIPE)] *)
  subprocess_run : list string -> world -> result (CompletedProcess * world);
  (** [b.decode("utf-8")] *)
  decode_utf8 : list Byte.byte -> result string
}.

Module Tex.
Section CompileTex.
Context {O : OS}.
Variable user : PurePath.

(** The process: the outside world and the lines printed so far. *)
Record state : Type := mkState { os : world; printed : list string }.

(** Computations that change the state and can raise; the state
    reached when an exception is raised is kept. *)
Definition M (A : Type) : Type := state -> result A * state.

Definition ret {A : Type} (a : A) : M A := fun st => (Ok a, st).
Definition raise {A : Type} (e : exn) : M A := fun st => (Raise e, st).
Definition mbind {A B : Type} (m : M A) (k : A -> M B) : M B :=
  fun st =>
    match m st with
    | (Ok a, st') => k a st'
    | (Raise e, st') => (Raise e, st')
    end.
Definition lift {A : Type} (r : result A) : M A := fun st => (r, st).
Definition print (s : string) : M unit :=
  fun st => (Ok tt, mkState (os st) (printed st ++ [s])).
Definition on_world (f : world -> result world) : M unit :=
  fun st =>
    match f (os st) with
    | Ok w => (Ok tt, mkState w (printed st))
    | Raise e => (Raise e, st)
    end.

Fixpoint mfor {A : Type} (f : A -> M unit) (l : list A) : M unit :=
  match l with
  | [] => ret tt
  | x :: rest => mbind (f x) (fun _ => mfor f rest)
  end.

Record config : Type := mkConfig { tex_files_in : list string; ms_tex : string }.

(** "Copy over TeX auxiliaries": one iteration. *)
Definition copy_auxiliary (file : string) : M unit :=
  let src := joinpath user (Path file) in
  let dst := joinpath (WorkflowPaths.tex user) (Path (name src)) in
  fun st =>
    if path_exists dst (os st) then (Ok tt, st)
    else on_world (shutil_copy (as_posix src) (as_posix dst)) st.

(** "Copy over the actual stylesheet". *)
Definition copy_stylesheet (stylesheet : option PurePath) : M unit :=
  match stylesheet with
  | Some p =>
      on_world (shutil_copy (as_posix p)
                  (as_posix (joinpath (WorkflowPaths.tex user)
                                      (Path ".showyourwork.tex"))))
  | None => ret tt
  end.

(** Everything before the engine is started. *)
Definition prepare (cfg : config) (stylesheet : option PurePath) : M unit :=
  mbind (mfor copy_auxiliary (tex_files_in cfg))
        (fun _ => copy_stylesheet stylesheet).

Definition tectonic_argv (cfg : config) (args : list string) : list string :=
  ["tectonic"] ++ args ++ [as_posix (joinpath user (Path (ms_tex cfg)))].

(** "Run tectonic". *)
Definition run_tectonic (cfg : config) (args : list string) : M CompletedProcess :=
  fun st =>
    match subprocess_run (tectonic_argv cfg args) (os st) with
    | Ok (r, w) => (Ok r, mkState w (printed st))
    | Raise e => (Raise e, st)
    end.

(** The [if result.returncode != 0] block and the end of the body:
    there is no [return] statement. *)
Definition report (r : CompletedProcess) : M retval :=
  if negb (Z.eqb (returncode r) 0) then
    mbind (lift (decode_utf8 (stdout r))) (fun out =>
    mbind (print out) (fun _ =>
    mbind (lift (decode_utf8 (stderr r))) (fun err =>
    mbind (print err) (fun _ =>
    raise TectonicError))))
  else ret RNone.

Definition compile_tex (cfg : config) (args : list string)
  (stylesheet : option PurePath) : M retval :=
  mbind (prepare cfg stylesheet) (fun _ =>
  mbind (run_tectonic cfg args) report).

End CompileTex.
End Tex.

(* ================================================================= *)
(** ** [cli/conda_env.py]: the environment file in [run] *)

Module CondaEnv.

(** The body of [for dep in syw_env["dependencies"]]:
    [if type(dep) is dict and "pip" in dep: dep["pip"].append(syw_spec)].
    The result is [dep] after the in-place update. *)
Definition add_to_dep (syw_spec : string) (dep : pyval) : result pyval :=
  match dep with
  | PDict d =>
      match dict_get "pip" d with
      | Some (PList l) => Ok (PDict (dict_set "pip" (PList (l ++ [PStr syw_spec])) d))
      | Some _ => Raise AttributeError
      | None => Ok dep
      end
  | _ => Ok dep
  end.

(** The loop on the loaded document [syw_env].  The document is a
    tree: no two entries are one object (no YAML aliases). *)
Definition add_syw_spec (syw_spec : string) (syw_env : pyval) : result pyval :=
  match syw_env with
  | PDict env =>
      deps <- dict_item "dependencies" env ;;
      match deps with
      | PList l =>
          l' <- map_result (add_to_dep syw_spec) l ;;
          Ok (PDict (dict_set "dependencies" (PList l') env))
      | PDict _ | PStr _ => Ok syw_env
      | PNone | PBool _ | PInt _ => Raise TypeError
      end
  | _ => Raise TypeError
  end.


(** The documents [append] works on: an entry with a [pip] key holds
    a list there. *)
Definition well_formed_dep (dep : pyval) : bool :=
  match dep with
  | PDict d =>
      match dict_get "pip" d with
      | Some (PList _) | None => true
      | Some _ => false
      end
  | _ => true
  end.


End CondaEnv.

(* ================================================================= *)
(** ** Vocabulary of the statements *)

(** The [i] trailing dot-separated segments of a script name, joined:
    the candidate extension the loop of [script_command] tries at [i]. *)
Definition suffix_ext (script_text : string) (i : nat) : string :=
  join "." (last_n i (split "." script_text)).

(** [ext in config["script_extensions"]]. *)
Definition registered (config : Config) (ext : string) : Prop :=
  mem ext (script_extensions config) = true.

(** The failures of the checks on a deposit identifier. *)
Definition is_id_failure (e : exn) : bool :=
  match e with
  | ZenodoRecordNotFound _ | InvalidZenodoIdType _ => true
  | _ => false
  end.

(** No exception of the kind [bad] comes out of [r]. *)
Definition never_raises {A : Type} (bad : exn -> bool) (r : result A) : Prop :=
  forall e, r = Raise e -> bad e = false.



(** The keys of [config["labels"]] for a figure. *)
Definition script_key (label : option string) : string :=
  format_text label +++ "_script".

Definition dataset_key (label : option string) (number : string) : string :=
  format_text label +++ "_dataset" +++ number.

(** What this development assumes of [list(set(l))]: the elements of
    [l], each once, in some order. *)
Class BuiltinsOk {B_ : Builtins} : Prop := {
  list_of_set_NoDup : forall l, NoDup (list_of_set l);
  list_of_set_In : forall l x, In x (list_of_set l) <-> In x l
}.



(** After the archive loop, [source] is gone from [contents], its
    archive is staged there, and [zip_files] has a member for it. *)
Definition member_moved {Z_ : Zenodo} (tmp_path : PurePath) (deposit_id : Z)
  (st : dict pyval * dict (dict pyval)) (source : string) : Prop :=
  forall zip_file rest,
    parts (Path source) = zip_file :: rest ->
    is_zip_file zip_file = true ->
    source <> zip_file ->
    dict_get source (fst st) = None /\
    dict_get zip_file (fst st)
    = Some (PStr (staging_path tmp_path deposit_id zip_file)) /\
    exists members,
      dict_get zip_file (snd st) = Some members /\
      dict_has (as_posix (Path_of_parts rest)) members = true.

(** The files an [overleaf.push] or [overleaf.pull] field declares: a
    list of strings, or none when the field is absent or [None]. *)
Definition declares (field : option pyval) (files : list string) : Prop :=
  (files = [] /\ (field = None \/ field = Some PNone)) \/
  field = Some (PList (map PStr files)).

(** The resolved path of [file] relative to the manuscript directory,
    as text. *)
Definition tex_rel {P_ : Paths} {F_ : FileSystem} (file : string) : string :=
  as_posix (mkPath "" (skipn (List.length (segs tex)) (segs (resolve (Path file))))).

(** [file] resolves inside the manuscript directory. *)
Definition under_tex {P_ : Paths} {F_ : FileSystem} (file : string) : Prop :=
  is_relative_to (resolve (Path file)) tex = true.

(* ================================================================= *)
(** ** A concrete environment *)

(** A repository at [/repo], a file system without symbolic links whose
    working directory is the repository, and simple stand-ins for the
    builtins and the engine.  Used to run the functions above on
    examples. *)
Module Example.

#[export] Instance zenodo : Zenodo := {|
  zip_exts := ["tar"; "tar.gz"; "zip"];
  zenodo_url := fun host =>
    if String.eqb host "zenodo" then "zenodo.org" else "sandbox.zenodo.org";
  get_id_type := fun deposit_id _ =>
    if Z.eqb deposit_id 1 then Ok "concept"
    else if Z.eqb deposit_id 2 then Ok "other"
    else Ok "version"
|}.

#[export] Instance paths : Paths := {|
  repo := Path "/repo";
  data_rel := Path "src/data";
  zenodo_rel := Path ".showyourwork/zenodo";
  zenodo_sandbox_rel := Path ".showyourwork/zenodo_sandbox";
  tex := Path "/repo/src/tex";
  scripts_dir := Path "/repo/src/scripts";
  figures_dir := Path "/repo/src/tex/figures";
  static_dir := Path "/repo/src/static"
|}.

(** Collapse [..] segments from left to right. *)
Fixpoint collapse (done todo : list string) : list string :=
  match todo with
  | [] => done
  | s :: rest =>
      if String.eqb s ".." then collapse (removelast done) rest
      else collapse (done ++ [s]) rest
  end.

#[export] Instance file_system : FileSystem := {|
  resolve := fun p =>
    let q := joinpath (Path "/repo") p in
    mkPath (root q) (collapse [] (segs q));
  file_exists := fun p => String.eqb (as_posix p) "/repo/src/static/logo.pdf"
|}.

Definition digit_of (c : ascii) : option Z :=
  let n := nat_of_ascii c in
  if Nat.leb 48 n && Nat.leb n 57 then Some (Z.of_nat (n - 48)) else None.

Fixpoint digits (acc : Z) (s : string) : option Z :=
  match s with
  | EmptyString => Some acc
  | String c rest =>
      match digit_of c with
      | Some d => digits (10 * acc + d) rest
      | None => None
      end
  end.

Fixpoint dedup (l : list string) : list string :=
  match l with
  | [] => []
  | x :: rest => x :: filter (fun y => negb (String.eqb x y)) (dedup rest)
  end.

#[export] Instance builtins : Builtins := {|
  py_int := fun s => match s with EmptyString => None | _ => digits 0 s end;
  list_of_set := dedup;
  py_format := fun template _ _ _ _ => Ok template
|}.

(** An engine that fails exactly when asked for [--fail], and a byte
    decoder for ASCII. *)
#[export] Instance os : OS := {|
  world := list string;
  path_exists := fun p w => mem (as_posix p) w;
  shutil_copy := fun src dst w =>
    if mem src w then Ok (w ++ [dst]) else Raise (OSError src);
  subprocess_run := fun argv w =>
    if mem "--fail" argv
    then Ok (mkCompletedProcess 1 [Byte.x6f; Byte.x75; Byte.x74] [Byte.x65; Byte.x72; Byte.x72], w)
    else Ok (mkCompletedProcess 0 [] [], w);
  decode_utf8 := fun b =>
    if forallb (fun x => Nat.ltb (Byte.to_nat x) 128) b
    then Ok (string_of_list_byte b)
    else Raise UnicodeDecodeError
|}.

End Example.

(* ================================================================= *)
(** ** Example inputs *)

(** A configuration that registers both [gz] and [tar.gz]. *)
Definition archive_config : Config :=
  mkConfig "src/tex/ms.tex" [] ["tar.gz"; "gz"]
    [("tar.gz", "tar xzf {script}"); ("gz", "gunzip {script}")]
    [] (PDict []) (PDict []) (PDict []) None [].

(** The same with the extensions written with their dot. *)
Definition dotted_config : Config :=
  mkConfig "src/tex/ms.tex" [] [".tar.gz"; ".py"]
    [(".tar.gz", "tar xzf {script}"); (".py", "python {script}")]
    [] (PDict []) (PDict []) (PDict []) None [].


(** Children of figure blocks. *)
Definition a_caption : Element := mkElement "CAPTION" (Some "A caption.") [].
Definition a_label : Element := mkElement "LABEL" (Some "fig:one") [].
Definition a_script : Element := mkElement "SCRIPT" (Some "fig.py") [].
Definition figure_of (elements : list Element) : Element :=
  mkElement "FIGURE" None elements.

(** A manuscript and its configuration. *)
Definition example_config : Config :=
  mkConfig "src/tex/ms.tex" ["src/tex/orcid.png"] ["tar.gz"; "gz"; "py"]
    [("py", "python {script}"); ("gz", "gunzip {script}")]
    [("src/scripts/fig.py", ["src/data/a.csv"; "src/data/arch/inner.csv"])]
    (PDict [("123",
             PDict [("contents",
                     PDict [("a.csv", PNone);
                            ("archive.zip",
                             PDict [("inner.csv", PStr "src/data/arch/inner.csv")])])])])
    (PDict [])
    (PDict [("push", PList [PStr "src/tex/a.tex"]); ("pull", PNone)])
    None [].

Definition example_xml : Element :=
  mkElement "HTML" None
    [mkElement "GRAPHICSPATH" (Some "{figures/}{other/}") [];
     figure_of [mkElement "GRAPHICS" (Some "fig.pdf") []; a_caption; a_label; a_script];
     figure_of [mkElement "GRAPHICS" (Some "un.pdf") []];
     mkElement "GRAPHICS" (Some "logo.pdf") [];
     mkElement "GRAPHICS" (Some "../orcid.png") []].

(** A figure script whose five dependencies come from five deposits
    (entries as [parse_zenodo_datasets] leaves them). *)
Definition deposit_with (file : string) : pyval :=
  PDict [("id_type", PStr "version"); ("destination", PStr "src/data");
         ("zip_files", PDict []);
         ("contents", PDict [(file, PStr ("src/data/" +++ file))])].


(* ================================================================= *)
(** ** Further vocabulary *)

(** A target that is text, a number or a truth value: neither missing,
    nor a list, nor a mapping. *)
Definition is_scalar (v : pyval) : bool :=
  match v with
  | PNone | PList _ | PDict _ => false
  | PBool _ | PInt _ | PStr _ => true
  end.

(** A flattened target: not missing and not a mapping. *)
Definition is_leaf (v : pyval) : bool :=
  match v with
  | PNone | PDict _ => false
  | _ => true
  end.

(** The figure blocks [check_figure_format] is written to accept: no
    label inside a caption, at most one label, at most one script, a
    script only with a label and, when the block has a caption, every
    caption and the first [\marginicon] in front of the label. *)
Definition well_formed_figure (figure : Element) : Prop :=
  (forall caption, In caption (findall "CAPTION" figure) ->
                   findall "LABEL" caption = []) /\
  List.length (findall "LABEL" figure) <= 1 /\
  List.length (findall "SCRIPT" figure) <= 1 /\
  (findall "SCRIPT" figure <> [] -> findall "LABEL" figure <> []) /\
  (findall "CAPTION" figure <> [] ->
   forall l, index_of_tag "LABEL" (children figure) = Some l ->
     (forall j caption, nth_error (children figure) j = Some caption ->
                        tag caption = "CAPTION" -> j < l) /\
     (forall m, index_of_tag "MARGINICON" (children figure) = Some m -> m < l)).

(** The entry [e] is the one built from the figure block [figure]:
    its graphics are the resolved graphics of the block, its script is
    the path of the script the block names (if it names one), and its
    dependencies are those the configuration lists for that script. *)
Definition entry_of_figure {P_ : Paths} {F_ : FileSystem} (config : Config)
  (graphicspath : PurePath) (figure : Element) (e : FigureEntry.t) : Prop :=
  map_result (resolve_graphic graphicspath) (findall "GRAPHICS" figure)
  = Ok (FigureEntry.graphics e) /\
  FigureEntry.dependencies e
  = match FigureEntry.script e with
    | Some s => dict_get_default s [] (dependencies config)
    | None => []
    end /\
  ((FigureEntry.script e = None /\
    forall s0, In s0 (findall "SCRIPT" figure) -> text s0 = None) \/
   (exists s0 t r,
       findall "SCRIPT" figure = [s0] /\ text s0 = Some t /\
       relative_to (joinpath scripts_dir (Path t)) repo = Ok r /\
       FigureEntry.script e = Some (as_posix r))).

(** After the blocks [done]: the blocks were well formed, the entries
    are those of labelled blocks, every labelled block has its key,
    and the graphics set aside are those of the blocks without label. *)
Definition tree_invariant {P_ : Paths} {F_ : FileSystem} (config : Config)
  (graphicspath : PurePath) (done : list Element)
  (st : kdict (option string) FigureEntry.t * list string) : Prop :=
  (forall figure, In figure done -> check_figure_format figure = Ok tt) /\
  (forall k e, dict_get k (fst st) = Some e ->
               exists figure label,
                 In figure done /\ findall "LABEL" figure = [label] /\
                 k = text label /\
                 entry_of_figure config graphicspath figure e) /\
  (forall figure label,
      In figure done -> findall "LABEL" figure = [label] ->
      dict_has (text label) (fst st) = true) /\
  (forall g, In g (snd st) <->
             exists figure graphic,
               In figure done /\ findall "LABEL" figure = [] /\
               In graphic (findall "GRAPHICS" figure) /\
               resolve_graphic graphicspath graphic = Ok g).

(* ================================================================= *)
(** ** Further example inputs *)

(** An engine that fails and whose standard output (when asked for
    [--binary]) or standard error (otherwise) is not UTF-8. *)
Definition garbled_os : OS := {|
  world := list string;
  path_exists := fun p w => mem (as_posix p) w;
  shutil_copy := fun src dst w =>
    if mem src w then Ok (w ++ [dst]) else Raise (OSError src);
  subprocess_run := fun argv w =>
    if mem "--binary" argv
    then Ok (mkCompletedProcess 1 [Byte.xff] [Byte.x65; Byte.x72; Byte.x72], w)
    else Ok (mkCompletedProcess 1 [Byte.x6f; Byte.x75; Byte.x74] [Byte.xff], w);
  decode_utf8 := @decode_utf8 Example.os
|}.

(** The example configuration with no deposit on either host. *)
Definition plain_config : Config :=
  mkConfig "src/tex/ms.tex" ["src/tex/orcid.png"] ["tar.gz"; "gz"; "py"]
    [("py", "python {script}"); ("gz", "gunzip {script}")]
    [("src/scripts/fig.py", ["src/data/a.csv"])]
    (PDict []) (PDict []) (PDict []) None [].

(* ================================================================= *)
(** ** [cli/conda_env.py]: the requested version of the package *)

(** The patterns given to [re.match] in [run], built from character
    classes, concatenation, alternation and repetition. *)
Inductive regex : Type :=
| Nothing
| Eps
| Class (p : ascii -> bool)
| Cat (r s : regex)
| Alt (r s : regex)
| Star (r : regex).

(** [r+], [r?] and [r{m,n}]. *)
Definition Plus (r : regex) : regex := Cat r (Star r).

Definition Opt (r : regex) : regex := Alt Eps r.

Fixpoint Times (n : nat) (r : regex) : regex :=
  match n with
  | 0 => Eps
  | S n' => Cat r (Times n' r)
  end.

Definition Repeat (m n : nat) (r : regex) : regex :=
  Cat (Times m r) (Times (n - m) (Opt r)).

(** Does the pattern match the empty text? *)
Fixpoint nullable (r : regex) : bool :=
  match r with
  | Nothing => false
  | Eps => true
  | Class _ => false
  | Cat r1 r2 => nullable r1 && nullable r2
  | Alt r1 r2 => nullable r1 || nullable r2
  | Star _ => true
  end.

(** What is left of the pattern once the character [c] is read. *)
Fixpoint deriv (c : ascii) (r : regex) : regex :=
  match r with
  | Nothing => Nothing
  | Eps => Nothing
  | Class p => if p c then Eps else Nothing
  | Cat r1 r2 =>
      if nullable r1 then Alt (Cat (deriv c r1) r2) (deriv c r2)
      else Cat (deriv c r1) r2
  | Alt r1 r2 => Alt (deriv c r1) (deriv c r2)
  | Star r1 => Cat (deriv c r1) (Star r1)
  end.

(** [re.match(r, s) is not None]: the pattern matches at the start of
    [s], whatever follows. *)
Fixpoint re_match (r : regex) (s : string) : bool :=
  nullable r ||
  match s with
  | EmptyString => false
  | String c rest => re_match (deriv c r) rest
  end.

(** The character classes.  Text is a sequence of characters with
    code points below 256, among which the decimal digits [\d] are
    [0] to [9]. *)
Definition is_digit (c : ascii) : bool :=
  let n := nat_of_ascii c in Nat.leb 48 n && Nat.leb n 57.

Definition is_dot (c : ascii) : bool := Ascii.eqb c ".".

Definition is_dot_or_digit (c : ascii) : bool := is_dot c || is_digit c.

(** [[0-9a-f]]. *)
Definition is_lower_hex (c : ascii) : bool :=
  let n := nat_of_ascii c in
  is_digit c || (Nat.leb 97 n && Nat.leb n 102).

(** ["(?:(\d+\.[.\d]*\d+))"]: groups do not change what matches. *)
Definition version_re : regex :=
  Cat (Plus (Class is_digit))
      (Cat (Class is_dot)
           (Cat (Star (Class is_dot_or_digit)) (Plus (Class is_digit)))).

(** ["[0-9a-f]{5,40}"]. *)
Definition sha_re : regex := Repeat 5 40 (Class is_lower_hex).

(** [p.is_absolute()]. *)
Definition is_absolute (p : PurePath) : bool := negb (String.eqb (root p) "").

Module CondaSpec.
Section Spec.
Context {P_ : Paths} {F_ : FileSystem}.

(** [user_config.get("showyourwork", {}).get("version", "any")] on the
    loaded [showyourwork.yml]. *)
Definition requested_version (user_config : pyval) : result pyval :=
  match user_config with
  | PDict c =>
      match dict_get_default "showyourwork" (PDict []) c with
      | PDict s => Ok (dict_get_default "version" (PStr "any") s)
      | _ => Raise AttributeError
      end
  | _ => Raise AttributeError
  end.

Definition git_spec (revision : string) : string :=
  "git+https://github.com/showyourwork/showyourwork.git@" +++ revision +++
  "#egg=showyourwork".

(** The chain of tests on [syw_spec]: a value that is not text equals
    neither keyword and makes [re.match] raise. *)
Definition resolve_syw_spec (syw_spec : pyval) : result string :=
  match syw_spec with
  | PStr s =>
      if String.eqb s "any" then Ok "showyourwork"
      else if String.eqb s "latest" then Ok (git_spec "main")
      else if re_match version_re s then Ok ("showyourwork==" +++ s)
      else if re_match sha_re s then Ok (git_spec s)
      else
        let local :=
          if negb (is_absolute (Path s))
          then as_posix (resolve (joinpath repo (Path s)))
          else s in
        Ok ("-e " +++ local)
  | _ => Raise TypeError
  end.

(** "Infer the [showyourwork] version from the user's config file". *)
Definition syw_spec_of_config (user_config : pyval) : result string :=
  v <- requested_version user_config ;;
  resolve_syw_spec v.

End Spec.
End CondaSpec.

(** Every character of the text is in the class. *)
Fixpoint all_chars (p : ascii -> bool) (s : string) : bool :=
  match s with
  | EmptyString => true
  | String c rest => p c && all_chars p rest
  end.


(* ################################################################# *)
(** * Properties *)

(* ================================================================= *)
(** ** Basic facts *)

Lemma bind_Ok_inv {A B : Type} (m : result A) (k : A -> result B) (b : B) :
  bind m k = Ok b -> exists a, m = Ok a /\ k a = Ok b.
Proof.
  destruct m as [a|e]; simpl; intros H.
  - exists a. split; [reflexivity | exact H].
  - discriminate H.
Qed.

Lemma mem_true_iff (x : string) (l : list string) :
  mem x l = true <-> In x l.
Proof.
  unfold mem. rewrite existsb_exists. split.
  - intros [y [Hin Heq]]. apply String.eqb_eq in Heq. subst y. exact Hin.
  - intros Hin. exists x. split; [exact Hin | apply String.eqb_refl].
Qed.

Lemma mem_false_iff (x : string) (l : list string) :
  mem x l = false <-> ~ In x l.
Proof.
  rewrite <- mem_true_iff. destruct (mem x l); split; intros H;
    try reflexivity; try discriminate; try congruence.
Qed.

Lemma append_inj_l (a b c : string) : a +++ b = a +++ c -> b = c.
Proof.
  induction a as [|x a IH]; simpl; intros H; [exact H|].
  inversion H. apply IH. assumption.
Qed.

#[export] Instance string_EqKeyOk : EqKeyOk string.
Proof. exact String.eqb_eq. Qed.

#[export] Instance option_EqKeyOk {K : Type} {E : EqKey K} {EO : EqKeyOk K} :
  EqKeyOk (option K).
Proof.
  intros [x|] [y|]; simpl; try (split; congruence).
  rewrite (key_eqb_eq x y). split; congruence.
Qed.

Section DictFacts.
Context {K V : Type} {E : EqKey K} {EO : EqKeyOk K}.

Lemma key_eqb_refl (k : K) : key_eqb k k = true.
Proof. apply key_eqb_eq. reflexivity. Qed.

Lemma key_eqb_neq (k k' : K) : k <> k' -> key_eqb k k' = false.
Proof.
  intros Hne. destruct (key_eqb k k') eqn:Heq; [|reflexivity].
  apply key_eqb_eq in Heq. contradiction.
Qed.

Lemma dict_get_set_same (k : K) (v : V) (d : kdict K V) :
  dict_get k (dict_set k v d) = Some v.
Proof.
  induction d as [|[k' v'] d IH]; simpl.
  - rewrite key_eqb_refl. reflexivity.
  - destruct (key_eqb k k') eqn:Heq; simpl; rewrite Heq; [reflexivity | exact IH].
Qed.

Lemma dict_get_set_other (k k' : K) (v : V) (d : kdict K V) :
  k <> k' -> dict_get k (dict_set k' v d) = dict_get k d.
Proof.
  intros Hne. induction d as [|[k0 v0] d IH]; simpl.
  - rewrite (key_eqb_neq _ _ Hne). reflexivity.
  - destruct (key_eqb k' k0) eqn:Heq; simpl.
    + apply key_eqb_eq in Heq. subst k0.
      rewrite (key_eqb_neq _ _ Hne). reflexivity.
    + destruct (key_eqb k k0); [reflexivity | exact IH].
Qed.

Lemma dict_get_del_same (k : K) (d : kdict K V) :
  dict_get k (dict_del k d) = None.
Proof.
  induction d as [|[k' v'] d IH]; simpl; [reflexivity|].
  destruct (key_eqb k k') eqn:Heq; simpl; [exact IH|].
  rewrite Heq. exact IH.
Qed.

Lemma dict_get_del_other (k k' : K) (d : kdict K V) :
  k <> k' -> dict_get k (dict_del k' d) = dict_get k d.
Proof.
  intros Hne. induction d as [|[k0 v0] d IH]; simpl; [reflexivity|].
  destruct (key_eqb k' k0) eqn:Heq; simpl.
  - apply key_eqb_eq in Heq. subst k0.
    rewrite (key_eqb_neq _ _ Hne). exact IH.
  - destruct (key_eqb k k0); [reflexivity | exact IH].
Qed.

Lemma dict_get_map_values (f : V -> V) (k : K) (d : kdict K V) :
  dict_get k (map (fun kv => (fst kv, f (snd kv))) d) = option_map f (dict_get k d).
Proof.
  induction d as [|[k' v'] d IH]; simpl; [reflexivity|].
  destruct (key_eqb k k'); [reflexivity | exact IH].
Qed.

End DictFacts.

Section DictSet.
Context {K V : Type} {E : EqKey K} {EO : EqKeyOk K}.

Lemma dict_set_set (k : K) (v1 v2 : V) (d : kdict K V) :
  dict_set k v2 (dict_set k v1 d) = dict_set k v2 d.
Proof.
  induction d as [|[k' v'] d IH]; simpl.
  - rewrite key_eqb_refl. reflexivity.
  - destruct (key_eqb k k') eqn:Heq; simpl; rewrite Heq; [reflexivity|].
    rewrite IH. reflexivity.
Qed.

End DictSet.

Section DictValues.
Context {K V : Type} {E : EqKey K}.


Lemma dict_set_values_Forall (P : V -> Prop) (k : K) (v : V) (d : kdict K V) :
  P v -> Forall P (dict_values d) -> Forall P (dict_values (dict_set k v d)).
Proof.
  intros Hv. induction d as [|[k' v'] d IH]; simpl; intros Hd.
  - constructor; [exact Hv | constructor].
  - inversion Hd as [|? ? Hv' Hd']. subst.
    destruct (key_eqb k k'); simpl; constructor; auto.
Qed.

End DictValues.

Section DictHas.
Context {K V : Type} {E : EqKey K} {EO : EqKeyOk K}.

Lemma dict_has_set (k k' : K) (v : V) (d : kdict K V) :
  dict_has k d = true -> dict_has k (dict_set k' v d) = true.
Proof.
  unfold dict_has. intros H.
  destruct (key_eqb k k') eqn:Heq.
  - apply key_eqb_eq in Heq. subst k'. rewrite dict_get_set_same. reflexivity.
  - rewrite dict_get_set_other; [exact H|].
    intros ->. rewrite key_eqb_refl in Heq. discriminate Heq.
Qed.

End DictHas.

Section DictKeys.
Context {K V : Type} {E : EqKey K} {EO : EqKeyOk K}.

Lemma dict_set_keys (k : K) (v : V) (d : kdict K V) :
  (dict_get k d <> None /\ dict_keys (dict_set k v d) = dict_keys d) \/
  (dict_get k d = None /\ dict_keys (dict_set k v d) = dict_keys d ++ [k]).
Proof.
  induction d as [|[k' v'] d IH]; simpl.
  - right. split; reflexivity.
  - destruct (key_eqb k k') eqn:Heq; simpl.
    + left. split; [discriminate | reflexivity].
    + destruct IH as [[Hin Hkeys]|[Hout Hkeys]]; [left | right];
        (split; [assumption | rewrite Hkeys; reflexivity]).
Qed.

Lemma dict_get_None_not_key (k : K) (d : kdict K V) :
  dict_get k d = None -> ~ In k (dict_keys d).
Proof.
  induction d as [|[k' v'] d IH]; simpl; [intros _ []|].
  destruct (key_eqb k k') eqn:Heq; [discriminate|].
  intros H [Hk|Hin]; [|exact (IH H Hin)].
  subst k'. rewrite key_eqb_refl in Heq. discriminate Heq.
Qed.

Lemma dict_set_NoDup (k : K) (v : V) (d : kdict K V) :
  NoDup (dict_keys d) -> NoDup (dict_keys (dict_set k v d)).
Proof.
  intros Hd. destruct (dict_set_keys k v d) as [[_ Hkeys]|[Hout Hkeys]];
    rewrite Hkeys; [exact Hd|].
  apply NoDup_app; [exact Hd | repeat constructor; intros [] |].
  intros x Hx [<-|[]]. exact (dict_get_None_not_key _ _ Hout Hx).
Qed.

(** [dict(items)] has each key once. *)
Lemma dict_of_items_NoDup (items : list (K * V)) :
  NoDup (dict_keys (dict_of_items items)).
Proof.
  unfold dict_of_items.
  assert (H : forall d, NoDup (dict_keys d) ->
                        NoDup (dict_keys
                          (fold_left (fun d kv => dict_set (fst kv) (snd kv) d) items d))).
  { induction items as [|kv items IH]; intros d Hd; simpl; [exact Hd|].
    apply IH. apply dict_set_NoDup. exact Hd. }
  apply H. constructor.
Qed.

End DictKeys.

(* ================================================================= *)
(** ** The path and string models on examples *)

(** Parsing drops empty and single-dot segments, keeps [..], and tells
    one, two and three leading slashes apart as [pathlib] does. *)
Example Path_parts_examples :
  map (fun s => parts (Path s))
      [""; "."; "a/b"; "/a/b"; "//a/b"; "///a//b/"; "./a/./b"; "a/../b"]
  = [[]; []; ["a"; "b"]; ["/"; "a"; "b"]; ["//"; "a"; "b"]; ["/"; "a"; "b"];
     ["a"; "b"]; ["a"; ".."; "b"]].
Proof. reflexivity. Qed.

Example as_posix_examples :
  map (fun s => as_posix (Path s)) [""; "a//b/"; "///a"; "//a"]
  = ["."; "a/b"; "/a"; "//a"]
  /\ as_posix (joinpath (Path "a") (Path "/b")) = "/b"
  /\ as_posix (Path_of_parts []) = "."
  /\ as_posix (joinpath (Path "archive") (Path_of_parts ["inner.csv"]))
     = "archive/inner.csv".
Proof. repeat split. Qed.

Example split_join_examples :
  split "." "data.tar.gz" = ["data"; "tar"; "gz"] /\
  split "." "" = [""] /\
  map (suffix_ext "data.tar.gz") [1; 2] = ["gz"; "tar.gz"] /\
  endswith "archive.zip" ".zip" = true /\
  drop_end 4 "archive.zip" = "archive".
Proof. repeat split. Qed.

Example first_braced_examples :
  first_braced "{figures/}{other/}" = Some "figures/" /\
  first_braced "x{{y}z}" = Some "{y" /\
  first_braced "no braces" = None.
Proof. repeat split. Qed.

(* ================================================================= *)
(** ** Script-extension resolution *)

Section ScriptCommand.
Variable extensions : list string.
Variable name_parts : list string.

Lemma find_ext_none (range : list nat) :
  (forall j, In j range ->
             mem (join "." (last_n j name_parts)) extensions = false) ->
  find_ext extensions name_parts range = None.
Proof.
  induction range as [|i range IH]; cbn [find_ext]; intros H; [reflexivity|].
  rewrite (H i (or_introl eq_refl)).
  apply IH. intros j Hj. apply H. right. exact Hj.
Qed.

Lemma find_ext_first (start n i : nat) :
  start <= i < start + n ->
  mem (join "." (last_n i name_parts)) extensions = true ->
  (forall j, start <= j < i ->
             mem (join "." (last_n j name_parts)) extensions = false) ->
  find_ext extensions name_parts (seq start n)
  = Some (join "." (last_n i name_parts)).
Proof.
  revert start. induction n as [|n IH]; intros start Hi Hreg Hfirst; [lia|].
  cbn [seq find_ext].
  destruct (Nat.eq_dec start i) as [->|Hne].
  - rewrite Hreg. reflexivity.
  - rewrite (Hfirst start) by lia.
    apply IH; [lia | exact Hreg |].
    intros j Hj. apply Hfirst. lia.
Qed.

End ScriptCommand.

(** C1 (amended).  The command-resolution step scans the trailing
    dot-delimited suffixes of the script name from the shortest to the
    longest proper one and selects the template of the first that is
    registered in [script_extensions]: a suffix is selected exactly when
    it is registered and no shorter trailing suffix is (so a longer
    suffix wins only if no shorter one is registered); when no trailing
    suffix is registered, the figure-generation failure is raised. *)
Theorem script_command_shortest_registered_suffix (config : Config) (script_text : string) :
  (forall i,
      1 <= i < List.length (split "." script_text) ->
      registered config (suffix_ext script_text i) ->
      (forall j, 1 <= j < i -> ~ registered config (suffix_ext script_text j)) ->
      script_command config script_text
      = dict_item (suffix_ext script_text i) (scripts config))
  /\
  ((forall i, 1 <= i < List.length (split "." script_text) ->
              ~ registered config (suffix_ext script_text i)) ->
   exists msg, script_command config script_text = Raise (FigureGenerationError msg)).
Proof.
  unfold registered, suffix_ext, script_command. split.
  - intros i Hi Hreg Hfirst.
    rewrite (find_ext_first _ _ 1 _ i); [reflexivity | lia | exact Hreg |].
    intros j Hj. apply not_true_is_false. exact (Hfirst j Hj).
  - intros Hnone. rewrite find_ext_none; [eexists; reflexivity|].
    intros j Hj. apply in_seq in Hj.
    apply not_true_is_false. apply Hnone. lia.
Qed.

(** The candidates are trailing suffixes of the name, after a dot. *)

Lemma append_assoc (a b c : string) : (a +++ b) +++ c = a +++ b +++ c.
Proof. induction a as [|x a IH]; simpl; [reflexivity | rewrite IH; reflexivity]. Qed.


Lemma split_not_nil (sep : ascii) (s : string) : split sep s <> [].
Proof.
  destruct s as [|c s]; simpl; [discriminate|].
  destruct (Ascii.eqb c sep); [discriminate|].
  destruct (split sep s); discriminate.
Qed.

Lemma join_cons (sep x : string) (l : list string) :
  l <> [] -> join sep (x :: l) = x +++ sep +++ join sep l.
Proof. destruct l; [congruence | reflexivity]. Qed.

Lemma join_split (sep : ascii) (s : string) :
  join (String sep "") (split sep s) = s.
Proof.
  induction s as [|c s IH]; simpl; [reflexivity|].
  destruct (Ascii.eqb c sep) eqn:Heq.
  - apply Ascii.eqb_eq in Heq. subst c.
    rewrite join_cons by apply split_not_nil.
    simpl. rewrite IH. reflexivity.
  - pose proof (split_not_nil sep s) as Hne.
    destruct (split sep s) as [|w ws]; [congruence|].
    destruct ws as [|w' ws].
    + simpl in *. rewrite IH. reflexivity.
    + rewrite join_cons by discriminate.
      rewrite join_cons in IH by discriminate.
      change (String c w +++ String sep "" +++ join (String sep "") (w' :: ws))
        with (String c (w +++ String sep "" +++ join (String sep "") (w' :: ws))).
      rewrite IH. reflexivity.
Qed.

Lemma join_app (sep : string) (l1 l2 : list string) :
  l1 <> [] -> l2 <> [] ->
  join sep (l1 ++ l2) = join sep l1 +++ sep +++ join sep l2.
Proof.
  intros H1 H2. induction l1 as [|x l1 IH]; [congruence|].
  destruct l1 as [|y l1].
  - simpl app. rewrite join_cons by exact H2. reflexivity.
  - change ((x :: y :: l1) ++ l2) with (x :: ((y :: l1) ++ l2)).
    rewrite join_cons by discriminate.
    rewrite IH by discriminate.
    rewrite (join_cons sep x (y :: l1)) by discriminate.
    rewrite !append_assoc. reflexivity.
Qed.

Lemma suffix_ext_trailing (script_text : string) (i : nat) :
  1 <= i < List.length (split "." script_text) ->
  exists stem, script_text = stem +++ "." +++ suffix_ext script_text i.
Proof.
  intros Hi. unfold suffix_ext, last_n.
  set (l := split "." script_text) in *.
  set (k := List.length l - i).
  exists (join "." (firstn k l)).
  rewrite <- join_app.
  - rewrite firstn_skipn. unfold l. symmetry. apply (join_split "."%char).
  - intros Hnil. apply (f_equal (@List.length string)) in Hnil.
    rewrite length_firstn in Hnil. simpl in Hnil. unfold k in Hnil. lia.
  - intros Hnil. apply (f_equal (@List.length string)) in Hnil.
    rewrite length_skipn in Hnil. simpl in Hnil. unfold k in Hnil. lia.
Qed.

(** C1 (counterexample).  With [gz] and [tar.gz] both registered, the
    script [data.tar.gz] gets the template of the shorter suffix [gz],
    not the one of the longer suffix [tar.gz]. *)
Lemma script_command_longer_suffix_not_selected :
  suffix_ext "data.tar.gz" 1 = "gz" /\
  suffix_ext "data.tar.gz" 2 = "tar.gz" /\
  registered archive_config "gz" /\
  registered archive_config "tar.gz" /\
  dict_item "tar.gz" (scripts archive_config) = Ok "tar xzf {script}" /\
  script_command archive_config "data.tar.gz" = Ok "gunzip {script}" /\
  script_command archive_config "data.tar.gz"
  <> dict_item "tar.gz" (scripts archive_config).
Proof.
  repeat split; try reflexivity.
  vm_compute. discriminate.
Qed.

(** The candidates carry no leading dot: extensions registered with one
    are never matched. *)
Example script_command_dotted_extensions :
  exists msg,
    script_command dotted_config "data.tar.gz" = Raise (FigureGenerationError msg).
Proof. eexists. reflexivity. Qed.

(** The resolution run on [data.tar.gz], where [gz] is the first
    registered suffix, and on [notes.txt], where none is. *)
Lemma script_command_shortest_registered_suffix_witness :
  script_command archive_config "data.tar.gz" = dict_item "gz" (scripts archive_config)
  /\ exists msg,
       script_command archive_config "notes.txt" = Raise (FigureGenerationError msg).
Proof.
  split.
  - apply (proj1 (script_command_shortest_registered_suffix archive_config "data.tar.gz") 1).
    + simpl. lia.
    + reflexivity.
    + intros j Hj. lia.
  - apply (proj2 (script_command_shortest_registered_suffix archive_config "notes.txt")).
    intros i Hi. simpl in Hi.
    assert (i = 1) as -> by lia.
    vm_compute. discriminate.
Defined.

(* ================================================================= *)
(** ** The TeX wrapper *)

Section CompileTexFacts.
Context {O : OS}.
Variable user : PurePath.

Lemma on_world_printed (f : world -> result world) (st st' : Tex.state)
  (r : result unit) :
  Tex.on_world f st = (r, st') -> Tex.printed st' = Tex.printed st.
Proof.
  unfold Tex.on_world. destruct (f (Tex.os st)); intros H;
    inversion H; reflexivity.
Qed.

Lemma copy_auxiliary_printed (file : string) (st st' : Tex.state) (r : result unit) :
  Tex.copy_auxiliary user file st = (r, st') -> Tex.printed st' = Tex.printed st.
Proof.
  unfold Tex.copy_auxiliary. destruct (path_exists _ _).
  - intros H. inversion H. reflexivity.
  - apply on_world_printed.
Qed.

Lemma mfor_copy_printed (files : list string) (st st' : Tex.state) (r : result unit) :
  Tex.mfor (Tex.copy_auxiliary user) files st = (r, st') ->
  Tex.printed st' = Tex.printed st.
Proof.
  revert st. induction files as [|f files IH]; simpl; intros st H.
  - inversion H. reflexivity.
  - unfold Tex.mbind in H.
    destruct (Tex.copy_auxiliary user f st) as [[[]|e] st1] eqn:Hc.
    + apply IH in H. rewrite H. eapply copy_auxiliary_printed. exact Hc.
    + inversion H. subst. eapply copy_auxiliary_printed. exact Hc.
Qed.

(** The copy steps print nothing. *)
Lemma prepare_printed (cfg : Tex.config) (stylesheet : option PurePath)
  (st st' : Tex.state) (r : result unit) :
  Tex.prepare user cfg stylesheet st = (r, st') ->
  Tex.printed st' = Tex.printed st.
Proof.
  unfold Tex.prepare, Tex.mbind.
  destruct (Tex.mfor _ _ st) as [[[]|e] st1] eqn:Hf; intros H.
  - apply mfor_copy_printed in Hf. rewrite <- Hf.
    destruct stylesheet as [p|]; simpl in H.
    + eapply on_world_printed. exact H.
    + inversion H. reflexivity.
  - inversion H. subst. eapply mfor_copy_printed. exact Hf.
Qed.

(** After the copies and the engine run, what is left is [report]. *)
Lemma compile_tex_unfold (cfg : Tex.config) (args : list string)
  (stylesheet : option PurePath) (st st1 : Tex.state)
  (r : CompletedProcess) (w2 : world) :
  Tex.prepare user cfg stylesheet st = (Ok tt, st1) ->
  subprocess_run (Tex.tectonic_argv user cfg args) (Tex.os st1) = Ok (r, w2) ->
  Tex.compile_tex user cfg args stylesheet st
  = Tex.report r (Tex.mkState w2 (Tex.printed st1)).
Proof.
  intros Hprep Hrun.
  unfold Tex.compile_tex, Tex.mbind. rewrite Hprep.
  unfold Tex.run_tectonic. rewrite Hrun. reflexivity.
Qed.

(** C2 (amended).  Once the auxiliary files are copied and the engine
    has run: a non-zero exit status always ends in an exception, which
    is the typesetting-engine failure, raised after the captured
    standard output and standard error were printed in this order,
    whenever both streams decode as UTF-8; a zero exit status makes
    [compile_tex] finish without raising and without printing, and the
    value it returns is [None], not the subprocess result. *)
Theorem compile_tex_exit_status (cfg : Tex.config) (args : list string)
  (stylesheet : option PurePath) (st st1 : Tex.state)
  (r : CompletedProcess) (w2 : world) :
  Tex.prepare user cfg stylesheet st = (Ok tt, st1) ->
  subprocess_run (Tex.tectonic_argv user cfg args) (Tex.os st1) = Ok (r, w2) ->
  (returncode r <> 0%Z ->
     is_raise (fst (Tex.compile_tex user cfg args stylesheet st)) /\
     forall out err,
       decode_utf8 (stdout r) = Ok out ->
       decode_utf8 (stderr r) = Ok err ->
       Tex.compile_tex user cfg args stylesheet st
       = (Raise TectonicError, Tex.mkState w2 (Tex.printed st ++ [out; err])))
  /\
  (returncode r = 0%Z ->
     Tex.compile_tex user cfg args stylesheet st
     = (Ok RNone, Tex.mkState w2 (Tex.printed st))).
Proof.
  intros Hprep Hrun.
  rewrite (compile_tex_unfold _ _ _ _ _ _ _ Hprep Hrun).
  rewrite (prepare_printed _ _ _ _ _ Hprep).
  unfold Tex.report. split.
  - intros Hrc. apply Z.eqb_neq in Hrc. rewrite Hrc. simpl negb. cbv iota.
    unfold Tex.mbind, Tex.lift, Tex.print, Tex.raise, is_raise. split.
    + destruct (decode_utf8 (stdout r)); simpl; [|eexists; reflexivity].
      destruct (decode_utf8 (stderr r)); simpl; eexists; reflexivity.
    + intros out err Hout Herr.
      rewrite Hout. simpl. rewrite Herr. simpl.
      rewrite <- app_assoc. reflexivity.
  - intros Hrc. rewrite Hrc. reflexivity.
Qed.

End CompileTexFacts.

(** C2 (counterexample).  An engine run that exits with status zero:
    [compile_tex] does not raise, and what it returns is [None] rather
    than the result of the subprocess. *)
Lemma compile_tex_success_returns_none :
  let cfg := Tex.mkConfig [] "src/tex/ms.tex" in
  let st := Tex.mkState (O:=Example.os) [] [] in
  exists r w,
    subprocess_run (Tex.tectonic_argv (Path "/repo") cfg []) (Tex.os st) = Ok (r, w) /\
    returncode r = 0%Z /\
    fst (Tex.compile_tex (Path "/repo") cfg [] None st) = Ok RNone /\
    fst (Tex.compile_tex (Path "/repo") cfg [] None st) <> Ok (RCompletedProcess r).
Proof.
  simpl. eexists. eexists. split; [reflexivity|].
  split; [reflexivity|]. split; [reflexivity|]. discriminate.
Qed.

(** A failing and a successful engine run, after one auxiliary file
    was copied. *)
Lemma compile_tex_exit_status_witness :
  let user := Path "/repo" in
  let failing := Tex.mkState (O:=Example.os) ["/repo/a.bst"] [] in
  Tex.compile_tex user (Tex.mkConfig ["a.bst"] "src/tex/ms.tex") ["--fail"] None failing
  = (Raise TectonicError,
     Tex.mkState (O:=Example.os) ["/repo/a.bst"; "/repo/src/tex/a.bst"] ["out"; "err"])
  /\
  Tex.compile_tex user (Tex.mkConfig ["a.bst"] "src/tex/ms.tex") [] None failing
  = (Ok RNone, Tex.mkState (O:=Example.os) ["/repo/a.bst"; "/repo/src/tex/a.bst"] []).
Proof.
  split.
  - refine (proj2 (proj1 (compile_tex_exit_status (O:=Example.os) (Path "/repo")
             (Tex.mkConfig ["a.bst"] "src/tex/ms.tex") ["--fail"] None
             (Tex.mkState (O:=Example.os) ["/repo/a.bst"] [])
             (Tex.mkState (O:=Example.os) ["/repo/a.bst"; "/repo/src/tex/a.bst"] [])
             (mkCompletedProcess 1 [Byte.x6f; Byte.x75; Byte.x74] [Byte.x65; Byte.x72; Byte.x72])
             ["/repo/a.bst"; "/repo/src/tex/a.bst"] _ _) _) "out" "err" _ _);
      try reflexivity.
    simpl. discriminate.
  - refine (proj2 (compile_tex_exit_status (O:=Example.os) (Path "/repo")
             (Tex.mkConfig ["a.bst"] "src/tex/ms.tex") [] None
             (Tex.mkState (O:=Example.os) ["/repo/a.bst"] [])
             (Tex.mkState (O:=Example.os) ["/repo/a.bst"; "/repo/src/tex/a.bst"] [])
             (mkCompletedProcess 0 [] [])
             ["/repo/a.bst"; "/repo/src/tex/a.bst"] _ _) _);
      reflexivity.
Defined.

(* ================================================================= *)
(** ** The environment file *)

Section CondaEnvFacts.
Variable syw_spec : string.




End CondaEnvFacts.



(* ================================================================= *)
(** ** Zenodo deposits: the identifier checks *)

(** Induction on configuration values, through the entries of a mapping. *)
Lemma pyval_dict_ind (P : pyval -> Prop) :
  P PNone ->
  (forall b, P (PBool b)) ->
  (forall z, P (PInt z)) ->
  (forall s, P (PStr s)) ->
  (forall l, P (PList l)) ->
  (forall d, Forall (fun kv => P (snd kv)) d -> P (PDict d)) ->
  forall v, P v.
Proof.
  intros HN HB HI HS HL HD.
  fix IH 1. intros [| b | z | s | l | d].
  - exact HN.
  - apply HB.
  - apply HI.
  - apply HS.
  - apply HL.
  - apply HD. induction d as [|[k v] d IHd].
    + constructor.
    + constructor; [apply IH | exact IHd].
Qed.

Lemma never_raises_bind {A B : Type} (bad : exn -> bool)
  (m : result A) (k : A -> result B) :
  never_raises bad m -> (forall a, m = Ok a -> never_raises bad (k a)) ->
  never_raises bad (bind m k).
Proof.
  intros Hm Hk e. destruct m as [a|e']; simpl.
  - apply Hk. reflexivity.
  - intros H. apply Hm. inversion H. reflexivity.
Qed.

Lemma never_raises_Ok {A : Type} (bad : exn -> bool) (a : A) :
  never_raises bad (Ok a).
Proof. intros e H. discriminate H. Qed.

Lemma never_raises_Raise {A : Type} (bad : exn -> bool) (e : exn) :
  bad e = false -> never_raises bad (@Raise A e).
Proof. intros Hb e' H. inversion H. subst. exact Hb. Qed.

Section IdChecks.
Context {Z_ : Zenodo} {P_ : Paths} {B_ : Builtins}.

Lemma default_target_no_id_failure (new_key : string) (dp : result PurePath) :
  never_raises is_id_failure dp ->
  never_raises is_id_failure (default_target new_key dp).
Proof.
  intros Hdp. unfold default_target.
  destruct (parts (Path new_key)) as [|zip_file rest].
  - apply never_raises_Raise. reflexivity.
  - destruct (find _ zip_exts);
      (apply never_raises_bind; [exact Hdp | intros; apply never_raises_Ok]).
Qed.

Lemma flatten_leaf_no_id_failure (new_key : string) (v : pyval)
  (dp : result PurePath) :
  never_raises is_id_failure dp ->
  never_raises is_id_failure (flatten_leaf new_key v dp).
Proof.
  intros Hdp. destruct v; simpl; try apply never_raises_Ok.
  apply never_raises_bind.
  - apply default_target_no_id_failure. exact Hdp.
  - intros. apply never_raises_Ok.
Qed.

Lemma flatten_items_no_id_failure
  (recur : pyval -> string -> result (dict pyval))
  (parent_key : string) (dp : result PurePath) (kvs items : list (string * pyval)) :
  never_raises is_id_failure dp ->
  Forall (fun kv => forall k, never_raises is_id_failure (recur (snd kv) k)) kvs ->
  never_raises is_id_failure (flatten_items recur parent_key dp kvs items).
Proof.
  intros Hdp Hrec. revert items.
  induction Hrec as [|[k v] kvs Hv Hkvs IH]; intros items; simpl.
  - apply never_raises_Ok.
  - destruct v;
      try (apply never_raises_bind;
           [apply flatten_leaf_no_id_failure; exact Hdp | intros; apply IH]).
    apply never_raises_bind; [apply Hv | intros; apply IH].
Qed.

Lemma flatten_rec_no_id_failure (d : pyval) :
  forall parent_key dp,
    never_raises is_id_failure dp ->
    never_raises is_id_failure (flatten_rec d parent_key dp).
Proof.
  induction d as [| b | z | s | l | kvs IH] using pyval_dict_ind;
    intros parent_key dp Hdp; cbn [flatten_rec];
    try (apply never_raises_Raise; reflexivity).
  - apply never_raises_bind; [|intros; apply never_raises_Ok].
    apply flatten_items_no_id_failure; [exact Hdp|].
    repeat constructor. intros k. apply never_raises_Raise. reflexivity.
  - apply never_raises_bind; [|intros; apply never_raises_Ok].
    apply flatten_items_no_id_failure; [exact Hdp|].
    eapply Forall_impl; [|exact IH].
    intros kv H k. apply H. exact Hdp.
Qed.

Lemma flatten_zenodo_contents_no_id_failure (d : pyval) (parent_key : string)
  (default_path : pyval) :
  never_raises is_id_failure (flatten_zenodo_contents d parent_key default_path).
Proof.
  apply flatten_rec_no_id_failure. unfold resolve_default_path.
  destruct (truthy default_path); [|apply never_raises_Ok].
  destruct default_path; try (apply never_raises_Raise; reflexivity).
  apply never_raises_Ok.
Qed.

Lemma archive_step_no_id_failure (tmp_path : PurePath) (deposit_id : Z)
  (st : dict pyval * dict (dict pyval)) (source : string) :
  never_raises is_id_failure (archive_step tmp_path deposit_id st source).
Proof.
  unfold archive_step. destruct st as [contents zip_files].
  apply never_raises_bind.
  - unfold dict_item. destruct (dict_get source contents);
      [apply never_raises_Ok | apply never_raises_Raise; reflexivity].
  - intros target _. destruct (is_list target).
    + apply never_raises_Raise. reflexivity.
    + destruct (parts (Path source)); [apply never_raises_Raise; reflexivity|].
      destruct (is_zip_file _); apply never_raises_Ok.
Qed.

Lemma fold_result_never_raises {A S : Type} (bad : exn -> bool)
  (f : S -> A -> result S) (l : list A) :
  (forall s x, never_raises bad (f s x)) ->
  forall s, never_raises bad (fold_result f l s).
Proof.
  intros Hf. induction l as [|x l IH]; intros s; simpl.
  - apply never_raises_Ok.
  - apply never_raises_bind; [apply Hf | intros; apply IH].
Qed.

(** Past the identifier checks, nothing raises their failures. *)
Lemma parse_contents_no_id_failure (host : string) (deposit_id : Z)
  (e1 : dict pyval) :
  never_raises is_id_failure (parse_contents host deposit_id e1).
Proof.
  unfold parse_contents.
  apply never_raises_bind; [apply flatten_zenodo_contents_no_id_failure|].
  intros contents _.
  apply never_raises_bind; [|intros; apply never_raises_Ok].
  apply fold_result_never_raises. intros. apply archive_step_no_id_failure.
Qed.

(** C6.  For a deposit entry (a mapping) under a host: a key that
    does not parse as an integer raises the record-not-found failure;
    an identifier classified as "concept" raises the invalid-id-type
    failure with the concept message; any other classification
    different from "version" raises it with the generic message; with
    "version" the check passes, the processing of the entry goes on
    with its contents, and no identifier failure is raised. *)
Theorem parse_entry_id_checks (host key : string) (e : dict pyval) :
  (py_int key = None ->
     parse_entry host key (PDict e) = Raise (ZenodoRecordNotFound key))
  /\
  (forall deposit_id id_type,
      py_int key = Some deposit_id ->
      get_id_type deposit_id (zenodo_url host) = Ok id_type ->
      (id_type = "concept" ->
         parse_entry host key (PDict e)
         = Raise (InvalidZenodoIdType (concept_id_message deposit_id)))
      /\
      (id_type <> "concept" -> id_type <> "version" ->
         parse_entry host key (PDict e)
         = Raise (InvalidZenodoIdType (invalid_id_message deposit_id)))
      /\
      (id_type = "version" ->
         check_id_type deposit_id id_type = Ok tt /\
         parse_entry host key (PDict e)
         = parse_contents host deposit_id (dict_set "id_type" (PStr "version") e) /\
         never_raises is_id_failure (parse_entry host key (PDict e)))).
Proof.
  unfold parse_entry. split.
  - intros Hint. rewrite Hint. reflexivity.
  - intros deposit_id id_type Hint Htype. rewrite Hint. simpl. rewrite Htype. simpl.
    unfold check_id_type. repeat split.
    + intros ->. reflexivity.
    + intros Hc Hv.
      apply String.eqb_neq in Hc. apply String.eqb_neq in Hv.
      rewrite Hc, Hv. reflexivity.
    + subst id_type. reflexivity.
    + subst id_type. reflexivity.
    + subst id_type. simpl. apply parse_contents_no_id_failure.
Qed.

(** The two messages of the invalid-id-type failure differ. *)
Lemma concept_message_distinct (deposit_id : Z) :
  concept_id_message deposit_id <> invalid_id_message deposit_id.
Proof.
  unfold concept_id_message, invalid_id_message. intros H.
  apply append_inj_l in H. apply append_inj_l in H. apply append_inj_l in H.
  discriminate H.
Qed.

End IdChecks.

(** The four outcomes of the identifier checks, on the keys [12x],
    [1] (a concept id), [2] (neither) and [3] (a version id). *)
Lemma parse_entry_id_checks_witness :
  parse_entry (Z_:=Example.zenodo) (P_:=Example.paths) (B_:=Example.builtins)
    "zenodo" "12x" (PDict []) = Raise (ZenodoRecordNotFound "12x") /\
  parse_entry (Z_:=Example.zenodo) (P_:=Example.paths) (B_:=Example.builtins)
    "zenodo" "1" (PDict [])
  = Raise (InvalidZenodoIdType (concept_id_message 1)) /\
  parse_entry (Z_:=Example.zenodo) (P_:=Example.paths) (B_:=Example.builtins)
    "zenodo" "2" (PDict [])
  = Raise (InvalidZenodoIdType (invalid_id_message 2)) /\
  parse_entry (Z_:=Example.zenodo) (P_:=Example.paths) (B_:=Example.builtins)
    "zenodo" "3" (PDict [])
  = parse_contents (Z_:=Example.zenodo) (P_:=Example.paths)
      "zenodo" 3 (dict_set "id_type" (PStr "version") []).
Proof.
  pose proof (parse_entry_id_checks (Z_:=Example.zenodo) (P_:=Example.paths)
                (B_:=Example.builtins) "zenodo") as H.
  split; [|split; [|split]].
  - apply (proj1 (H "12x" [])). reflexivity.
  - apply (proj1 (proj2 (H "1" []) 1%Z "concept" eq_refl eq_refl)). reflexivity.
  - apply (proj1 (proj2 (proj2 (H "2" []) 2%Z "other" eq_refl eq_refl)));
      discriminate.
  - apply (proj2 (proj2 (proj2 (H "3" []) 3%Z "version" eq_refl eq_refl))).
    reflexivity.
Defined.

(* ================================================================= *)
(** ** Figure markup *)

Lemma index_of_tag_le (t : string) (l : list Element) (i : nat) (e : Element) :
  nth_error l i = Some e -> has_tag t e = true ->
  exists k, index_of_tag t l = Some k /\ k <= i.
Proof.
  revert i. induction l as [|x l IH]; intros [|i] Hnth Htag; simpl in *;
    try discriminate.
  - inversion Hnth. subst x. rewrite Htag. exists 0. split; [reflexivity | lia].
  - destruct (has_tag t x); [exists 0; split; [reflexivity | lia]|].
    destruct (IH i Hnth Htag) as [k [Hk Hle]].
    rewrite Hk. exists (S k). split; [reflexivity | lia].
Qed.

Lemma index_of_tag_lt_length (t : string) (l : list Element) (k : nat) :
  index_of_tag t l = Some k -> k < List.length l.
Proof.
  revert k. induction l as [|x l IH]; intros k; simpl; [discriminate|].
  destruct (has_tag t x).
  - intros H. inversion H. lia.
  - destruct (index_of_tag t l) as [k'|]; simpl; [|discriminate].
    intros H. inversion H. specialize (IH k' eq_refl). lia.
Qed.


Lemma nested_label_check_cases (caption : Element) :
  nested_label_check caption = Ok tt \/
  is_FigureFormatError (nested_label_check caption).
Proof.
  unfold nested_label_check. destruct (findall "LABEL" caption).
  - left. reflexivity.
  - right. eexists. reflexivity.
Qed.

Lemma for_each_nested_cases (captions : list Element) :
  for_each nested_label_check captions = Ok tt \/
  is_FigureFormatError (for_each nested_label_check captions).
Proof.
  induction captions as [|c captions IH]; simpl.
  - left. reflexivity.
  - destruct (nested_label_check_cases c) as [H|[msg H]]; rewrite H; simpl.
    + exact IH.
    + right. exists msg. reflexivity.
Qed.

Lemma order_check_cases (elements captions labels : list Element) :
  order_check elements captions labels = Ok tt \/
  is_FigureFormatError (order_check elements captions labels).
Proof.
  unfold order_check.
  destruct captions; [left; reflexivity|].
  destruct labels; [left; reflexivity|].
  destruct (_ <? _)%Z; [right; eexists; reflexivity|].
  destruct (_ >? _)%Z; [right; eexists; reflexivity | left; reflexivity].
Qed.






(* ================================================================= *)
(** ** The synthetic entries of the figure tree *)

Section TreeFacts.
Context {Z_ : Zenodo} {P_ : Paths} {F_ : FileSystem} {B_ : Builtins}.

Lemma alias_dependencies_no_script (config : Config) (extended : list string)
  (e : FigureEntry.t) :
  FigureEntry.script e = None -> alias_dependencies config extended e = e.
Proof. unfold alias_dependencies. intros ->. reflexivity. Qed.

(** What [get_json_tree] puts under the two synthetic keys. *)
Lemma get_json_tree_synthetic (config : Config) (xml : result Element) (t : Tree) :
  get_json_tree config xml = Ok t ->
  exists dynamic static command,
    dict_get (Some "free-floating-dynamic") (figures t)
    = Some (FigureEntry.mk None dynamic [] [] None) /\
    dict_get (Some "free-floating-static") (figures t)
    = Some (FigureEntry.mk None static [] [] (Some command)) /\
    cp_command static = Ok command.
Proof.
  unfold get_json_tree. intros H.
  apply bind_Ok_inv in H. destruct H as [xml_tree [_ H]].
  apply bind_Ok_inv in H. destruct H as [graphicspath [_ H]].
  apply bind_Ok_inv in H. destruct H as [st [_ H]].
  apply bind_Ok_inv in H. destruct H as [top [_ H]].
  apply bind_Ok_inv in H. destruct H as [static [_ H]].
  apply bind_Ok_inv in H. destruct H as [command [Hcp H]].
  inversion H. subst t. clear H. cbn [figures].
  eexists. exists static, command. split; [|split; [|exact Hcp]].
  - rewrite dict_get_set_other by discriminate.
    apply dict_get_set_same.
  - apply dict_get_set_same.
Qed.

(** The copy command always names the figures directory as its
    target; without sources nothing stands between [cp] and it. *)
Lemma cp_command_shape (graphics : list string) (command : string) :
  cp_command graphics = Ok command ->
  exists srcs dest,
    relative_to figures_dir repo = Ok dest /\
    List.length srcs = List.length graphics /\
    command = "cp " +++ join " " srcs +++ " " +++ as_posix dest.
Proof.
  unfold cp_command. intros H.
  apply bind_Ok_inv in H. destruct H as [srcs [Hsrcs H]].
  apply bind_Ok_inv in H. destruct H as [dest [Hdest H]].
  inversion H. exists srcs, dest. split; [exact Hdest|]. split; [|reflexivity].
  clear - Hsrcs. revert srcs Hsrcs.
  induction graphics as [|g graphics IH]; simpl; intros srcs H.
  - inversion H. reflexivity.
  - apply bind_Ok_inv in H. destruct H as [y [_ H]].
    apply bind_Ok_inv in H. destruct H as [ys [Hys H]].
    inversion H. simpl. rewrite (IH ys Hys). reflexivity.
Qed.

(** C10.  After every successful preprocessing run the figure tree
    has the entries "free-floating-dynamic" and "free-floating-static",
    both with no script and with empty dependency and dataset lists;
    the command of the dynamic entry is absent; the command of the
    static entry is the copy command to the figures directory, one
    source per static free-floating graphic, and with no graphic it
    is [cp], two spaces and the directory. *)
Theorem preprocess_synthetic_entries (config config' : Config)
  (xml : result Element) :
  preprocess config xml = Ok config' ->
  exists t dynamic static srcs dest,
    tree config' = Some t /\
    dict_get (Some "free-floating-dynamic") (figures t)
    = Some (FigureEntry.mk None dynamic [] [] None) /\
    dict_get (Some "free-floating-static") (figures t)
    = Some (FigureEntry.mk None static [] []
              (Some ("cp " +++ join " " srcs +++ " " +++ as_posix dest))) /\
    relative_to figures_dir repo = Ok dest /\
    List.length srcs = List.length static /\
    (static = [] ->
     dict_get (Some "free-floating-static") (figures t)
     = Some (FigureEntry.mk None [] [] [] (Some ("cp  " +++ as_posix dest)))).
Proof.
  unfold preprocess. intros H.
  apply bind_Ok_inv in H. destruct H as [c1 [_ H]].
  apply bind_Ok_inv in H. destruct H as [c2 [_ H]].
  apply bind_Ok_inv in H. destruct H as [t [Ht H]].
  inversion H. subst config'. clear H. unfold finalize.
  destruct (get_json_tree_synthetic _ _ _ Ht) as [dynamic [static [command [Hd [Hs Hcp]]]]].
  destruct (cp_command_shape _ _ Hcp) as [srcs [dest [Hdest [Hlen Hcmd]]]].
  subst command.
  eexists. exists dynamic, static, srcs, dest.
  split; [reflexivity|]. cbn [figures].
  assert (Hstatic :
    dict_get (Some "free-floating-static")
      (map (fun kv => (fst kv,
                       alias_dependencies c2 (ms_dependencies c2 (figures t)) (snd kv)))
           (figures t))
    = Some (FigureEntry.mk None static [] []
              (Some ("cp " +++ join " " srcs +++ " " +++ as_posix dest)))).
  { rewrite dict_get_map_values, Hs. reflexivity. }
  split; [|split; [exact Hstatic | split; [exact Hdest | split; [exact Hlen|]]]].
  - rewrite dict_get_map_values, Hd. reflexivity.
  - intros ->. rewrite Hstatic.
    destruct srcs; [reflexivity | discriminate Hlen].
Qed.

End TreeFacts.

(** A whole run on the example manuscript. *)
Lemma preprocess_synthetic_entries_witness :
  exists config' t dynamic static srcs dest,
    preprocess (Z_:=Example.zenodo) (P_:=Example.paths) (F_:=Example.file_system)
      (B_:=Example.builtins) example_config (Ok example_xml) = Ok config' /\
    tree config' = Some t /\
    dict_get (Some "free-floating-dynamic") (figures t)
    = Some (FigureEntry.mk None dynamic [] [] None) /\
    dict_get (Some "free-floating-static") (figures t)
    = Some (FigureEntry.mk None static [] []
              (Some ("cp " +++ join " " srcs +++ " " +++ as_posix dest))).
Proof.
  destruct (preprocess (Z_:=Example.zenodo) (P_:=Example.paths)
              (F_:=Example.file_system) (B_:=Example.builtins)
              example_config (Ok example_xml)) as [config'|e] eqn:Hrun;
    [|vm_compute in Hrun; discriminate Hrun].
  destruct (preprocess_synthetic_entries (Z_:=Example.zenodo) (P_:=Example.paths)
              (F_:=Example.file_system) (B_:=Example.builtins)
              example_config config' (Ok example_xml) Hrun)
    as [t [dynamic [static [srcs [dest [Ht [Hd [Hs _]]]]]]]].
  exists config', t, dynamic, static, srcs, dest.
  split; [reflexivity|]. split; [exact Ht|]. split; [exact Hd | exact Hs].
Defined.

(* ================================================================= *)
(** ** Dataset labels *)


Lemma script_key_not_dataset_key (label : option string) (n : string) :
  script_key label <> dataset_key label n.
Proof.
  unfold script_key, dataset_key. intros H.
  apply append_inj_l in H. discriminate H.
Qed.

Section LabelFacts.
Context {Z_ : Zenodo} {P_ : Paths} {F_ : FileSystem} {B_ : Builtins}.

Lemma fold_dataset_labels_other (label : string) (pairs : list (string * string))
  (labels : dict string) (k : string) :
  (forall dn, In dn pairs -> k <> label +++ "_dataset" +++ snd dn) ->
  dict_get k
    (fold_left (fun l dn => dict_set (label +++ "_dataset" +++ snd dn) (fst dn) l)
               pairs labels)
  = dict_get k labels.
Proof.
  revert labels. induction pairs as [|dn pairs IH]; intros labels H; simpl.
  - reflexivity.
  - rewrite IH by (intros dn' Hin; apply H; right; exact Hin).
    apply dict_get_set_other. apply H. left. reflexivity.
Qed.

(** The labels of a figure touch at most four keys. *)
Lemma figure_labels_other (labels : dict string) (label : option string)
  (e : FigureEntry.t) (k : string) :
  k <> script_key label ->
  k <> dataset_key label "One" ->
  k <> dataset_key label "Two" ->
  k <> dataset_key label "Three" ->
  dict_get k (figure_labels labels (label, e)) = dict_get k labels.
Proof.
  intros Hs H1 H2 H3. unfold figure_labels. cbn [fst snd].
  rewrite fold_dataset_labels_other.
  - destruct (FigureEntry.script e); [|reflexivity].
    apply dict_get_set_other. exact Hs.
  - intros [d n] Hin. apply in_combine_r in Hin. cbn [snd].
    destruct Hin as [<-|[<-|[<-|[]]]]; assumption.
Qed.



End LabelFacts.

Section DatasetFacts.
Context {Z_ : Zenodo} {P_ : Paths} {F_ : FileSystem} {B_ : Builtins}.





Context {BO : BuiltinsOk}.


End DatasetFacts.


Section TreeDatasets.
Context {Z_ : Zenodo} {P_ : Paths} {F_ : FileSystem} {B_ : Builtins}
        {BO : BuiltinsOk}.







End TreeDatasets.

Lemma dedup_In (l : list string) (x : string) :
  In x (Example.dedup l) <-> In x l.
Proof.
  induction l as [|y l IH]; simpl; [reflexivity|].
  rewrite filter_In, IH. split.
  - intros [H|[H _]]; [left | right]; exact H.
  - intros [H|H]; [left; exact H|].
    destruct (string_dec y x) as [Heq|Hne]; [left; exact Heq|].
    right. split; [exact H|].
    apply negb_true_iff. apply String.eqb_neq. exact Hne.
Qed.

Lemma dedup_NoDup (l : list string) : NoDup (Example.dedup l).
Proof.
  induction l as [|y l IH]; simpl; constructor.
  - rewrite filter_In. intros [_ H].
    rewrite String.eqb_refl in H. discriminate H.
  - apply NoDup_filter. exact IH.
Qed.

#[export] Instance example_builtins_ok : BuiltinsOk (B_:=Example.builtins).
Proof.
  split.
  - exact dedup_NoDup.
  - intros l x. apply dedup_In.
Defined.


(* ================================================================= *)
(** ** Overleaf *)


Section OverleafFacts.
Context {P_ : Paths} {F_ : FileSystem}.

Lemma normalize_declared (field : string) (ov : dict pyval) (files : list string) :
  declares (dict_get field ov) files ->
  normalize_list_field field ov
  = Ok (dict_set field (PList (map PStr files)) ov, map PStr files).
Proof.
  unfold normalize_list_field, dict_get_default.
  intros [[-> [H|H]]|H]; rewrite H; simpl.
  - reflexivity.
  - rewrite dict_set_set. reflexivity.
  - reflexivity.
Qed.

Lemma check_under_tex_cases (file : string) :
  (under_tex file /\ check_under_tex (PStr file) = Ok tt) \/
  (~ under_tex file /\ exists msg, check_under_tex (PStr file) = Raise (ConfigError msg)).
Proof.
  unfold check_under_tex, under_tex. simpl.
  destruct (is_relative_to (resolve (Path file)) tex).
  - left. split; reflexivity.
  - right. split; [discriminate | eexists; reflexivity].
Qed.

Lemma for_each_check_under_tex (files : list string) :
  (Forall under_tex files /\ for_each check_under_tex (map PStr files) = Ok tt) \/
  (Exists (fun f => ~ under_tex f) files /\
   exists msg, for_each check_under_tex (map PStr files) = Raise (ConfigError msg)).
Proof.
  induction files as [|f files IH]; simpl.
  - left. split; [constructor | reflexivity].
  - destruct (check_under_tex_cases f) as [[Hu Hc]|[Hu [msg Hc]]]; rewrite Hc; simpl.
    + destruct IH as [[Hall Hok]|[Hex Hraise]].
      * left. split; [constructor; assumption | exact Hok].
      * right. split; [apply Exists_cons_tl; exact Hex | exact Hraise].
    + right. split; [apply Exists_cons_hd; exact Hu | exists msg; reflexivity].
Qed.

Lemma map_tex_relative (files : list string) :
  Forall under_tex files ->
  map_result tex_relative (map PStr files) = Ok (map tex_rel files).
Proof.
  induction 1 as [|f files Hf Hfiles IH]; simpl; [reflexivity|].
  rewrite IH. unfold tex_relative, relative_to, tex_rel. simpl.
  unfold under_tex in Hf. rewrite Hf. reflexivity.
Qed.

Lemma overlap_true_iff (a b : list string) :
  overlap a b = true <-> exists x, In x a /\ In x b.
Proof.
  unfold overlap. rewrite existsb_exists.
  split; intros [x [Ha Hb]]; exists x; (split; [exact Ha|]);
    apply mem_true_iff; exact Hb.
Qed.

(** What [parse_overleaf] does once the fields are read. *)
Lemma parse_overleaf_dict_declared (ov : dict pyval) (push pull : list string) :
  declares (dict_get "push" ov) push ->
  declares (dict_get "pull" ov) pull ->
  parse_overleaf_dict ov
  = (for_each check_under_tex (map PStr (push ++ pull)) ;;;
     push_files <- map_result tex_relative (map PStr push) ;;
     pull_files <- map_result tex_relative (map PStr pull) ;;
     if overlap push_files pull_files then
       Raise (ConfigError
         ("Error parsing the config. " +++
          "One more more files are listed in both `overleaf.push` and " +++
          "`overleaf.pull`, which is not supported."))
     else
       Ok (dict_set "pull" (PList (map PStr pull))
             (dict_set "push" (PList (map PStr push))
                (dict_set "auto-commit"
                   (dict_get_default "auto-commit" (PBool false) ov)
                   (dict_set "id" (dict_get_default "id" PNone ov) ov))))).
Proof.
  intros Hpush Hpull. unfold parse_overleaf_dict.
  set (ov1 := dict_set "id" (dict_get_default "id" PNone ov) ov).
  assert (Hac : dict_get_default "auto-commit" (PBool false) ov1
                = dict_get_default "auto-commit" (PBool false) ov).
  { unfold dict_get_default, ov1. rewrite dict_get_set_other by discriminate.
    reflexivity. }
  rewrite Hac.
  set (ov2 := dict_set "auto-commit" _ ov1).
  assert (Hpush2 : declares (dict_get "push" ov2) push).
  { unfold ov2, ov1. rewrite !dict_get_set_other by discriminate. exact Hpush. }
  rewrite (normalize_declared _ _ _ Hpush2). cbn [bind fst snd].
  assert (Hpull2 : declares (dict_get "pull" (dict_set "push" (PList (map PStr push)) ov2)) pull).
  { unfold ov2, ov1. rewrite !dict_get_set_other by discriminate. exact Hpull. }
  rewrite (normalize_declared _ _ _ Hpull2). cbn [bind fst snd].
  rewrite map_app. reflexivity.
Qed.

(** C7.  With [push] and [pull] declared as lists of file names
    (absent and [None] count as empty): validation raises a
    configuration failure whenever some file resolves outside the
    manuscript-source directory, or some file of [push] and some file
    of [pull] resolve to the same path relative to that directory (as
    [notes.tex] listed in both does in every case); when all files
    resolve under the directory and no such pair exists it succeeds,
    [id] defaults to [None], [auto-commit] to [False], and [push] and
    [pull] are lists, empty for an absent or [None] field; the other
    keys are untouched. *)
Theorem parse_overleaf_validation (ov : dict pyval) (push pull : list string) :
  declares (dict_get "push" ov) push ->
  declares (dict_get "pull" ov) pull ->
  ((exists f, In f (push ++ pull) /\ ~ under_tex f) \/
   (exists f g, In f push /\ In g pull /\ tex_rel f = tex_rel g) ->
   exists msg, parse_overleaf_dict ov = Raise (ConfigError msg))
  /\
  (push = ["notes.tex"] -> pull = ["notes.tex"] ->
   exists msg, parse_overleaf_dict ov = Raise (ConfigError msg))
  /\
  ((forall f, In f (push ++ pull) -> under_tex f) ->
   (forall f g, In f push -> In g pull -> tex_rel f <> tex_rel g) ->
   exists ov',
     parse_overleaf_dict ov = Ok ov' /\
     dict_get "id" ov' = Some (dict_get_default "id" PNone ov) /\
     dict_get "auto-commit" ov'
     = Some (dict_get_default "auto-commit" (PBool false) ov) /\
     dict_get "push" ov' = Some (PList (map PStr push)) /\
     dict_get "pull" ov' = Some (PList (map PStr pull)) /\
     forall k, k <> "id" -> k <> "auto-commit" -> k <> "push" -> k <> "pull" ->
               dict_get k ov' = dict_get k ov).
Proof.
  intros Hpush Hpull.
  rewrite (parse_overleaf_dict_declared ov push pull Hpush Hpull).
  assert (Hraise :
    (exists f, In f (push ++ pull) /\ ~ under_tex f) \/
    (exists f g, In f push /\ In g pull /\ tex_rel f = tex_rel g) ->
    exists msg,
      (for_each check_under_tex (map PStr (push ++ pull)) ;;;
       push_files <- map_result tex_relative (map PStr push) ;;
       pull_files <- map_result tex_relative (map PStr pull) ;;
       if overlap push_files pull_files then
         Raise (ConfigError
           ("Error parsing the config. " +++
            "One more more files are listed in both `overleaf.push` and " +++
            "`overleaf.pull`, which is not supported."))
       else
         Ok (dict_set "pull" (PList (map PStr pull))
               (dict_set "push" (PList (map PStr push))
                  (dict_set "auto-commit"
                     (dict_get_default "auto-commit" (PBool false) ov)
                     (dict_set "id" (dict_get_default "id" PNone ov) ov)))))
      = Raise (ConfigError msg)).
  { intros Hbad.
    destruct (for_each_check_under_tex (push ++ pull)) as [[Hall Hok]|[Hex [msg Hr]]];
      [|rewrite Hr; exists msg; reflexivity].
    rewrite Hok. cbn [bind].
    apply Forall_app in Hall. destruct Hall as [Hp Hq].
    rewrite (map_tex_relative _ Hp), (map_tex_relative _ Hq). cbn [bind].
    destruct Hbad as [[f [Hin Hout]]|[f [g [Hf [Hg Heq]]]]].
    - exfalso. apply Hout.
      pose proof (proj2 (Forall_app _ _ _) (conj Hp Hq)) as Hall.
      rewrite Forall_forall in Hall. apply Hall. exact Hin.
    - assert (Hov : overlap (map tex_rel push) (map tex_rel pull) = true).
      { apply overlap_true_iff. exists (tex_rel f). split.
        - apply in_map. exact Hf.
        - rewrite Heq. apply in_map. exact Hg. }
      rewrite Hov. eexists. reflexivity. }
  split; [exact Hraise|]. split.
  - intros -> ->. apply Hraise.
    right. exists "notes.tex", "notes.tex".
    repeat split; left; reflexivity.
  - intros Hunder Hdisjoint.
    destruct (for_each_check_under_tex (push ++ pull)) as [[Hall Hok]|[Hex _]].
    + rewrite Hok. cbn [bind].
      apply Forall_app in Hall. destruct Hall as [Hp Hq].
      rewrite (map_tex_relative _ Hp), (map_tex_relative _ Hq). cbn [bind].
      assert (Hov : overlap (map tex_rel push) (map tex_rel pull) = false).
      { destruct (overlap _ _) eqn:Ho; [|reflexivity].
        apply overlap_true_iff in Ho. destruct Ho as [x [Hx1 Hx2]].
        apply in_map_iff in Hx1. destruct Hx1 as [f [Hf1 Hf2]].
        apply in_map_iff in Hx2. destruct Hx2 as [g [Hg1 Hg2]].
        exfalso. apply (Hdisjoint f g Hf2 Hg2). congruence. }
      rewrite Hov. eexists. split; [reflexivity|].
      split; [|split; [|split; [|split]]].
      * rewrite !dict_get_set_other by discriminate. apply dict_get_set_same.
      * rewrite !dict_get_set_other by discriminate. apply dict_get_set_same.
      * rewrite dict_get_set_other by discriminate. apply dict_get_set_same.
      * apply dict_get_set_same.
      * intros k H1 H2 H3 H4. rewrite !dict_get_set_other by assumption.
        reflexivity.
    + exfalso. apply Exists_exists in Hex. destruct Hex as [f [Hin Hout]].
      apply Hout. apply Hunder. exact Hin.
Qed.

End OverleafFacts.

(** [notes.tex] pushed and pulled is refused; one pushed file under
    the manuscript directory and no [pull] is accepted. *)
Lemma parse_overleaf_validation_witness :
  (exists msg,
      parse_overleaf_dict (P_:=Example.paths) (F_:=Example.file_system)
        [("push", PList [PStr "notes.tex"]); ("pull", PList [PStr "notes.tex"])]
      = Raise (ConfigError msg)) /\
  (exists ov',
      parse_overleaf_dict (P_:=Example.paths) (F_:=Example.file_system)
        [("push", PList [PStr "src/tex/a.tex"]); ("pull", PNone)] = Ok ov' /\
      dict_get "id" ov' = Some PNone /\
      dict_get "auto-commit" ov' = Some (PBool false) /\
      dict_get "push" ov' = Some (PList [PStr "src/tex/a.tex"]) /\
      dict_get "pull" ov' = Some (PList [])).
Proof.
  split.
  - refine (proj1 (proj2 (parse_overleaf_validation (P_:=Example.paths)
              (F_:=Example.file_system)
              [("push", PList [PStr "notes.tex"]); ("pull", PList [PStr "notes.tex"])]
              ["notes.tex"] ["notes.tex"] _ _)) eq_refl eq_refl);
      right; reflexivity.
  - destruct (proj2 (proj2 (parse_overleaf_validation (P_:=Example.paths)
                (F_:=Example.file_system)
                [("push", PList [PStr "src/tex/a.tex"]); ("pull", PNone)]
                ["src/tex/a.tex"] []
                (or_intror eq_refl)
                (or_introl (conj eq_refl (or_intror eq_refl))))))
      as [ov' [Hrun [Hid [Hac [Hpush [Hpull _]]]]]].
    + intros f [<-|[]]. vm_compute. reflexivity.
    + intros f g _ [].
    + exists ov'. repeat split; assumption.
Defined.

(* ================================================================= *)
(** ** Zenodo deposits: archives *)

Section ArchiveFacts.
Context {Z_ : Zenodo}.

(** The step on a key inside an archive, spelled out. *)
Lemma archive_step_archive (tmp_path : PurePath) (deposit_id : Z)
  (contents : dict pyval) (zip_files : dict (dict pyval))
  (source : string) (target : pyval) (zip_file : string) (rest : list string) :
  dict_get source contents = Some target ->
  is_list target = false ->
  parts (Path source) = zip_file :: rest ->
  is_zip_file zip_file = true ->
  archive_step tmp_path deposit_id (contents, zip_files) source
  = Ok (dict_set zip_file (PStr (staging_path tmp_path deposit_id zip_file))
                 (dict_del source contents),
        match dict_get zip_file zip_files with
        | Some m =>
            dict_set zip_file
              (dict_set (as_posix (Path_of_parts rest)) target m) zip_files
        | None =>
            dict_set zip_file [(as_posix (Path_of_parts rest), target)] zip_files
        end).
Proof.
  intros Hget Hlist Hparts Hzip.
  unfold archive_step, dict_item. rewrite Hget. cbn [bind].
  rewrite Hlist, Hparts, Hzip. reflexivity.
Qed.

End ArchiveFacts.

(* ================================================================= *)
(** ** Zenodo deposits: flattening *)






Section FlattenFacts.
Context {Z_ : Zenodo} {P_ : Paths}.







End FlattenFacts.


(** The nested archive of the documentation, run. *)
Example flatten_archive_member :
  flatten_zenodo_contents (Z_:=Example.zenodo) (P_:=Example.paths)
    (PDict [("archive.zip", PDict [("inner.csv", PNone)])]) "" (PStr "data")
  = Ok [("archive.zip/inner.csv", PStr "data/archive/inner.csv")].
Proof. reflexivity. Qed.

(* ================================================================= *)
(** ** Zenodo deposits: the whole archive loop *)

Lemma split_no_sep (sep : ascii) (s w : string) :
  In w (split sep s) -> contains sep w = false.
Proof.
  revert w. induction s as [|c s IH]; intros w; simpl.
  - intros [<-|[]]. reflexivity.
  - destruct (Ascii.eqb c sep) eqn:Hc.
    + intros [<-|Hin]; [reflexivity | apply IH; exact Hin].
    + pose proof (split_not_nil sep s) as Hne.
      destruct (split sep s) as [|w0 ws]; [congruence|].
      intros [<-|Hin].
      * simpl. rewrite Hc. apply IH. left. reflexivity.
      * apply IH. right. exact Hin.
Qed.

Lemma split_without_sep (sep : ascii) (s : string) :
  contains sep s = false -> split sep s = [s].
Proof.
  induction s as [|c s IH]; simpl; [reflexivity|].
  intros H. apply orb_false_iff in H. destruct H as [Hc Hs].
  rewrite Hc, (IH Hs). reflexivity.
Qed.

(** A path segment, taken as a path, is that one segment. *)
Lemma segment_parts (z : string) :
  contains "/" z = false -> keep_segment z = true -> parts (Path z) = [z].
Proof.
  intros Hno Hkeep. unfold Path. rewrite (split_without_sep _ _ Hno).
  cbn [filter]. rewrite Hkeep.
  assert (Hroot : path_root z = "").
  { unfold path_root. destruct z as [|c z]; [reflexivity|].
    cbn [contains] in Hno. apply orb_false_iff in Hno. destruct Hno as [Hc _].
    cbn [startswith]. rewrite (Ascii.eqb_sym "/" c), Hc. reflexivity. }
  rewrite Hroot. reflexivity.
Qed.

Lemma path_root_cases (s : string) :
  path_root s = "" \/ path_root s = "/" \/ path_root s = "//".
Proof.
  unfold path_root.
  destruct (startswith s "//" && negb (startswith s "///")); [right; right; reflexivity|].
  destruct (startswith s "/"); [right; left; reflexivity | left; reflexivity].
Qed.

(** A part of a path, taken as a path, is that one part. *)
Lemma part_is_single (s z : string) :
  In z (parts (Path s)) -> parts (Path z) = [z].
Proof.
  unfold parts at 1. cbn [root segs Path].
  assert (Hseg : In z (filter keep_segment (split "/" s)) -> parts (Path z) = [z]).
  { intros Hin. apply filter_In in Hin. destruct Hin as [Hin Hkeep].
    apply segment_parts; [|exact Hkeep].
    apply (split_no_sep _ s). exact Hin. }
  destruct (path_root_cases s) as [Hr|[Hr|Hr]]; rewrite Hr; cbn [String.eqb].
  - exact Hseg.
  - simpl. intros [<-|Hin]; [reflexivity | apply Hseg; exact Hin].
  - simpl. intros [<-|Hin]; [reflexivity | apply Hseg; exact Hin].
Qed.

(** A key that is not its own first part is not a part of any key. *)
Lemma compound_not_a_part (source zip_file : string) (rest : list string) (s : string) :
  parts (Path source) = zip_file :: rest ->
  source <> zip_file ->
  ~ In source (parts (Path s)).
Proof.
  intros Hparts Hne Hin.
  rewrite (part_is_single _ _ Hin) in Hparts.
  inversion Hparts. congruence.
Qed.


Section ArchiveLoop.
Context {Z_ : Zenodo}.
Variable tmp_path : PurePath.
Variable deposit_id : Z.

(** A later step does not undo what was done for another key. *)
Lemma archive_step_keeps_moved (st st' : dict pyval * dict (dict pyval))
  (s0 s : string) :
  archive_step tmp_path deposit_id st s0 = Ok st' ->
  s <> s0 ->
  member_moved tmp_path deposit_id st s ->
  member_moved tmp_path deposit_id st' s.
Proof.
  destruct st as [c z]. unfold archive_step.
  intros Hstep Hne Hmoved.
  apply bind_Ok_inv in Hstep. destruct Hstep as [target [_ Hstep]].
  destruct (is_list target); [discriminate|].
  destruct (parts (Path s0)) as [|z0 rest0] eqn:Hparts0; [discriminate|].
  destruct (is_zip_file z0) eqn:Hz0; [|inversion Hstep; subst; exact Hmoved].
  inversion Hstep. subst st'. clear Hstep.
  intros zf rest Hparts Hzf Hcomp.
  destruct (Hmoved zf rest Hparts Hzf Hcomp) as [Hgone [Hstaged [m [Hm Hhas]]]].
  cbn [fst snd] in *.
  assert (Hsz0 : s <> z0).
  { intros ->. apply (compound_not_a_part _ _ _ s0 Hparts Hcomp).
    rewrite Hparts0. left. reflexivity. }
  split; [|split].
  - rewrite dict_get_set_other by exact Hsz0.
    rewrite dict_get_del_other by exact Hne. exact Hgone.
  - destruct (string_dec zf z0) as [->|Hzz].
    + apply dict_get_set_same.
    + rewrite dict_get_set_other by exact Hzz.
      rewrite dict_get_del_other; [exact Hstaged|].
      intros ->.
      assert (Hsingle : parts (Path s0) = [s0]).
      { apply (part_is_single s). rewrite Hparts. left. reflexivity. }
      rewrite Hsingle in Hparts0. inversion Hparts0. congruence.
  - destruct (string_dec zf z0) as [->|Hzz].
    + rewrite Hm. eexists. split; [apply dict_get_set_same|].
      apply dict_has_set. exact Hhas.
    + exists m. split; [|exact Hhas].
      destruct (dict_get z0 z); rewrite dict_get_set_other by exact Hzz; exact Hm.
Qed.

(** The step does it for its own key. *)
Lemma archive_step_moves (st st' : dict pyval * dict (dict pyval)) (s0 : string) :
  archive_step tmp_path deposit_id st s0 = Ok st' ->
  member_moved tmp_path deposit_id st' s0.
Proof.
  destruct st as [c z]. unfold archive_step. intros Hstep.
  apply bind_Ok_inv in Hstep. destruct Hstep as [target [_ Hstep]].
  destruct (is_list target); [discriminate|].
  intros zf rest Hparts Hzf Hcomp.
  rewrite Hparts, Hzf in Hstep. inversion Hstep. subst st'. clear Hstep.
  cbn [fst snd]. split; [|split].
  - rewrite dict_get_set_other by exact Hcomp. apply dict_get_del_same.
  - apply dict_get_set_same.
  - destruct (dict_get zf z) as [m|]; eexists;
      (split; [apply dict_get_set_same|]); unfold dict_has.
    + rewrite dict_get_set_same. reflexivity.
    + simpl. rewrite String.eqb_refl. reflexivity.
Qed.

Lemma fold_archive_step_moved (keys : list string) :
  forall (st st' : dict pyval * dict (dict pyval)) (done : list string),
    NoDup (done ++ keys) ->
    (forall s, In s done -> member_moved tmp_path deposit_id st s) ->
    fold_result (archive_step tmp_path deposit_id) keys st = Ok st' ->
    forall s, In s (done ++ keys) -> member_moved tmp_path deposit_id st' s.
Proof.
  induction keys as [|k keys IH]; intros st st' done Hnodup Hdone Hfold s Hin;
    simpl in Hfold.
  - inversion Hfold. subst st'. rewrite app_nil_r in Hin. apply Hdone. exact Hin.
  - apply bind_Ok_inv in Hfold. destruct Hfold as [st1 [Hstep Hfold]].
    apply (IH st1 st' (done ++ [k])).
    + rewrite <- app_assoc. exact Hnodup.
    + intros s' Hs'. apply in_app_iff in Hs'. destruct Hs' as [Hs'|[<-|[]]].
      * apply (archive_step_keeps_moved st st1 k s' Hstep); [|apply Hdone; exact Hs'].
        intros ->. apply NoDup_remove_2 in Hnodup. apply Hnodup.
        apply in_app_iff. left. exact Hs'.
      * apply (archive_step_moves st st1 k Hstep).
    + exact Hfold.
    + rewrite <- app_assoc. exact Hin.
Qed.

(** Through the whole loop on the flattened contents of a deposit:
    every key inside an archive has left [contents], its archive is
    staged, and [zip_files] lists its member. *)
Lemma extract_archives_moves_members (contents contents' : dict pyval)
  (zip_files' : dict (dict pyval)) :
  NoDup (dict_keys contents) ->
  extract_archives tmp_path deposit_id contents = Ok (contents', zip_files') ->
  forall source zip_file rest,
    In source (dict_keys contents) ->
    parts (Path source) = zip_file :: rest ->
    is_zip_file zip_file = true ->
    source <> zip_file ->
    dict_get source contents' = None /\
    dict_get zip_file contents'
    = Some (PStr (staging_path tmp_path deposit_id zip_file)) /\
    exists members,
      dict_get zip_file zip_files' = Some members /\
      dict_has (as_posix (Path_of_parts rest)) members = true.
Proof.
  unfold extract_archives. intros Hnodup Hfold source zip_file rest Hin.
  apply (fold_archive_step_moved (dict_keys contents) (contents, [])
           (contents', zip_files') [] Hnodup).
  - intros s [].
  - exact Hfold.
  - exact Hin.
Qed.

End ArchiveLoop.


Section ContentsFacts.
Context {Z_ : Zenodo} {P_ : Paths}.

Lemma flatten_zenodo_contents_NoDup (d : pyval) (parent_key : string)
  (default_path : pyval) (contents : dict pyval) :
  flatten_zenodo_contents d parent_key default_path = Ok contents ->
  NoDup (dict_keys contents).
Proof.
  unfold flatten_zenodo_contents.
  destruct d; cbn [flatten_rec]; intros H; try discriminate;
    apply bind_Ok_inv in H; destruct H as [items [_ H]];
    inversion H; apply dict_of_items_NoDup.
Qed.

(** The entry [parse_zenodo_datasets] leaves behind: every declared
    file inside an archive is out of [contents], recorded in
    [zip_files], with its archive staged. *)
Lemma parse_contents_moves_members (host : string) (deposit_id : Z)
  (e1 : dict pyval) (entry' : pyval) :
  parse_contents host deposit_id e1 = Ok entry' ->
  exists e' flattened contents' zip_files',
    entry' = PDict e' /\
    flatten_zenodo_contents (dict_get_default "contents" (PDict []) e1) ""
      (dict_get_default "destination" (PStr (as_posix data_rel)) e1)
    = Ok flattened /\
    dict_get "contents" e' = Some (PDict contents') /\
    dict_get "zip_files" e' = Some (zip_files_value zip_files') /\
    forall source zip_file rest,
      In source (dict_keys flattened) ->
      parts (Path source) = zip_file :: rest ->
      is_zip_file zip_file = true ->
      source <> zip_file ->
      dict_get source contents' = None /\
      dict_get zip_file contents'
      = Some (PStr (staging_path (host_tmp_path host) deposit_id zip_file)) /\
      exists members,
        dict_get zip_file zip_files' = Some members /\
        dict_has (as_posix (Path_of_parts rest)) members = true.
Proof.
  unfold parse_contents. intros H.
  apply bind_Ok_inv in H. destruct H as [flattened [Hflat H]].
  apply bind_Ok_inv in H. destruct H as [[contents' zip_files'] [Hextract H]].
  inversion H. clear H. cbn [fst snd].
  eexists. exists flattened, contents', zip_files'.
  split; [reflexivity|].
  assert (Hcontents :
    dict_get_default "contents" (PDict [])
      (dict_set "destination"
         (dict_get_default "destination" (PStr (as_posix data_rel)) e1) e1)
    = dict_get_default "contents" (PDict []) e1).
  { unfold dict_get_default at 1 3.
    rewrite dict_get_set_other by discriminate. reflexivity. }
  rewrite Hcontents in Hflat.
  split; [exact Hflat|]. split; [apply dict_get_set_same|].
  split.
  - rewrite dict_get_set_other by discriminate. apply dict_get_set_same.
  - apply (extract_archives_moves_members _ _ flattened contents' zip_files').
    + eapply flatten_zenodo_contents_NoDup. exact Hflat.
    + exact Hextract.
Qed.

End ContentsFacts.

(* ================================================================= *)
(** ** Zenodo deposits: the archive-splitting step *)

Section ArchiveSplitting.
Context {Z_ : Zenodo}.

(** C5 (amended).  For every flattened contents pair whose target is
    not a list, whose first path segment ends with a recognized
    archive extension and whose key is not that bare archive name
    itself, the archive-splitting step removes the key from
    [contents], puts the pair (rest of the path, target) into
    [zip_files] under the archive name, keeping the other members
    already recorded for that archive and the other archives, and
    maps the archive name in [contents] to the staging path
    [<staging dir of the host>/<deposit_id>/<archive>]; the other
    keys of [contents] stay.  So the contents
    [archive.zip/inner.csv -> out/inner.csv] become the single entry
    for [archive.zip], with [inner.csv -> out/inner.csv] under
    [zip_files["archive.zip"]]. *)
Theorem archive_step_moves_member (tmp_path : PurePath) (deposit_id : Z)
  (contents : dict pyval) (zip_files : dict (dict pyval))
  (source : string) (target : pyval) (zip_file : string) (rest : list string) :
  dict_get source contents = Some target ->
  is_list target = false ->
  parts (Path source) = zip_file :: rest ->
  is_zip_file zip_file = true ->
  source <> zip_file ->
  (exists contents' zip_files' members,
      archive_step tmp_path deposit_id (contents, zip_files) source
      = Ok (contents', zip_files') /\
      dict_get source contents' = None /\
      dict_get zip_file contents'
      = Some (PStr (staging_path tmp_path deposit_id zip_file)) /\
      dict_get zip_file zip_files' = Some members /\
      dict_get (as_posix (Path_of_parts rest)) members = Some target /\
      (forall k, k <> as_posix (Path_of_parts rest) ->
                 dict_get k members
                 = match dict_get zip_file zip_files with
                   | Some m => dict_get k m
                   | None => None
                   end) /\
      (forall z, z <> zip_file -> dict_get z zip_files' = dict_get z zip_files) /\
      (forall k, k <> source -> k <> zip_file ->
                 dict_get k contents' = dict_get k contents))
  /\
  (forall flattened contents' zip_files',
      NoDup (dict_keys flattened) ->
      In source (dict_keys flattened) ->
      extract_archives tmp_path deposit_id flattened = Ok (contents', zip_files') ->
      dict_get source contents' = None /\
      dict_get zip_file contents'
      = Some (PStr (staging_path tmp_path deposit_id zip_file)) /\
      exists members,
        dict_get zip_file zip_files' = Some members /\
        dict_has (as_posix (Path_of_parts rest)) members = true)
  /\
  (In "zip" zip_exts ->
   extract_archives tmp_path deposit_id
     [("archive.zip/inner.csv", PStr "out/inner.csv")]
   = Ok ([("archive.zip", PStr (staging_path tmp_path deposit_id "archive.zip"))],
         [("archive.zip", [("inner.csv", PStr "out/inner.csv")])])).
Proof.
  intros Hget Hlist Hparts Hzip Hne. split; [|split].
  - rewrite (archive_step_archive _ _ _ _ _ _ _ _ Hget Hlist Hparts Hzip).
    destruct (dict_get zip_file zip_files) as [m|] eqn:Hm.
    + eexists. eexists. eexists. split; [reflexivity|].
      split; [|split; [|split; [|split; [|split; [|split]]]]].
      * rewrite dict_get_set_other by exact Hne. apply dict_get_del_same.
      * apply dict_get_set_same.
      * apply dict_get_set_same.
      * apply dict_get_set_same.
      * intros k Hk. apply dict_get_set_other. exact Hk.
      * intros z Hz. apply dict_get_set_other. exact Hz.
      * intros k Hks Hkz. rewrite dict_get_set_other by exact Hkz.
        apply dict_get_del_other. exact Hks.
    + eexists. eexists. eexists. split; [reflexivity|].
      split; [|split; [|split; [|split; [|split; [|split]]]]].
      * rewrite dict_get_set_other by exact Hne. apply dict_get_del_same.
      * apply dict_get_set_same.
      * apply dict_get_set_same.
      * simpl. rewrite String.eqb_refl. reflexivity.
      * intros k Hk. simpl. apply String.eqb_neq in Hk. rewrite Hk. reflexivity.
      * intros z Hz. apply dict_get_set_other. exact Hz.
      * intros k Hks Hkz. rewrite dict_get_set_other by exact Hkz.
        apply dict_get_del_other. exact Hks.
  - intros flattened contents' zip_files' Hnodup Hin Hextract.
    apply (extract_archives_moves_members tmp_path deposit_id flattened contents'
             zip_files' Hnodup Hextract source zip_file rest Hin Hparts Hzip Hne).
  - intros Hin.
    assert (Hz : is_zip_file "archive.zip" = true).
    { unfold is_zip_file. apply existsb_exists. exists "zip".
      split; [exact Hin | reflexivity]. }
    unfold extract_archives. cbn [dict_keys map fst fold_result].
    unfold archive_step.
    change (dict_item "archive.zip/inner.csv"
              [("archive.zip/inner.csv", PStr "out/inner.csv")])
      with (Ok (PStr "out/inner.csv")).
    cbn [bind is_list].
    change (parts (Path "archive.zip/inner.csv")) with ["archive.zip"; "inner.csv"].
    cbv beta iota. rewrite Hz. reflexivity.
Qed.

End ArchiveSplitting.

(** C5 (counterexample).  A pair whose key is the archive file itself:
    its first segment ends with [.zip], but after the step the key is
    still in [contents] (now mapped to the staging path), while the
    user's target sits in [zip_files] under the member name [.]. *)
Lemma archive_step_bare_archive_key_stays :
  parts (Path "archive.zip") = ["archive.zip"] /\
  is_zip_file (Z_:=Example.zenodo) "archive.zip" = true /\
  archive_step (Z_:=Example.zenodo) (@zenodo_rel Example.paths) 123
    ([("archive.zip", PStr "out")], []) "archive.zip"
  = Ok ([("archive.zip", PStr ".showyourwork/zenodo/123/archive.zip")],
        [("archive.zip", [(".", PStr "out")])]) /\
  extract_archives (Z_:=Example.zenodo) (@zenodo_rel Example.paths) 123 [("archive.zip", PStr "out")]
  = Ok ([("archive.zip", PStr ".showyourwork/zenodo/123/archive.zip")],
        [("archive.zip", [(".", PStr "out")])]) /\
  dict_get "archive.zip"
    [("archive.zip", PStr ".showyourwork/zenodo/123/archive.zip")] <> None.
Proof.
  repeat split; discriminate.
Qed.

(** One step, and the whole loop, on contents with a plain file and a
    member of [archive.zip], an archive that already has a member. *)
Lemma archive_step_moves_member_witness :
  (exists contents' zip_files',
      archive_step (Z_:=Example.zenodo) (@zenodo_rel Example.paths) 123
        ([("data.csv", PStr "src/data/data.csv");
          ("archive.zip/inner.csv", PStr "out/inner.csv")],
         [("archive.zip", [("first.csv", PStr "out/first.csv")])])
        "archive.zip/inner.csv"
      = Ok (contents', zip_files') /\
      dict_get "archive.zip/inner.csv" contents' = None /\
      dict_get "archive.zip" contents'
      = Some (PStr ".showyourwork/zenodo/123/archive.zip") /\
      dict_get "archive.zip" zip_files'
      = Some [("first.csv", PStr "out/first.csv");
              ("inner.csv", PStr "out/inner.csv")]) /\
  (exists contents' zip_files',
      extract_archives (Z_:=Example.zenodo) (@zenodo_rel Example.paths) 123
        [("data.csv", PStr "src/data/data.csv");
         ("archive.zip/inner.csv", PStr "out/inner.csv")]
      = Ok (contents', zip_files') /\
      dict_get "archive.zip/inner.csv" contents' = None /\
      dict_get "archive.zip" contents'
      = Some (PStr ".showyourwork/zenodo/123/archive.zip")).
Proof.
  pose proof (archive_step_moves_member (Z_:=Example.zenodo)
                (@zenodo_rel Example.paths) 123
                [("data.csv", PStr "src/data/data.csv");
                 ("archive.zip/inner.csv", PStr "out/inner.csv")]
                [("archive.zip", [("first.csv", PStr "out/first.csv")])]
                "archive.zip/inner.csv" (PStr "out/inner.csv")
                "archive.zip" ["inner.csv"]
                eq_refl eq_refl eq_refl eq_refl ltac:(discriminate))
    as [Hstep [Hloop _]].
  split.
  - destruct Hstep as [contents' [zip_files' [members [Hrun [Hgone [Hstaged [Hm _]]]]]]].
    exists contents', zip_files'.
    split; [exact Hrun|]. split; [exact Hgone|]. split; [exact Hstaged|].
    vm_compute in Hrun. inversion Hrun. reflexivity.
  - eexists. eexists. split; [reflexivity|].
    destruct (Hloop [("data.csv", PStr "src/data/data.csv");
                     ("archive.zip/inner.csv", PStr "out/inner.csv")]
                _ _
                ltac:(repeat constructor; simpl; intuition discriminate)
                ltac:(right; left; reflexivity)
                eq_refl) as [Hgone [Hstaged _]].
    split; [exact Hgone | exact Hstaged].
Defined.

(* ================================================================= *)
(** ** More on dictionaries *)

Section DictLookup.
Context {K V : Type} {E : EqKey K} {EO : EqKeyOk K}.

Lemma dict_get_In (k : K) (v : V) (d : kdict K V) :
  dict_get k d = Some v -> In (k, v) d.
Proof.
  induction d as [|[k' v'] d IH]; simpl; [discriminate|].
  destruct (key_eqb k k') eqn:Heq.
  - intros H. inversion H. apply key_eqb_eq in Heq. subst. left. reflexivity.
  - intros H. right. apply IH. exact H.
Qed.

Lemma dict_get_NoDup_In (k : K) (v : V) (d : kdict K V) :
  NoDup (dict_keys d) -> In (k, v) d -> dict_get k d = Some v.
Proof.
  induction d as [|[k' v'] d IH]; simpl; [intros _ []|].
  intros Hnd [Heq|Hin].
  - inversion Heq. subst. rewrite key_eqb_refl. reflexivity.
  - inversion Hnd as [|? ? Hnotin Hnd']. subst.
    destruct (key_eqb k k') eqn:Heq.
    + apply key_eqb_eq in Heq. subst k'. exfalso. apply Hnotin.
      change (In (fst (k, v)) (map fst d)). apply in_map. exact Hin.
    + apply IH; assumption.
Qed.

Lemma dict_get_key (k : K) (d : kdict K V) :
  In k (dict_keys d) -> exists v, dict_get k d = Some v.
Proof.
  induction d as [|[k' v'] d IH]; simpl; [intros []|].
  destruct (key_eqb k k') eqn:Heq; [eexists; reflexivity|].
  intros [Hk|Hin]; [|apply IH; exact Hin].
  subst k'. rewrite key_eqb_refl in Heq. discriminate Heq.
Qed.

(** Assigning to a key the value it has changes nothing. *)
Lemma dict_set_same_value (k : K) (v : V) (d : kdict K V) :
  dict_get k d = Some v -> dict_set k v d = d.
Proof.
  induction d as [|[k' v'] d IH]; simpl; [discriminate|].
  destruct (key_eqb k k') eqn:Heq.
  - intros H. inversion H. reflexivity.
  - intros H. rewrite (IH H). reflexivity.
Qed.

End DictLookup.

Lemma dict_of_items_values_Forall {K V : Type} {E : EqKey K} (P : V -> Prop)
  (items : list (K * V)) :
  Forall (fun kv => P (snd kv)) items ->
  Forall P (dict_values (dict_of_items items)).
Proof.
  unfold dict_of_items.
  assert (H : forall d : kdict K V,
             Forall P (dict_values d) ->
             Forall (fun kv => P (snd kv)) items ->
             Forall P (dict_values
               (fold_left (fun d kv => dict_set (fst kv) (snd kv) d) items d))).
  { induction items as [|kv items IH]; intros d Hd Hitems; simpl; [exact Hd|].
    inversion Hitems as [|? ? Hkv Hrest]. subst.
    apply IH; [|exact Hrest].
    apply dict_set_values_Forall; assumption. }
  apply H. constructor.
Qed.

(* ================================================================= *)
(** ** Zenodo deposits: what flattening leaves *)

Section FlattenTargets.
Context {Z_ : Zenodo} {P_ : Paths}.

Lemma flatten_leaf_is_leaf (new_key : string) (v : pyval)
  (dp : result PurePath) (kv : string * pyval) :
  (forall m, v <> PDict m) ->
  flatten_leaf new_key v dp = Ok kv -> is_leaf (snd kv) = true.
Proof.
  intros Hv. destruct v as [| b | z | s | l | m]; simpl; intros H;
    try (inversion H; reflexivity).
  - apply bind_Ok_inv in H. destruct H as [t [_ H]]. inversion H. reflexivity.
  - exfalso. apply (Hv m). reflexivity.
Qed.

Lemma flatten_items_leaves (recur : pyval -> string -> result (dict pyval))
  (parent_key : string) (dp : result PurePath) (kvs : list (string * pyval)) :
  Forall (fun kv => forall k sub, recur (snd kv) k = Ok sub ->
                    Forall (fun x => is_leaf (snd x) = true) sub) kvs ->
  forall items items',
    Forall (fun x => is_leaf (snd x) = true) items ->
    flatten_items recur parent_key dp kvs items = Ok items' ->
    Forall (fun x => is_leaf (snd x) = true) items'.
Proof.
  intros Hrec.
  induction Hrec as [|[k v] kvs Hv Hkvs IH]; intros items items' Hitems H;
    cbn [flatten_items] in H.
  - inversion H. subst. exact Hitems.
  - destruct v as [| b | z | s | l | m].
    6: { apply bind_Ok_inv in H. destruct H as [sub [Hsub H]].
         apply (IH _ _ (proj2 (Forall_app _ _ _) (conj Hitems (Hv _ _ Hsub))) H). }
    all: apply bind_Ok_inv in H; destruct H as [kv [Hleaf H]];
      (apply (IH (items ++ [kv]) items'); [|exact H]);
      apply Forall_app; split; [exact Hitems|];
      constructor; [|constructor];
      (eapply flatten_leaf_is_leaf; [|exact Hleaf]); intros; discriminate.
Qed.

Lemma flatten_rec_leaves (d : pyval) :
  forall parent_key dp contents,
    flatten_rec d parent_key dp = Ok contents ->
    Forall (fun x => is_leaf (snd x) = true) contents.
Proof.
  induction d as [| b | z | s | l | kvs IH] using pyval_dict_ind;
    intros parent_key dp contents H; cbn [flatten_rec] in H; try discriminate.
  - apply bind_Ok_inv in H. destruct H as [items [Hitems H]].
    inversion H. subst contents.
    apply (proj1 (Forall_map snd (fun v => is_leaf v = true) _)).
    apply (dict_of_items_values_Forall (fun v => is_leaf v = true)).
    refine (flatten_items_leaves _ _ _ _ _ _ _ (Forall_nil _) Hitems).
    repeat constructor. intros; discriminate.
  - apply bind_Ok_inv in H. destruct H as [items [Hitems H]].
    inversion H. subst contents.
    apply (proj1 (Forall_map snd (fun v => is_leaf v = true) _)).
    apply (dict_of_items_values_Forall (fun v => is_leaf v = true)).
    refine (flatten_items_leaves _ _ _ _ _ _ _ (Forall_nil _) Hitems).
    eapply Forall_impl; [|exact IH].
    intros kv Hkv k sub Hsub. exact (Hkv _ _ _ Hsub).
Qed.

(** X1.  Flattening leaves no missing target and no nested mapping:
    every value of the flattened [contents] is what the user wrote for
    a file, or the text synthesized for a file without target. *)
Theorem flatten_zenodo_contents_leaves (d : pyval) (parent_key : string)
  (default_path : pyval) (contents : dict pyval) :
  flatten_zenodo_contents d parent_key default_path = Ok contents ->
  forall k v, dict_get k contents = Some v ->
              v <> PNone /\ forall m, v <> PDict m.
Proof.
  unfold flatten_zenodo_contents. intros H k v Hget.
  pose proof (flatten_rec_leaves _ _ _ _ H) as Hleaves.
  rewrite Forall_forall in Hleaves.
  specialize (Hleaves (k, v) (dict_get_In _ _ _ Hget)). cbn [snd] in Hleaves.
  destruct v; try discriminate; split; intros; discriminate.
Qed.

End FlattenTargets.

(* ================================================================= *)
(** ** Zenodo deposits: invariants of the archive loop *)

Lemma dict_set_not_nil {K V : Type} {E : EqKey K} (k : K) (v : V) (d : kdict K V) :
  dict_set k v d <> [].
Proof. destruct d as [|[k' v'] d]; simpl; [|destruct (key_eqb k k')]; discriminate. Qed.

Section ArchiveInvariants.
Context {Z_ : Zenodo}.
Variable tmp_path : PurePath.
Variable deposit_id : Z.

Lemma archive_step_plain (contents : dict pyval) (zip_files : dict (dict pyval))
  (k : string) (v : pyval) (z : string) (rest : list string) :
  dict_get k contents = Some v ->
  is_list v = false ->
  parts (Path k) = z :: rest ->
  is_zip_file z = false ->
  archive_step tmp_path deposit_id (contents, zip_files) k = Ok (contents, zip_files).
Proof.
  intros Hget Hlist Hparts Hzip. unfold archive_step, dict_item.
  rewrite Hget. cbn [bind]. rewrite Hlist, Hparts, Hzip. reflexivity.
Qed.

Lemma archive_step_list (contents : dict pyval) (zip_files : dict (dict pyval))
  (k : string) (v : pyval) :
  dict_get k contents = Some v ->
  is_list v = true ->
  exists msg,
    archive_step tmp_path deposit_id (contents, zip_files) k
    = Raise (ZenodoContentsError msg).
Proof.
  intros Hget Hlist. unfold archive_step, dict_item.
  rewrite Hget. cbn [bind]. rewrite Hlist. eexists. reflexivity.
Qed.

Lemma fold_archive_step_plain (contents : dict pyval)
  (zip_files : dict (dict pyval)) (ks : list string) :
  (forall k, In k ks ->
             exists v z rest, dict_get k contents = Some v /\
                              parts (Path k) = z :: rest /\ is_zip_file z = false) ->
  ((forall k v, In k ks -> dict_get k contents = Some v -> is_list v = false) ->
   fold_result (archive_step tmp_path deposit_id) ks (contents, zip_files) = Ok (contents, zip_files))
  /\
  ((exists k v, In k ks /\ dict_get k contents = Some v /\ is_list v = true) ->
   exists msg,
     fold_result (archive_step tmp_path deposit_id) ks (contents, zip_files)
     = Raise (ZenodoContentsError msg)).
Proof.
  induction ks as [|k0 ks IH]; intros Hplain.
  - split; [reflexivity|]. intros [k [v [[] _]]].
  - destruct (Hplain k0 (or_introl eq_refl)) as [v0 [z [rest [Hget [Hparts Hzip]]]]].
    destruct (IH (fun k Hk => Hplain k (or_intror Hk))) as [IHok IHbad].
    cbn [fold_result]. split.
    + intros Hall.
      rewrite (archive_step_plain _ _ _ _ _ _ Hget
                 (Hall _ _ (or_introl eq_refl) Hget) Hparts Hzip).
      cbn [bind]. apply IHok. intros k v Hk. apply Hall. right. exact Hk.
    + intros [k [v [Hk [Hgetk Hlist]]]].
      destruct (is_list v0) eqn:Hlist0.
      * destruct (archive_step_list contents zip_files k0 v0 Hget Hlist0) as [msg Hmsg].
        rewrite Hmsg. exists msg. reflexivity.
      * rewrite (archive_step_plain _ _ _ _ _ _ Hget Hlist0 Hparts Hzip).
        cbn [bind]. apply IHbad. exists k, v.
        destruct Hk as [->|Hk]; [congruence|].
        repeat split; assumption.
Qed.

(** X2.  A deposit none of whose files is inside an archive: the
    loop leaves [contents] as it is and [zip_files] empty when no
    target is a list, and raises the contents failure when one is. *)
Theorem extract_archives_without_archive (contents : dict pyval) :
  (forall k, In k (dict_keys contents) ->
             exists z rest, parts (Path k) = z :: rest /\ is_zip_file z = false) ->
  ((forall k v, dict_get k contents = Some v -> is_list v = false) ->
   extract_archives tmp_path deposit_id contents = Ok (contents, []))
  /\
  ((exists k v, dict_get k contents = Some v /\ is_list v = true) ->
   exists msg,
     extract_archives tmp_path deposit_id contents = Raise (ZenodoContentsError msg)).
Proof.
  intros Hplain. unfold extract_archives.
  destruct (fold_archive_step_plain contents [] (dict_keys contents)) as [Hok Hbad].
  - intros k Hk. destruct (dict_get_key k contents Hk) as [v Hv].
    destruct (Hplain k Hk) as [z [rest H]]. exists v, z, rest. tauto.
  - split.
    + intros Hall. apply Hok. intros k v _. apply Hall.
    + intros [k [v [Hget Hlist]]]. apply Hbad. exists k, v.
      repeat split; try assumption.
      apply dict_get_In in Hget.
      change k with (fst (k, v)). apply in_map. exact Hget.
Qed.

(** What holds of [contents] and [zip_files] between two iterations:
    every archive recorded so far is a bare file name, staged in
    [contents], with at least one member. *)
Lemma archive_step_staged (st st' : dict pyval * dict (dict pyval)) (source : string) :
  (forall z m, dict_get z (snd st) = Some m ->
     is_zip_file z = true /\ parts (Path z) = [z] /\
     dict_get z (fst st) = Some (PStr (staging_path tmp_path deposit_id z)) /\
     m <> []) ->
  archive_step tmp_path deposit_id st source = Ok st' ->
  forall z m, dict_get z (snd st') = Some m ->
     is_zip_file z = true /\ parts (Path z) = [z] /\
     dict_get z (fst st') = Some (PStr (staging_path tmp_path deposit_id z)) /\
     m <> [].
Proof.
  destruct st as [c zf]. cbn [fst snd]. intros Hinv Hstep.
  unfold archive_step in Hstep.
  apply bind_Ok_inv in Hstep. destruct Hstep as [target [_ Hstep]].
  destruct (is_list target); [discriminate|].
  destruct (parts (Path source)) as [|z0 rest0] eqn:Hparts0; [discriminate|].
  destruct (is_zip_file z0) eqn:Hz0; [|inversion Hstep; subst; exact Hinv].
  inversion Hstep. subst st'. clear Hstep. cbn [fst snd].
  intros z m Hm.
  destruct (string_dec z z0) as [->|Hzz].
  - split; [exact Hz0|]. split.
    + apply (part_is_single source). rewrite Hparts0. left. reflexivity.
    + split; [apply dict_get_set_same|].
      destruct (dict_get z0 zf); rewrite dict_get_set_same in Hm;
        inversion Hm; [apply dict_set_not_nil | discriminate].
  - assert (Hm' : dict_get z zf = Some m).
    { destruct (dict_get z0 zf); rewrite dict_get_set_other in Hm by exact Hzz;
        exact Hm. }
    destruct (Hinv z m Hm') as [Hzip [Hsingle [Hstaged Hne]]].
    repeat split; try assumption.
    rewrite dict_get_set_other by exact Hzz.
    rewrite dict_get_del_other; [exact Hstaged|].
    intros ->. rewrite Hsingle in Hparts0. inversion Hparts0. congruence.
Qed.

(** X3.  After the archive loop, every archive listed in [zip_files]
    is the bare name of a recognized archive, has at least one member
    there, and is mapped in [contents] to its staging path. *)
Theorem extract_archives_zip_files_staged (contents contents' : dict pyval)
  (zip_files' : dict (dict pyval)) :
  extract_archives tmp_path deposit_id contents = Ok (contents', zip_files') ->
  forall z members,
    dict_get z zip_files' = Some members ->
    is_zip_file z = true /\
    parts (Path z) = [z] /\
    dict_get z contents' = Some (PStr (staging_path tmp_path deposit_id z)) /\
    members <> [].
Proof.
  unfold extract_archives.
  assert (H : forall ks st st',
    (forall z m, dict_get z (snd st) = Some m ->
       is_zip_file z = true /\ parts (Path z) = [z] /\
       dict_get z (fst st) = Some (PStr (staging_path tmp_path deposit_id z)) /\
       m <> []) ->
    fold_result (archive_step tmp_path deposit_id) ks st = Ok st' ->
    forall z m, dict_get z (snd st') = Some m ->
       is_zip_file z = true /\ parts (Path z) = [z] /\
       dict_get z (fst st') = Some (PStr (staging_path tmp_path deposit_id z)) /\
       m <> []).
  { induction ks as [|k ks IH]; intros st st' Hinv Hfold; cbn [fold_result] in Hfold.
    - inversion Hfold. subst. exact Hinv.
    - apply bind_Ok_inv in Hfold. destruct Hfold as [st1 [Hstep Hfold]].
      apply (IH st1 st' (archive_step_staged st st1 k Hinv Hstep) Hfold). }
  intros Hfold z members Hm.
  refine (H _ (contents, []) (contents', zip_files') _ Hfold z members Hm).
  cbn [snd]. intros z0 m Hm0. discriminate Hm0.
Qed.

Lemma is_scalar_leaf (v : pyval) :
  is_leaf v = true -> is_list v = false -> is_scalar v = true.
Proof. destruct v; simpl; congruence. Qed.

(** Between two iterations, on the keys still to visit: every target
    in [contents] is a leaf, and a list only under a key not yet
    visited; the members recorded in [zip_files] are scalars. *)
Lemma archive_step_scalars (st st' : dict pyval * dict (dict pyval))
  (source : string) (todo : list string) :
  (forall k v, dict_get k (fst st) = Some v ->
     is_leaf v = true /\ (is_list v = true -> In k (source :: todo))) ->
  (forall z m k v, dict_get z (snd st) = Some m -> dict_get k m = Some v ->
     is_scalar v = true) ->
  archive_step tmp_path deposit_id st source = Ok st' ->
  (forall k v, dict_get k (fst st') = Some v ->
     is_leaf v = true /\ (is_list v = true -> In k todo)) /\
  (forall z m k v, dict_get z (snd st') = Some m -> dict_get k m = Some v ->
     is_scalar v = true).
Proof.
  destruct st as [c zf]. cbn [fst snd]. intros Hc Hzf Hstep.
  unfold archive_step, dict_item in Hstep.
  destruct (dict_get source c) as [target|] eqn:Htarget; [|discriminate].
  cbn [bind] in Hstep.
  destruct (is_list target) eqn:Hlist; [discriminate|].
  destruct (Hc _ _ Htarget) as [Hleaf _].
  destruct (parts (Path source)) as [|z0 rest0] eqn:Hparts0; [discriminate|].
  destruct (is_zip_file z0) eqn:Hz0.
  - inversion Hstep. subst st'. clear Hstep. cbn [fst snd]. split.
    + intros k v Hget.
      destruct (string_dec k z0) as [->|Hkz].
      * rewrite dict_get_set_same in Hget. inversion Hget.
        split; [reflexivity | discriminate].
      * rewrite dict_get_set_other in Hget by exact Hkz.
        destruct (string_dec k source) as [->|Hks].
        { rewrite dict_get_del_same in Hget. discriminate. }
        rewrite dict_get_del_other in Hget by exact Hks.
        destruct (Hc _ _ Hget) as [Hl Hin]. split; [exact Hl|].
        intros Hv. destruct (Hin Hv) as [Heq|Hin']; [congruence | exact Hin'].
    + intros z m k v Hm Hk.
      destruct (string_dec z z0) as [->|Hzz].
      * destruct (dict_get z0 zf) as [m0|] eqn:Hm0;
          rewrite dict_get_set_same in Hm; inversion Hm; subst m; clear Hm.
        { destruct (string_dec k (as_posix (Path_of_parts rest0))) as [->|Hkn].
          - rewrite dict_get_set_same in Hk. inversion Hk. subst v.
            apply is_scalar_leaf; assumption.
          - rewrite dict_get_set_other in Hk by exact Hkn.
            apply (Hzf _ _ _ _ Hm0 Hk). }
        { cbn [dict_get] in Hk.
          destruct (key_eqb k (as_posix (Path_of_parts rest0))); [|discriminate].
          inversion Hk. subst v. apply is_scalar_leaf; assumption. }
      * apply (Hzf z m k v); [|exact Hk].
        destruct (dict_get z0 zf); rewrite dict_get_set_other in Hm by exact Hzz;
          exact Hm.
  - inversion Hstep. subst st'. clear Hstep. cbn [fst snd]. split; [|exact Hzf].
    intros k v Hget. destruct (Hc _ _ Hget) as [Hl Hin]. split; [exact Hl|].
    intros Hv. destruct (Hin Hv) as [Heq|Hin']; [|exact Hin'].
    subst k. congruence.
Qed.

Lemma fold_archive_step_scalars (todo : list string) :
  forall st st',
    (forall k v, dict_get k (fst st) = Some v ->
       is_leaf v = true /\ (is_list v = true -> In k todo)) ->
    (forall z m k v, dict_get z (snd st) = Some m -> dict_get k m = Some v ->
       is_scalar v = true) ->
    fold_result (archive_step tmp_path deposit_id) todo st = Ok st' ->
    (forall k v, dict_get k (fst st') = Some v -> is_scalar v = true) /\
    (forall z m k v, dict_get z (snd st') = Some m -> dict_get k m = Some v ->
       is_scalar v = true).
Proof.
  induction todo as [|s todo IH]; intros st st' Hc Hzf Hfold;
    cbn [fold_result] in Hfold.
  - inversion Hfold. subst st'. split; [|exact Hzf].
    intros k v Hget. destruct (Hc _ _ Hget) as [Hl Hin].
    apply is_scalar_leaf; [exact Hl|].
    destruct (is_list v); [destruct (Hin eq_refl) | reflexivity].
  - apply bind_Ok_inv in Hfold. destruct Hfold as [st1 [Hstep Hfold]].
    destruct (archive_step_scalars st st1 s todo Hc Hzf Hstep) as [Hc1 Hzf1].
    apply (IH st1 st' Hc1 Hzf1 Hfold).
Qed.

End ArchiveInvariants.

Section ParsedTargets.
Context {Z_ : Zenodo} {P_ : Paths}.

(** X4.  Flattening followed by the archive loop, when both succeed,
    leave only scalar targets: no value of [contents], and no value of
    a member mapping of [zip_files], is missing, a list or a mapping. *)
Theorem flatten_then_extract_scalar_targets (d : pyval) (default_path : pyval)
  (tmp_path : PurePath) (deposit_id : Z)
  (flattened contents' : dict pyval) (zip_files' : dict (dict pyval)) :
  flatten_zenodo_contents d "" default_path = Ok flattened ->
  extract_archives tmp_path deposit_id flattened = Ok (contents', zip_files') ->
  (forall k v, dict_get k contents' = Some v -> is_scalar v = true) /\
  (forall z members k v,
      dict_get z zip_files' = Some members ->
      dict_get k members = Some v -> is_scalar v = true).
Proof.
  intros Hflat Hextract. unfold extract_archives in Hextract.
  apply (fold_archive_step_scalars tmp_path deposit_id _ _ _) in Hextract;
    [exact Hextract | |].
  - cbn [fst]. intros k v Hget.
    pose proof (flatten_rec_leaves _ _ _ _ Hflat) as Hleaves.
    rewrite Forall_forall in Hleaves. apply dict_get_In in Hget.
    split; [apply (Hleaves _ Hget)|].
    intros _. change k with (fst (k, v)). apply in_map. exact Hget.
  - cbn [snd]. intros z m k v Hm. discriminate Hm.
Qed.

End ParsedTargets.

(* ================================================================= *)
(** ** Zenodo deposits: the parsed entry *)

Section ParsedEntry.
Context {Z_ : Zenodo} {P_ : Paths} {B_ : Builtins}.

Lemma check_id_type_Ok (deposit_id : Z) (id_type : string) :
  check_id_type deposit_id id_type = Ok tt -> id_type = "version".
Proof.
  unfold check_id_type.
  destruct (String.eqb id_type "version") eqn:Hv; cbn [negb].
  - intros _. apply String.eqb_eq. exact Hv.
  - destruct (String.eqb id_type "concept"); discriminate.
Qed.

(** The entry a successful [parse_entry] leaves. *)
Lemma parse_entry_shape (host key : string) (e : dict pyval) (entry' : pyval) :
  parse_entry host key (PDict e) = Ok entry' ->
  exists deposit_id flattened contents zip_files e',
    py_int key = Some deposit_id /\
    flatten_zenodo_contents (dict_get_default "contents" (PDict []) e) ""
      (dict_get_default "destination" (PStr (as_posix data_rel)) e)
    = Ok flattened /\
    extract_archives (host_tmp_path host) deposit_id flattened
    = Ok (contents, zip_files) /\
    entry' = PDict e' /\
    dict_get "id_type" e' = Some (PStr "version") /\
    dict_get "destination" e'
    = Some (dict_get_default "destination" (PStr (as_posix data_rel)) e) /\
    dict_get "contents" e' = Some (PDict contents) /\
    dict_get "zip_files" e' = Some (zip_files_value zip_files) /\
    forall k, k <> "id_type" -> k <> "destination" -> k <> "contents" ->
              k <> "zip_files" -> dict_get k e' = dict_get k e.
Proof.
  unfold parse_entry. intros H.
  destruct (py_int key) as [deposit_id|]; [|discriminate].
  cbn [bind] in H.
  apply bind_Ok_inv in H. destruct H as [id_type [_ H]].
  apply bind_Ok_inv in H. destruct H as [[] [Hcheck H]].
  apply check_id_type_Ok in Hcheck. subst id_type.
  unfold parse_contents in H.
  assert (Hdest :
    dict_get_default "destination" (PStr (as_posix data_rel))
      (dict_set "id_type" (PStr "version") e)
    = dict_get_default "destination" (PStr (as_posix data_rel)) e).
  { unfold dict_get_default. rewrite dict_get_set_other by discriminate. reflexivity. }
  rewrite Hdest in H.
  assert (Hcontents :
    dict_get_default "contents" (PDict [])
      (dict_set "destination"
         (dict_get_default "destination" (PStr (as_posix data_rel)) e)
         (dict_set "id_type" (PStr "version") e))
    = dict_get_default "contents" (PDict []) e).
  { unfold dict_get_default at 1 3.
    rewrite !dict_get_set_other by discriminate. reflexivity. }
  rewrite Hcontents in H.
  apply bind_Ok_inv in H. destruct H as [flattened [Hflat H]].
  apply bind_Ok_inv in H. destruct H as [[contents zip_files] [Hextract H]].
  inversion H. clear H. cbn [fst snd].
  exists deposit_id, flattened, contents, zip_files. eexists.
  split; [reflexivity|]. split; [exact Hflat|]. split; [exact Hextract|].
  split; [reflexivity|].
  split.
  { rewrite !dict_get_set_other by discriminate. apply dict_get_set_same. }
  split.
  { rewrite !dict_get_set_other by discriminate. apply dict_get_set_same. }
  split; [apply dict_get_set_same|].
  split.
  { rewrite dict_get_set_other by discriminate. apply dict_get_set_same. }
  intros k Hk1 Hk2 Hk3 Hk4. rewrite !dict_get_set_other by assumption. reflexivity.
Qed.

(** X5.  A deposit entry that is parsed without failure has the
    identifier type "version", its [destination] (the one given, else
    the data directory), a [contents] mapping and a [zip_files]
    mapping; every other key of the entry is as the user wrote it. *)
Theorem parse_entry_fields (host key : string) (e : dict pyval) (entry' : pyval) :
  parse_entry host key (PDict e) = Ok entry' ->
  exists e' contents zip_files,
    entry' = PDict e' /\
    dict_get "id_type" e' = Some (PStr "version") /\
    dict_get "destination" e'
    = Some (dict_get_default "destination" (PStr (as_posix data_rel)) e) /\
    dict_get "contents" e' = Some (PDict contents) /\
    dict_get "zip_files" e' = Some (zip_files_value zip_files) /\
    forall k, k <> "id_type" -> k <> "destination" -> k <> "contents" ->
              k <> "zip_files" -> dict_get k e' = dict_get k e.
Proof.
  intros H.
  destruct (parse_entry_shape _ _ _ _ H)
    as [deposit_id [flattened [contents [zip_files [e' [_ [_ [_ Hrest]]]]]]]].
  exists e', contents, zip_files. exact Hrest.
Qed.

Lemma map_result_Forall2 {A B : Type} (f : A -> result B) (l : list A) (l' : list B) :
  map_result f l = Ok l' -> Forall2 (fun x y => f x = Ok y) l l'.
Proof.
  revert l'. induction l as [|x l IH]; intros l' H; cbn [map_result] in H.
  - inversion H. constructor.
  - apply bind_Ok_inv in H. destruct H as [y [Hy H]].
    apply bind_Ok_inv in H. destruct H as [ys [Hys H]].
    inversion H. constructor; [exact Hy | apply IH; exact Hys].
Qed.

Lemma parse_host_entries (host : string) (config config' : Config) :
  parse_host host config = Ok config' ->
  exists es es',
    host_entries host config = PDict es /\
    config' = set_host_entries host (PDict es') config /\
    Forall2 (fun kv kv' => fst kv' = fst kv /\
                           parse_entry host (fst kv) (snd kv) = Ok (snd kv')) es es'.
Proof.
  unfold parse_host. intros H.
  apply bind_Ok_inv in H. destruct H as [es [Hes H]].
  apply bind_Ok_inv in H. destruct H as [es' [Hmap H]].
  inversion H. clear H.
  exists es, es'. split.
  - destruct (host_entries host config); try discriminate.
    inversion Hes. reflexivity.
  - split; [reflexivity|].
    apply map_result_Forall2 in Hmap.
    eapply Forall2_impl; [|exact Hmap].
    intros [k v] [k' v'] Hkv. cbn [fst snd] in *.
    apply bind_Ok_inv in Hkv. destruct Hkv as [v0 [Hv0 Hkv]].
    inversion Hkv. subst. split; [reflexivity | exact Hv0].
Qed.

(** X6.  Parsing the deposits changes nothing of the configuration
    but the two host fields; each host keeps its deposits, under the
    same keys and in the same order, every entry being replaced by
    its parsed form. *)
Theorem parse_zenodo_datasets_frame (config config' : Config) :
  parse_zenodo_datasets config = Ok config' ->
  (ms_tex config' = ms_tex config /\
   tex_files_out config' = tex_files_out config /\
   script_extensions config' = script_extensions config /\
   scripts config' = scripts config /\
   dependencies config' = dependencies config /\
   overleaf config' = overleaf config /\
   tree config' = tree config /\
   labels config' = labels config)
  /\
  forall host, host = "zenodo" \/ host = "zenodo_sandbox" ->
    exists es es',
      host_entries host config = PDict es /\
      host_entries host config' = PDict es' /\
      Forall2 (fun kv kv' => fst kv' = fst kv /\
                             parse_entry host (fst kv) (snd kv) = Ok (snd kv'))
              es es'.
Proof.
  unfold parse_zenodo_datasets. intros H.
  apply bind_Ok_inv in H. destruct H as [c1 [H1 H2]].
  destruct (parse_host_entries _ _ _ H1) as [es1 [es1' [He1 [Hc1 Hall1]]]].
  destruct (parse_host_entries _ _ _ H2) as [es2 [es2' [He2 [Hc2 Hall2]]]].
  subst c1 config'. split.
  - unfold set_host_entries. cbn. repeat split.
  - intros host [->| ->].
    + exists es1, es1'. split; [exact He1|]. split; [reflexivity | exact Hall1].
    + exists es2, es2'. split; [exact He2|]. split; [reflexivity | exact Hall2].
Qed.

End ParsedEntry.

(* ================================================================= *)
(** ** Zenodo deposits: which deposit provides a dependency *)

Lemma str_in_values_iff (x : string) (vs : list pyval) :
  str_in_values x vs = true <-> In (PStr x) vs.
Proof.
  unfold str_in_values. rewrite existsb_exists. split.
  - intros [v [Hin Hv]]. destruct v; try discriminate.
    apply String.eqb_eq in Hv. subst. exact Hin.
  - intros Hin. exists (PStr x). split; [exact Hin | apply String.eqb_refl].
Qed.

Lemma in_zip_files_spec (dep : string) (zip_files : list (string * pyval)) :
  Forall (fun kv => exists m, snd kv = PDict m) zip_files ->
  exists b,
    in_zip_files dep zip_files = Ok b /\
    (b = true <->
     exists z m, In (z, PDict m) zip_files /\ In (PStr dep) (dict_values m)).
Proof.
  induction 1 as [|[z v] zfs [m Hm] _ IH]; cbn [in_zip_files].
  - exists false. split; [reflexivity|].
    split; [discriminate | intros [z [m [[] _]]]].
  - cbn [snd] in Hm. subst v. cbn [values_of bind].
    destruct (str_in_values dep (dict_values m)) eqn:Hin.
    + exists true. split; [reflexivity|]. split; [|reflexivity].
      intros _. exists z, m. split; [left; reflexivity|].
      apply str_in_values_iff. exact Hin.
    + destruct IH as [b [Hb Hiff]]. exists b. split; [exact Hb|].
      rewrite Hiff. split.
      * intros [z' [m' [Hz' Hm']]]. exists z', m'. split; [right|]; assumption.
      * intros [z' [m' [[Heq|Hz'] Hm']]].
        { inversion Heq. subst. apply str_in_values_iff in Hm'. congruence. }
        { exists z', m'. split; assumption. }
Qed.

(** On an entry with its two mappings the test returns a boolean. *)
Lemma dep_matches_total (e contents : dict pyval) (zip_files : list (string * pyval))
  (dep : string) :
  dict_get "contents" e = Some (PDict contents) ->
  dict_get "zip_files" e = Some (PDict zip_files) ->
  Forall (fun kv => exists m, snd kv = PDict m) zip_files ->
  exists b, dep_matches (PDict e) dep = Ok b.
Proof.
  intros Hc Hzf Hwf. unfold dep_matches, entry_field, dict_item.
  rewrite Hc. cbn [bind values_of].
  destruct (str_in_values dep (dict_values contents)); [eexists; reflexivity|].
  rewrite Hzf. cbn [bind].
  destruct (in_zip_files_spec dep zip_files Hwf) as [b [Hb _]].
  exists b. exact Hb.
Qed.

(** X7.  A deposit provides a dependency exactly when the dependency
    is the target of one of its files: a value of [contents], or a
    value of the member mapping of one of the archives in [zip_files]. *)
Theorem dep_matches_spec (e contents : dict pyval) (zip_files : list (string * pyval))
  (dep : string) :
  dict_get "contents" e = Some (PDict contents) ->
  dict_get "zip_files" e = Some (PDict zip_files) ->
  Forall (fun kv => exists m, snd kv = PDict m) zip_files ->
  exists b,
    dep_matches (PDict e) dep = Ok b /\
    (b = true <->
     In (PStr dep) (dict_values contents) \/
     exists z m, In (z, PDict m) zip_files /\ In (PStr dep) (dict_values m)).
Proof.
  intros Hc Hzf Hwf. unfold dep_matches, entry_field, dict_item.
  rewrite Hc. cbn [bind values_of].
  destruct (str_in_values dep (dict_values contents)) eqn:Hin.
  - exists true. split; [reflexivity|]. split; [|reflexivity].
    intros _. left. apply str_in_values_iff. exact Hin.
  - rewrite Hzf. cbn [bind].
    destruct (in_zip_files_spec dep zip_files Hwf) as [b [Hb Hiff]].
    exists b. split; [exact Hb|]. rewrite Hiff. split.
    + intros H. right. exact H.
    + intros [H|H]; [|exact H].
      apply str_in_values_iff in H. congruence.
Qed.

Section ParsedLookup.
Context {Z_ : Zenodo} {P_ : Paths} {B_ : Builtins}.

(** X8.  What [parse_zenodo_datasets] leaves is what the search for
    datasets needs: on a parsed deposit entry the test whether it
    provides a dependency never raises. *)
Theorem dep_matches_parsed_entry (host key : string) (e : dict pyval)
  (entry' : pyval) (dep : string) :
  parse_entry host key (PDict e) = Ok entry' ->
  exists b, dep_matches entry' dep = Ok b.
Proof.
  intros H.
  destruct (parse_entry_shape _ _ _ _ H)
    as [deposit_id [flattened [contents [zip_files [e'
         [_ [_ [_ [-> [_ [_ [Hc [Hzf _]]]]]]]]]]]]].
  apply (dep_matches_total e' contents
           (map (fun kv => (fst kv, PDict (snd kv))) zip_files) dep Hc Hzf).
  apply Forall_forall. intros kv Hkv. apply in_map_iff in Hkv.
  destruct Hkv as [[z m] [<- _]]. exists m. reflexivity.
Qed.

End ParsedLookup.

(* ================================================================= *)
(** ** Zenodo deposits: the invariants on examples *)

(** A nested declaration without target. *)
Lemma flatten_zenodo_contents_leaves_witness :
  exists contents,
    flatten_zenodo_contents (Z_:=Example.zenodo) (P_:=Example.paths)
      (PDict [("a", PDict [("b.txt", PNone)])]) "" PNone = Ok contents /\
    forall k v, dict_get k contents = Some v ->
                v <> PNone /\ forall m, v <> PDict m.
Proof.
  eexists. split; [reflexivity|].
  apply (flatten_zenodo_contents_leaves (Z_:=Example.zenodo) (P_:=Example.paths)
           (PDict [("a", PDict [("b.txt", PNone)])]) "" PNone).
  reflexivity.
Defined.

(** A deposit with one plain file, with a text and with a list as
    its target. *)
Lemma extract_archives_without_archive_witness :
  extract_archives (Z_:=Example.zenodo) (Path ".showyourwork/zenodo") 7
    [("a.csv", PStr "src/data/a.csv")]
  = Ok ([("a.csv", PStr "src/data/a.csv")], []) /\
  exists msg,
    extract_archives (Z_:=Example.zenodo) (Path ".showyourwork/zenodo") 7
      [("a.csv", PList [PStr "src/data/a.csv"])]
    = Raise (ZenodoContentsError msg).
Proof.
  assert (Hplain : forall v k, In k (dict_keys [("a.csv", v : pyval)]) ->
            exists z rest, parts (Path k) = z :: rest /\
                           is_zip_file (Z_:=Example.zenodo) z = false).
  { intros v k [<-|[]]. exists "a.csv", []. split; reflexivity. }
  split.
  - apply (extract_archives_without_archive (Z_:=Example.zenodo)
             (Path ".showyourwork/zenodo") 7 [("a.csv", PStr "src/data/a.csv")]
             (Hplain _)).
    intros k v H. cbn [dict_get] in H.
    destruct (key_eqb k "a.csv"); inversion H. reflexivity.
  - apply (extract_archives_without_archive (Z_:=Example.zenodo)
             (Path ".showyourwork/zenodo") 7 [("a.csv", PList [PStr "src/data/a.csv"])]
             (Hplain _)).
    exists "a.csv", (PList [PStr "src/data/a.csv"]). split; reflexivity.
Defined.

(** A deposit with one file inside an archive. *)
Lemma extract_archives_zip_files_staged_witness :
  is_zip_file (Z_:=Example.zenodo) "archive.zip" = true /\
  parts (Path "archive.zip") = ["archive.zip"] /\
  dict_get "archive.zip" [("archive.zip", PStr ".showyourwork/zenodo/7/archive.zip")]
  = Some (PStr (staging_path (Path ".showyourwork/zenodo") 7 "archive.zip")) /\
  [("inner.csv", PStr "out/inner.csv")] <> [].
Proof.
  apply (extract_archives_zip_files_staged (Z_:=Example.zenodo)
           (Path ".showyourwork/zenodo") 7
           [("archive.zip/inner.csv", PStr "out/inner.csv")]
           [("archive.zip", PStr ".showyourwork/zenodo/7/archive.zip")]
           [("archive.zip", [("inner.csv", PStr "out/inner.csv")])]
           eq_refl "archive.zip" [("inner.csv", PStr "out/inner.csv")] eq_refl).
Defined.

(** A declaration with a file inside an archive and a plain file. *)
Lemma flatten_then_extract_scalar_targets_witness :
  exists flattened contents' zip_files',
    flatten_zenodo_contents (Z_:=Example.zenodo) (P_:=Example.paths)
      (PDict [("archive.zip", PDict [("inner.csv", PNone)]); ("a.csv", PNone)])
      "" (PStr "data") = Ok flattened /\
    extract_archives (Z_:=Example.zenodo) (Path ".showyourwork/zenodo") 7 flattened
    = Ok (contents', zip_files') /\
    (forall k v, dict_get k contents' = Some v -> is_scalar v = true) /\
    (forall z members k v,
        dict_get z zip_files' = Some members ->
        dict_get k members = Some v -> is_scalar v = true).
Proof.
  eexists. eexists. eexists.
  split; [reflexivity|]. split; [reflexivity|].
  eapply (flatten_then_extract_scalar_targets (Z_:=Example.zenodo) (P_:=Example.paths)
           (PDict [("archive.zip", PDict [("inner.csv", PNone)]); ("a.csv", PNone)])
           (PStr "data") (Path ".showyourwork/zenodo") 7);
    reflexivity.
Defined.

(** The deposit [3] of the example environment, a version id. *)
Lemma parse_entry_fields_witness :
  exists entry' e' contents zip_files,
    parse_entry (Z_:=Example.zenodo) (P_:=Example.paths) (B_:=Example.builtins)
      "zenodo" "3" (PDict [("contents", PDict [("a.csv", PNone)]); ("note", PStr "x")])
    = Ok entry' /\
    entry' = PDict e' /\
    dict_get "id_type" e' = Some (PStr "version") /\
    dict_get "destination" e' = Some (PStr "src/data") /\
    dict_get "contents" e' = Some (PDict contents) /\
    dict_get "zip_files" e' = Some (zip_files_value zip_files) /\
    dict_get "note" e' = Some (PStr "x").
Proof.
  destruct (parse_entry (Z_:=Example.zenodo) (P_:=Example.paths) (B_:=Example.builtins)
              "zenodo" "3"
              (PDict [("contents", PDict [("a.csv", PNone)]); ("note", PStr "x")]))
    as [entry'|e] eqn:Hrun; [|vm_compute in Hrun; discriminate Hrun].
  destruct (parse_entry_fields (Z_:=Example.zenodo) (P_:=Example.paths)
              (B_:=Example.builtins) "zenodo" "3" _ entry' Hrun)
    as [e' [contents [zip_files [He' [Hid [Hdest [Hc [Hzf Hframe]]]]]]]].
  exists entry', e', contents, zip_files.
  split; [reflexivity|]. split; [exact He'|]. split; [exact Hid|].
  split; [exact Hdest|]. split; [exact Hc|]. split; [exact Hzf|].
  rewrite Hframe by discriminate. reflexivity.
Defined.

(** The example configuration: one deposit on the first host, none
    on the sandbox. *)
Lemma parse_zenodo_datasets_frame_witness :
  exists config' es',
    parse_zenodo_datasets (Z_:=Example.zenodo) (P_:=Example.paths)
      (B_:=Example.builtins) example_config = Ok config' /\
    scripts config' = scripts example_config /\
    overleaf config' = overleaf example_config /\
    host_entries "zenodo" config' = PDict es' /\
    map fst es' = ["123"].
Proof.
  destruct (parse_zenodo_datasets (Z_:=Example.zenodo) (P_:=Example.paths)
              (B_:=Example.builtins) example_config) as [config'|e] eqn:Hrun;
    [|vm_compute in Hrun; discriminate Hrun].
  destruct (parse_zenodo_datasets_frame (Z_:=Example.zenodo) (P_:=Example.paths)
              (B_:=Example.builtins) example_config config' Hrun)
    as [[_ [_ [_ [Hscripts [_ [Hoverleaf _]]]]]] Hhosts].
  destruct (Hhosts "zenodo" (or_introl eq_refl)) as [es [es' [Hes [Hes' Hall]]]].
  exists config', es'. split; [reflexivity|].
  split; [exact Hscripts|]. split; [exact Hoverleaf|]. split; [exact Hes'|].
  cbn in Hes. inversion Hes. subst es. clear Hes.
  inversion Hall as [|kv kv' l l' [Hkey _] Hrest]. subst.
  inversion Hrest. subst. cbn [map]. rewrite Hkey. reflexivity.
Defined.

(** A deposit that provides [src/data/a.csv]. *)
Lemma dep_matches_spec_witness :
  exists b,
    dep_matches (deposit_with "a.csv") "src/data/a.csv" = Ok b /\
    (b = true <->
     In (PStr "src/data/a.csv") (dict_values [("a.csv", PStr "src/data/a.csv")]) \/
     exists z m, In (z, PDict m) ([] : list (string * pyval)) /\
                 In (PStr "src/data/a.csv") (dict_values m)).
Proof.
  apply (dep_matches_spec
           [("id_type", PStr "version"); ("destination", PStr "src/data");
            ("zip_files", PDict []);
            ("contents", PDict [("a.csv", PStr "src/data/a.csv")])]
           [("a.csv", PStr "src/data/a.csv")] [] "src/data/a.csv" eq_refl eq_refl).
  constructor.
Defined.

(** The test on what the parsing of a deposit with an archive leaves. *)
Lemma dep_matches_parsed_entry_witness :
  exists entry' b,
    parse_entry (Z_:=Example.zenodo) (P_:=Example.paths) (B_:=Example.builtins)
      "zenodo" "3" (PDict [("contents", PDict [("archive.zip/inner.csv", PNone)])])
    = Ok entry' /\
    dep_matches entry' "src/data/archive/inner.csv" = Ok b.
Proof.
  destruct (parse_entry (Z_:=Example.zenodo) (P_:=Example.paths) (B_:=Example.builtins)
              "zenodo" "3"
              (PDict [("contents", PDict [("archive.zip/inner.csv", PNone)])]))
    as [entry'|e] eqn:Hrun; [|vm_compute in Hrun; discriminate Hrun].
  destruct (dep_matches_parsed_entry (Z_:=Example.zenodo) (P_:=Example.paths)
              (B_:=Example.builtins) "zenodo" "3" _ entry'
              "src/data/archive/inner.csv" Hrun) as [b Hb].
  exists entry', b. split; [reflexivity | exact Hb].
Defined.

(* ================================================================= *)
(** ** Overleaf: normalisation *)

Section OverleafNormal.
Context {P_ : Paths} {F_ : FileSystem}.

(** What a successful normalisation of a list field leaves. *)
Lemma normalize_list_field_Ok (field : string) (ov ov' : dict pyval)
  (l : list pyval) :
  normalize_list_field field ov = Ok (ov', l) ->
  dict_get field ov' = Some (PList l) /\
  forall k, k <> field -> dict_get k ov' = dict_get k ov.
Proof.
  unfold normalize_list_field.
  destruct (dict_get_default field (PList []) ov) as [| b | z | s | l0 | d];
    intros H; try discriminate; inversion H; subst; clear H.
  - split; [apply dict_get_set_same|].
    intros k Hk. rewrite !dict_get_set_other by exact Hk. reflexivity.
  - split; [apply dict_get_set_same|].
    intros k Hk. rewrite dict_get_set_other by exact Hk. reflexivity.
Qed.

(** A field that holds a list is left alone. *)
Lemma normalize_list_field_fixed (field : string) (ov : dict pyval)
  (l : list pyval) :
  dict_get field ov = Some (PList l) ->
  normalize_list_field field ov = Ok (ov, l).
Proof.
  intros H. unfold normalize_list_field, dict_get_default. rewrite H.
  rewrite (dict_set_same_value _ _ _ H). reflexivity.
Qed.

Lemma dict_set_default_fixed (k : string) (default v : pyval) (d : dict pyval) :
  dict_get k d = Some v -> dict_set k (dict_get_default k default d) d = d.
Proof.
  intros H. unfold dict_get_default. rewrite H.
  apply dict_set_same_value. exact H.
Qed.

(** X9.  Normalising the Overleaf settings is idempotent: settings
    that passed [parse_overleaf] once pass it again, unchanged. *)
Theorem parse_overleaf_dict_idempotent (ov ov' : dict pyval) :
  parse_overleaf_dict ov = Ok ov' ->
  parse_overleaf_dict ov' = Ok ov'.
Proof.
  intros H. pose proof H as Hrun. unfold parse_overleaf_dict in H.
  set (ov1 := dict_set "id" (dict_get_default "id" PNone ov) ov) in H.
  set (ov2 := dict_set "auto-commit"
                (dict_get_default "auto-commit" (PBool false) ov1) ov1) in H.
  apply bind_Ok_inv in H. destruct H as [[ov3 push] [Hpush H]].
  apply bind_Ok_inv in H. destruct H as [[ov4 pull] [Hpull H]].
  cbn [fst snd] in *.
  apply bind_Ok_inv in H. destruct H as [[] [Hunder H]].
  apply bind_Ok_inv in H. destruct H as [push_files [Hpf H]].
  apply bind_Ok_inv in H. destruct H as [pull_files [Hlf H]].
  destruct (overlap push_files pull_files) eqn:Hov; [discriminate|].
  inversion H. subst ov4. clear H.
  destruct (normalize_list_field_Ok _ _ _ _ Hpush) as [Hpush3 Hframe3].
  destruct (normalize_list_field_Ok _ _ _ _ Hpull) as [Hpull4 Hframe4].
  assert (Hid : dict_get "id" ov' = Some (dict_get_default "id" PNone ov)).
  { rewrite Hframe4, Hframe3 by discriminate. unfold ov2.
    rewrite dict_get_set_other by discriminate. apply dict_get_set_same. }
  assert (Hac : dict_get "auto-commit" ov'
                = Some (dict_get_default "auto-commit" (PBool false) ov1)).
  { rewrite Hframe4, Hframe3 by discriminate. apply dict_get_set_same. }
  assert (Hpush4 : dict_get "push" ov' = Some (PList push)).
  { rewrite Hframe4 by discriminate. exact Hpush3. }
  unfold parse_overleaf_dict.
  rewrite (dict_set_default_fixed _ _ _ _ Hid).
  rewrite (dict_set_default_fixed _ _ _ _ Hac).
  rewrite (normalize_list_field_fixed _ _ _ Hpush4). cbn [bind fst snd].
  rewrite (normalize_list_field_fixed _ _ _ Hpull4). cbn [bind fst snd].
  rewrite Hunder. cbn [bind]. rewrite Hpf. cbn [bind]. rewrite Hlf. cbn [bind].
  rewrite Hov. reflexivity.
Qed.

(** X10.  A [push] or [pull] field that is present and is neither
    [None] nor a list is a configuration failure, found before any
    path is looked at: for [push] always, for [pull] whenever [push]
    is absent, [None] or a list. *)
Theorem parse_overleaf_dict_list_fields (ov : dict pyval) (v : pyval) :
  v <> PNone -> is_list v = false ->
  (dict_get "push" ov = Some v ->
   parse_overleaf_dict ov
   = Raise (ConfigError
       "Error parsing the config. The `overleaf.push` field must be a list."))
  /\
  (dict_get "pull" ov = Some v ->
   dict_get "push" ov = None \/ dict_get "push" ov = Some PNone \/
   (exists l, dict_get "push" ov = Some (PList l)) ->
   parse_overleaf_dict ov
   = Raise (ConfigError
       "Error parsing the config. The `overleaf.pull` field must be a list.")).
Proof.
  intros Hnone Hlist.
  assert (Hbad : forall field d,
             dict_get field d = Some v ->
             normalize_list_field field d
             = Raise (ConfigError
                 ("Error parsing the config. " +++
                  "The `overleaf." +++ field +++ "` field must be a list."))).
  { intros field d Hget. unfold normalize_list_field, dict_get_default.
    rewrite Hget. destruct v; try reflexivity; [congruence | discriminate]. }
  split.
  - intros Hpush. unfold parse_overleaf_dict.
    rewrite (Hbad "push"); [reflexivity|].
    rewrite !dict_get_set_other by discriminate. exact Hpush.
  - intros Hpull Hpush. unfold parse_overleaf_dict.
    set (ov2 := dict_set "auto-commit" _ _).
    assert (Hpush2 : dict_get "push" ov2 = dict_get "push" ov).
    { unfold ov2. rewrite !dict_get_set_other by discriminate. reflexivity. }
    assert (Hnorm : exists ov3 l,
               normalize_list_field "push" ov2 = Ok (ov3, l) /\
               dict_get "pull" ov3 = Some v).
    { unfold normalize_list_field, dict_get_default. rewrite Hpush2.
      destruct Hpush as [H|[H|[l H]]]; rewrite H; eexists; eexists;
        (split; [reflexivity|]); unfold ov2;
        rewrite !dict_get_set_other by discriminate; exact Hpull. }
    destruct Hnorm as [ov3 [l [Hnorm Hpull3]]].
    rewrite Hnorm. cbn [bind fst snd].
    rewrite (Hbad "pull" ov3 Hpull3). reflexivity.
Qed.

End OverleafNormal.

(** The Overleaf settings of the example configuration. *)
Lemma parse_overleaf_dict_idempotent_witness :
  exists ov',
    parse_overleaf_dict (P_:=Example.paths) (F_:=Example.file_system)
      [("push", PList [PStr "src/tex/a.tex"]); ("pull", PNone)] = Ok ov' /\
    parse_overleaf_dict (P_:=Example.paths) (F_:=Example.file_system) ov' = Ok ov'.
Proof.
  eexists. split; [reflexivity|].
  apply (parse_overleaf_dict_idempotent (P_:=Example.paths) (F_:=Example.file_system)
           [("push", PList [PStr "src/tex/a.tex"]); ("pull", PNone)]).
  reflexivity.
Defined.

(** A file name given where a list of file names is expected. *)
Lemma parse_overleaf_dict_list_fields_witness :
  parse_overleaf_dict (P_:=Example.paths) (F_:=Example.file_system)
    [("push", PStr "src/tex/a.tex")]
  = Raise (ConfigError
      "Error parsing the config. The `overleaf.push` field must be a list.") /\
  parse_overleaf_dict (P_:=Example.paths) (F_:=Example.file_system)
    [("push", PList [PStr "/elsewhere/a.tex"]); ("pull", PStr "src/tex/a.tex")]
  = Raise (ConfigError
      "Error parsing the config. The `overleaf.pull` field must be a list.").
Proof.
  split.
  - apply (proj1 (parse_overleaf_dict_list_fields (P_:=Example.paths)
                    (F_:=Example.file_system) [("push", PStr "src/tex/a.tex")]
                    (PStr "src/tex/a.tex") ltac:(discriminate) eq_refl)).
    reflexivity.
  - apply (proj2 (parse_overleaf_dict_list_fields (P_:=Example.paths)
                    (F_:=Example.file_system)
                    [("push", PList [PStr "/elsewhere/a.tex"]);
                     ("pull", PStr "src/tex/a.tex")]
                    (PStr "src/tex/a.tex") ltac:(discriminate) eq_refl)).
    + reflexivity.
    + right. right. eexists. reflexivity.
Defined.

(* ================================================================= *)
(** ** Figure markup: what the validation accepts *)

Lemma bind_unit_Ok (m : result unit) (k : result unit) :
  (m ;;; k) = Ok tt <-> m = Ok tt /\ k = Ok tt.
Proof.
  destruct m as [[]|e]; simpl; split.
  - intros H. split; [reflexivity | exact H].
  - intros [_ H]. exact H.
  - discriminate.
  - intros [H _]. discriminate H.
Qed.

Lemma index_of_tag_Some_nth (t : string) (l : list Element) (k : nat) :
  index_of_tag t l = Some k ->
  exists e, nth_error l k = Some e /\ has_tag t e = true.
Proof.
  revert k. induction l as [|x l IH]; intros k; simpl; [discriminate|].
  destruct (has_tag t x) eqn:Hx.
  - intros H. inversion H. exists x. split; [reflexivity | exact Hx].
  - destruct (index_of_tag t l) as [k'|]; simpl; [|discriminate].
    intros H. inversion H. apply (IH k' eq_refl).
Qed.

Lemma index_of_tag_None (t : string) (l : list Element) :
  index_of_tag t l = None <-> filter (has_tag t) l = [].
Proof.
  induction l as [|x l IH]; simpl; [tauto|].
  destruct (has_tag t x).
  - split; discriminate.
  - rewrite <- IH. destruct (index_of_tag t l); simpl; split;
      solve [discriminate | reflexivity].
Qed.

Lemma has_tag_distinct (t u : string) (e : Element) :
  has_tag t e = true -> has_tag u e = true -> t = u.
Proof.
  unfold has_tag. intros Ht Hu.
  apply String.eqb_eq in Ht. apply String.eqb_eq in Hu. congruence.
Qed.

(** The last element with a tag, through the first one of the
    reversed list. *)
Lemma index_of_tag_rev (t : string) (l : list Element) (k : nat) :
  index_of_tag t (rev l) = Some k ->
  k < List.length l /\
  (exists e, nth_error l (List.length l - 1 - k) = Some e /\ has_tag t e = true) /\
  forall j e, nth_error l j = Some e -> has_tag t e = true ->
              j <= List.length l - 1 - k.
Proof.
  intros Hk.
  pose proof (index_of_tag_lt_length _ _ _ Hk) as Hlt. rewrite length_rev in Hlt.
  split; [exact Hlt|]. split.
  - destruct (index_of_tag_Some_nth _ _ _ Hk) as [e [Hnth He]].
    exists e. split; [|exact He].
    rewrite nth_error_rev in Hnth.
    assert (Hb : Nat.ltb k (List.length l) = true) by (apply Nat.ltb_lt; exact Hlt).
    rewrite Hb in Hnth.
    replace (List.length l - 1 - k) with (List.length l - S k) by lia.
    exact Hnth.
  - intros j e Hj He.
    assert (Hjlen : j < List.length l).
    { apply nth_error_Some. rewrite Hj. discriminate. }
    assert (Hrev : nth_error (rev l) (List.length l - S j) = Some e).
    { rewrite nth_error_rev.
      assert (Hb : Nat.ltb (List.length l - S j) (List.length l) = true)
        by (apply Nat.ltb_lt; lia).
      rewrite Hb.
      replace (List.length l - S (List.length l - S j)) with j by lia.
      exact Hj. }
    destruct (index_of_tag_le _ _ _ _ Hrev He) as [k' [Hk' Hle]].
    rewrite Hk in Hk'. inversion Hk'. subst k'. lia.
Qed.

Lemma for_each_nested_Ok (captions : list Element) :
  for_each nested_label_check captions = Ok tt <->
  forall caption, In caption captions -> findall "LABEL" caption = [].
Proof.
  induction captions as [|c captions IH]; cbn [for_each].
  - split; [intros _ caption [] | reflexivity].
  - rewrite bind_unit_Ok, IH. unfold nested_label_check. split.
    + intros [Hc Hrest] caption [<-|Hin]; [|apply Hrest; exact Hin].
      destruct (findall "LABEL" c); [reflexivity | discriminate].
    + intros H. split; [|intros caption Hin; apply H; right; exact Hin].
      rewrite (H c (or_introl eq_refl)). reflexivity.
Qed.

Lemma tag_has_tag (t : string) (e : Element) : tag e = t <-> has_tag t e = true.
Proof. unfold has_tag. symmetry. apply String.eqb_eq. Qed.

(** The order check, read on the positions of the children. *)
Lemma order_check_Ok (figure : Element) :
  order_check (children figure) (findall "CAPTION" figure) (findall "LABEL" figure)
  = Ok tt
  <->
  (findall "CAPTION" figure <> [] ->
   forall l, index_of_tag "LABEL" (children figure) = Some l ->
     (forall j caption, nth_error (children figure) j = Some caption ->
                        tag caption = "CAPTION" -> j < l) /\
     (forall m, index_of_tag "MARGINICON" (children figure) = Some m -> m < l)).
Proof.
  unfold order_check, findall. set (els := children figure).
  destruct (filter (has_tag "CAPTION") els) as [|c0 caps] eqn:Hcaps.
  { split; [intros _ H; congruence | reflexivity]. }
  destruct (filter (has_tag "LABEL") els) as [|l0 labs] eqn:Hlabs.
  { apply index_of_tag_None in Hlabs. split; [|reflexivity].
    intros _ _ l Hl. congruence. }
  destruct (index_of_tag "LABEL" els) as [l|] eqn:Hl;
    [|apply index_of_tag_None in Hl; congruence].
  destruct (index_of_tag "CAPTION" (rev els)) as [k|] eqn:Hk.
  2: { apply index_of_tag_None in Hk.
       assert (Hin : In c0 (rev els)).
       { apply in_rev. rewrite rev_involutive.
         apply (proj1 (filter_In (has_tag "CAPTION") c0 els)).
         rewrite Hcaps. left. reflexivity. }
       assert (Hc0 : has_tag "CAPTION" c0 = true).
       { apply (proj1 (filter_In (has_tag "CAPTION") c0 els)).
         rewrite Hcaps. left. reflexivity. }
       assert (Hin' : In c0 (filter (has_tag "CAPTION") (rev els)))
         by (apply filter_In; split; assumption).
       rewrite Hk in Hin'. destruct Hin'. }
  destruct (index_of_tag_rev _ _ _ Hk) as [Hklt [[cap [Hcapnth Hcap]] Hlast]].
  destruct (index_of_tag_Some_nth _ _ _ Hl) as [lab [Hlabnth Hlab]].
  unfold break_index. rewrite Hl, Hk.
  split.
  - intros H _ l' Hl'. inversion Hl'. subst l'.
    destruct (Z.of_nat l <? Z.of_nat (List.length els) - 1 - Z.of_nat k)%Z eqn:Hlt;
      [discriminate|].
    apply Z.ltb_ge in Hlt.
    split.
    + intros j caption Hj Htag. apply tag_has_tag in Htag.
      pose proof (Hlast j caption Hj Htag) as Hle.
      assert (Hne : j <> l).
      { intros ->. rewrite Hlabnth in Hj. inversion Hj. subst caption.
        pose proof (has_tag_distinct _ _ _ Hlab Htag). discriminate. }
      lia.
    + intros m Hm. rewrite Hm in H.
      destruct (Z.of_nat m >? Z.of_nat l)%Z eqn:Hgt; [discriminate|].
      assert (Hle : (Z.of_nat m <= Z.of_nat l)%Z)
        by (rewrite Z.gtb_ltb in Hgt; apply Z.ltb_ge in Hgt; exact Hgt).
      destruct (index_of_tag_Some_nth _ _ _ Hm) as [icon [Hiconnth Hicon]].
      assert (Hne : m <> l).
      { intros ->. rewrite Hlabnth in Hiconnth. inversion Hiconnth. subst icon.
        pose proof (has_tag_distinct _ _ _ Hlab Hicon). discriminate. }
      lia.
  - intros H. destruct (H ltac:(discriminate) l eq_refl) as [Hcaption Hicon].
    pose proof (Hcaption _ cap Hcapnth (proj2 (tag_has_tag _ _) Hcap)) as Hcl.
    assert (Hlt : (Z.of_nat l <? Z.of_nat (List.length els) - 1 - Z.of_nat k)%Z = false)
      by (apply Z.ltb_ge; lia).
    rewrite Hlt.
    destruct (index_of_tag "MARGINICON" els) as [m|].
    + pose proof (Hicon m eq_refl) as Hml.
      assert (Hgt : (Z.of_nat m >? Z.of_nat l)%Z = false)
        by (rewrite Z.gtb_ltb; apply Z.ltb_ge; lia).
      rewrite Hgt. reflexivity.
    + assert (Hgt : (0 >? Z.of_nat l)%Z = false)
        by (rewrite Z.gtb_ltb; apply Z.ltb_ge; lia).
      rewrite Hgt. reflexivity.
Qed.

Lemma join_texts_then_raise (l : list Element) (f : string -> exn) :
  (msg <- join_texts l ;; @Raise unit (f msg)) <> Ok tt.
Proof. destruct (join_texts l); simpl; discriminate. Qed.

(** Success of the validation is the success of its five checks. *)
Lemma check_figure_format_steps (figure : Element) :
  check_figure_format figure = Ok tt <->
  for_each nested_label_check (findall "CAPTION" figure) = Ok tt /\
  order_check (children figure) (findall "CAPTION" figure) (findall "LABEL" figure)
  = Ok tt /\
  List.length (findall "LABEL" figure) <= 1 /\
  List.length (findall "SCRIPT" figure) <= 1 /\
  (findall "SCRIPT" figure <> [] -> findall "LABEL" figure <> []).
Proof.
  unfold check_figure_format.
  rewrite !bind_unit_Ok.
  set (labels := findall "LABEL" figure).
  set (scripts := findall "SCRIPT" figure).
  assert (H3 : (if Nat.leb 2 (List.length labels)
                then msg <- join_texts labels ;;
                     Raise (FigureFormatError
                              ("A figure has multiple labels: `" +++ msg +++ "`"))
                else Ok tt) = Ok tt <-> List.length labels <= 1).
  { destruct (Nat.leb 2 (List.length labels)) eqn:Hle.
    - apply Nat.leb_le in Hle. split; [|lia].
      intros H. exfalso. revert H. apply join_texts_then_raise.
    - apply Nat.leb_gt in Hle. split; [lia | reflexivity]. }
  assert (H4 : (if Nat.leb 2 (List.length scripts)
                then msg <- join_texts scripts ;;
                     Raise (FigureFormatError
                              ("A figure has multiple scripts: `" +++ msg +++ "`"))
                else Ok tt) = Ok tt <-> List.length scripts <= 1).
  { destruct (Nat.leb 2 (List.length scripts)) eqn:Hle.
    - apply Nat.leb_le in Hle. split; [|lia].
      intros H. exfalso. revert H. apply join_texts_then_raise.
    - apply Nat.leb_gt in Hle. split; [lia | reflexivity]. }
  assert (H5 : match scripts, labels with
               | _ :: _, [] =>
                   msg <- join_texts scripts ;;
                   Raise (FigureFormatError
                     ("A figure defines a script but has no label: `" +++ msg +++ "`"))
               | _, _ => Ok tt
               end = Ok tt <-> (scripts <> [] -> labels <> [])).
  { destruct scripts as [|s0 ss]; [split; [intros _ H; congruence | reflexivity]|].
    destruct labels as [|l0 ls].
    - split; [|intros H; exfalso; apply H; [discriminate | reflexivity]].
      intros H. exfalso. revert H. apply join_texts_then_raise.
    - split; [intros _ _; discriminate | reflexivity]. }
  rewrite H3, H4, H5. tauto.
Qed.

(** X11.  The validation succeeds on exactly the well-formed figure
    blocks: no label nested in a caption, at most one label and one
    script, no script without a label and, in a block with a caption,
    every caption and the first [\marginicon] before the label. *)
Theorem check_figure_format_accepts (figure : Element) :
  check_figure_format figure = Ok tt <-> well_formed_figure figure.
Proof.
  unfold well_formed_figure.
  rewrite check_figure_format_steps, for_each_nested_Ok, order_check_Ok.
  split.
  - intros [Hnested [Horder [Hlabels [Hscripts Hscript]]]].
    split; [exact Hnested|]. split; [exact Hlabels|]. split; [exact Hscripts|].
    split; [exact Hscript | exact Horder].
  - intros [Hnested [Hlabels [Hscripts [Hscript Horder]]]].
    split; [exact Hnested|]. split; [exact Horder|]. split; [exact Hlabels|].
    split; [exact Hscripts | exact Hscript].
Qed.



(** X13.  In a block with a caption, a label that stands before the
    first [\marginicon] is a format failure. *)
Theorem check_figure_format_marginicon (figure : Element) (l m : nat) :
  findall "CAPTION" figure <> [] ->
  index_of_tag "LABEL" (children figure) = Some l ->
  index_of_tag "MARGINICON" (children figure) = Some m ->
  l < m ->
  is_FigureFormatError (check_figure_format figure).
Proof.
  intros Hcaps Hl Hm Hlm. unfold check_figure_format.
  destruct (for_each_nested_cases (findall "CAPTION" figure)) as [Hn|[msg Hn]];
    rewrite Hn; cbn [bind]; [|exists msg; reflexivity].
  assert (Horder : is_FigureFormatError
            (order_check (children figure) (findall "CAPTION" figure)
                         (findall "LABEL" figure))).
  { destruct (order_check_cases (children figure) (findall "CAPTION" figure)
                (findall "LABEL" figure)) as [Hok|Hff]; [|exact Hff].
    exfalso.
    destruct (proj1 (order_check_Ok figure) Hok Hcaps l Hl) as [_ Hicon].
    specialize (Hicon m Hm). lia. }
  destruct Horder as [msg Hmsg]. rewrite Hmsg. exists msg. reflexivity.
Qed.

(** A caption, a label and a script, in this order. *)
Lemma check_figure_format_accepts_witness :
  well_formed_figure (figure_of [a_caption; a_label; a_script]).
Proof.
  apply (proj1 (check_figure_format_accepts (figure_of [a_caption; a_label; a_script]))).
  reflexivity.
Defined.


(** A caption, the label, and then the margin icon. *)
Lemma check_figure_format_marginicon_witness :
  is_FigureFormatError
    (check_figure_format
       (figure_of [a_caption; a_label; mkElement "MARGINICON" None []])).
Proof.
  apply (check_figure_format_marginicon
           (figure_of [a_caption; a_label; mkElement "MARGINICON" None []]) 1 2).
  - discriminate.
  - reflexivity.
  - reflexivity.
  - lia.
Defined.

(* ================================================================= *)
(** ** The figure tree: commands and the graphics path *)

Lemma find_ext_Some (extensions name_parts : list string) (range : list nat)
  (ext : string) :
  find_ext extensions name_parts range = Some ext ->
  exists i, In i range /\ ext = join "." (last_n i name_parts) /\
            mem ext extensions = true.
Proof.
  induction range as [|i range IH]; cbn [find_ext]; [discriminate|].
  destruct (mem (join "." (last_n i name_parts)) extensions) eqn:Hmem.
  - intros H. inversion H. subst ext. exists i.
    split; [left; reflexivity|]. split; [reflexivity | exact Hmem].
  - intros H. destruct (IH H) as [j [Hj Hrest]]. exists j.
    split; [right; exact Hj | exact Hrest].
Qed.

(** X14.  The command of a script is always the template of a
    registered extension that ends the script name after a dot;
    otherwise the step fails: with a [KeyError] when the registered
    extension has no template, with the figure-generation failure when
    no extension fits, as for every name without a dot. *)
Theorem script_command_outcomes (config : Config) (script_text : string) :
  ((exists stem ext command,
       script_text = stem +++ "." +++ ext /\
       registered config ext /\
       dict_get ext (scripts config) = Some command /\
       script_command config script_text = Ok command)
   \/
   (exists stem ext,
       script_text = stem +++ "." +++ ext /\
       registered config ext /\
       dict_get ext (scripts config) = None /\
       script_command config script_text = Raise (KeyError ext))
   \/
   (exists msg, script_command config script_text = Raise (FigureGenerationError msg)))
  /\
  (contains "." script_text = false ->
   exists msg, script_command config script_text = Raise (FigureGenerationError msg)).
Proof.
  split.
  - unfold script_command.
    destruct (find_ext _ _ _) as [ext|] eqn:Hfind;
      [|right; right; eexists; reflexivity].
    destruct (find_ext_Some _ _ _ _ Hfind) as [i [Hi [Hext Hmem]]].
    apply in_seq in Hi.
    destruct (suffix_ext_trailing script_text i ltac:(lia)) as [stem Hstem].
    unfold suffix_ext in Hstem. rewrite <- Hext in Hstem.
    unfold dict_item.
    destruct (dict_get ext (scripts config)) as [command|] eqn:Hget.
    + left. exists stem, ext, command. repeat split; assumption.
    + right. left. exists stem, ext. repeat split; assumption.
  - intros Hdot. unfold script_command.
    rewrite (split_without_sep _ _ Hdot). cbn [List.length Nat.sub seq find_ext].
    eexists. reflexivity.
Qed.

Lemma until_brace_closed (dir after : string) :
  contains "}" dir = false ->
  contains "010" dir = false ->
  until_brace (dir +++ String "}" after) = Some dir.
Proof.
  induction dir as [|c dir IH]; cbn [contains append until_brace]; intros Hb Hn.
  - reflexivity.
  - apply orb_false_iff in Hb. destruct Hb as [Hc Hb].
    apply orb_false_iff in Hn. destruct Hn as [Hc' Hn].
    rewrite Hc, Hc', (IH Hb Hn). reflexivity.
Qed.

Lemma first_braced_closed (before dir after : string) :
  contains "{" before = false ->
  contains "}" dir = false ->
  contains "010" dir = false ->
  first_braced (before +++ String "{" (dir +++ String "}" after)) = Some dir.
Proof.
  intros Hbefore Hb Hn.
  induction before as [|c before IH]; cbn [contains append first_braced] in *.
  - rewrite (until_brace_closed _ _ Hb Hn). reflexivity.
  - apply orb_false_iff in Hbefore. destruct Hbefore as [Hc Hbefore].
    rewrite Hc. apply IH. exact Hbefore.
Qed.

Lemma until_brace_open (t : string) :
  contains "}" t = false -> until_brace t = None.
Proof.
  induction t as [|c t IH]; cbn [contains until_brace]; [reflexivity|].
  intros H. apply orb_false_iff in H. destruct H as [Hc Ht].
  rewrite Hc, (IH Ht). destruct (Ascii.eqb c "010"); reflexivity.
Qed.

Lemma first_braced_open (t : string) :
  contains "}" t = false -> first_braced t = None.
Proof.
  induction t as [|c t IH]; cbn [contains first_braced]; [reflexivity|].
  intros H. apply orb_false_iff in H. destruct H as [Hc Ht].
  rewrite (until_brace_open _ Ht), (IH Ht).
  destruct (Ascii.eqb c "{"); reflexivity.
Qed.

(** X15.  The graphics path: without a [\graphicspath] call it is the
    current directory; with several calls the last one is read, and
    of its directories the first one, the text from the first opening
    brace to the next closing brace; a last call without text, or
    with no closing brace, is the graphics-path failure. *)
Theorem parse_graphicspath_cases (xml_tree : Element) :
  (findall "GRAPHICSPATH" xml_tree = [] ->
   parse_graphicspath xml_tree = Ok (Path "."))
  /\
  (forall calls g before dir after,
      findall "GRAPHICSPATH" xml_tree = calls ++ [g] ->
      text g = Some (before +++ "{" +++ dir +++ "}" +++ after) ->
      contains "{" before = false ->
      contains "}" dir = false ->
      contains "010" dir = false ->
      parse_graphicspath xml_tree = Ok (Path dir))
  /\
  (forall calls g,
      findall "GRAPHICSPATH" xml_tree = calls ++ [g] ->
      text g = None \/ (exists t, text g = Some t /\ contains "}" t = false) ->
      parse_graphicspath xml_tree = Raise GraphicsPathError).
Proof.
  unfold parse_graphicspath. split; [|split].
  - intros ->. reflexivity.
  - intros calls g before dir after -> Htext Hbefore Hb Hn.
    rewrite rev_app_distr. cbn [rev app]. rewrite Htext.
    change (before +++ "{" +++ dir +++ "}" +++ after)
      with (before +++ String "{" (dir +++ String "}" after)).
    rewrite (first_braced_closed _ _ _ Hbefore Hb Hn). reflexivity.
  - intros calls g -> [Htext|[t [Htext Hopen]]];
      rewrite rev_app_distr; cbn [rev app]; rewrite Htext; [reflexivity|].
    rewrite (first_braced_open _ Hopen). reflexivity.
Qed.

(** A script without extension, where [gz] and [tar.gz] are
    registered. *)
Lemma script_command_outcomes_witness :
  exists msg,
    script_command archive_config "Makefile" = Raise (FigureGenerationError msg).
Proof.
  apply (proj2 (script_command_outcomes archive_config "Makefile")).
  reflexivity.
Defined.

(** The example manuscript: one call, two directories. *)
Lemma parse_graphicspath_cases_witness :
  parse_graphicspath example_xml = Ok (Path "figures/").
Proof.
  apply (proj1 (proj2 (parse_graphicspath_cases example_xml))
           [] (mkElement "GRAPHICSPATH" (Some "{figures/}{other/}") [])
           "" "figures/" "{other/}");
    reflexivity.
Defined.

(* ================================================================= *)
(** ** The figure tree: its entries *)

Lemma fold_result_invariant {A S : Type} (f : S -> A -> result S)
  (I : list A -> S -> Prop) :
  (forall done x s s', I done s -> f s x = Ok s' -> I (done ++ [x]) s') ->
  forall l done s s',
    I done s -> fold_result f l s = Ok s' -> I (done ++ l) s'.
Proof.
  intros Hstep. induction l as [|x l IH]; intros done s s' HI H;
    cbn [fold_result] in H.
  - inversion H. subst. rewrite app_nil_r. exact HI.
  - apply bind_Ok_inv in H. destruct H as [s1 [Hx H]].
    replace (done ++ x :: l) with ((done ++ [x]) ++ l)
      by (rewrite <- app_assoc; reflexivity).
    apply (IH _ s1 s'); [|exact H].
    apply (Hstep _ _ s); assumption.
Qed.

Lemma map_result_In {A B : Type} (f : A -> result B) (l : list A) (l' : list B) :
  map_result f l = Ok l' ->
  forall y, In y l' <-> exists x, In x l /\ f x = Ok y.
Proof.
  intros H. apply map_result_Forall2 in H.
  induction H as [|x y l l' Hxy _ IH]; intros y0.
  - split; [intros [] | intros [x [[] _]]].
  - cbn [In]. rewrite IH. split.
    + intros [<-|[x0 [Hin Hf]]].
      * exists x. split; [left; reflexivity | exact Hxy].
      * exists x0. split; [right; exact Hin | exact Hf].
    + intros [x0 [[<-|Hin] Hf]].
      * left. congruence.
      * right. exists x0. split; assumption.
Qed.

Lemma filter_result_In {A : Type} (f : A -> result bool) (l l' : list A) :
  filter_result f l = Ok l' ->
  (forall x, In x l -> exists b, f x = Ok b) /\
  (forall x, In x l' <-> In x l /\ f x = Ok true).
Proof.
  revert l'. induction l as [|x l IH]; intros l' H; cbn [filter_result] in H.
  - inversion H. split; [intros x [] | intros x; split; [intros [] | intros [[] _]]].
  - apply bind_Ok_inv in H. destruct H as [b [Hb H]].
    apply bind_Ok_inv in H. destruct H as [ys [Hys H]].
    inversion H. subst l'. clear H.
    destruct (IH ys Hys) as [Htotal Hin]. split.
    + intros x0 [<-|Hx0]; [exists b; exact Hb | apply Htotal; exact Hx0].
    + intros x0. destruct b; cbn [In]; rewrite Hin; split.
      * intros [<-|[H1 H2]]; [split; [left; reflexivity | exact Hb]|].
        split; [right; exact H1 | exact H2].
      * intros [[<-|H1] H2]; [left; reflexivity | right; split; assumption].
      * intros [H1 H2]. split; [right; exact H1 | exact H2].
      * intros [[<-|H1] H2]; [congruence | split; assumption].
Qed.

Section TreeEntries.
Context {Z_ : Zenodo} {P_ : Paths} {F_ : FileSystem} {B_ : Builtins}.

Lemma script_and_command_Ok (config : Config) (figure : Element)
  (graphics : list string) (static : bool) (sc : option string * option string) :
  List.length (findall "SCRIPT" figure) <= 1 ->
  script_and_command config figure graphics static = Ok sc ->
  (fst sc = None /\
   forall s0, In s0 (findall "SCRIPT" figure) -> text s0 = None) \/
  (exists s0 t r,
      findall "SCRIPT" figure = [s0] /\ text s0 = Some t /\
      relative_to (joinpath scripts_dir (Path t)) repo = Ok r /\
      fst sc = Some (as_posix r)).
Proof.
  unfold script_and_command. intros Hone H.
  assert (Hno : forall sc',
             (if static then c <- cp_command graphics ;; Ok (None, Some c)
              else Ok (None, None)) = Ok sc' -> fst sc' = @None string).
  { intros sc'. destruct static; intros H'.
    - apply bind_Ok_inv in H'. destruct H' as [c [_ H']]. inversion H'. reflexivity.
    - inversion H'. reflexivity. }
  destruct (findall "SCRIPT" figure) as [|s0 ss].
  - left. split; [apply Hno; exact H | intros s0 []].
  - destruct ss as [|s1 ss]; [|cbn in Hone; lia].
    destruct (text s0) as [t|] eqn:Ht.
    + right. apply bind_Ok_inv in H. destruct H as [r [Hr H]].
      apply bind_Ok_inv in H. destruct H as [command [_ H]].
      inversion H. exists s0, t, r. repeat split; assumption.
    + left. split; [apply Hno; exact H|].
      intros s [<-|[]]. exact Ht.
Qed.

(** One iteration of the loop on the figure blocks. *)
Lemma figure_step_Ok (config : Config) (graphicspath : PurePath)
  (st st' : kdict (option string) FigureEntry.t * list string) (figure : Element) :
  figure_step config graphicspath st figure = Ok st' ->
  check_figure_format figure = Ok tt /\
  exists graphics,
    map_result (resolve_graphic graphicspath) (findall "GRAPHICS" figure)
    = Ok graphics /\
    ((findall "LABEL" figure = [] /\ st' = (fst st, snd st ++ graphics)) \/
     (exists label entry,
         findall "LABEL" figure = [label] /\
         entry_of_figure config graphicspath figure entry /\
         st' = (dict_set (text label) entry (fst st), snd st))).
Proof.
  unfold figure_step. intros H.
  apply bind_Ok_inv in H. destruct H as [[] [Hcheck H]].
  split; [exact Hcheck|].
  apply bind_Ok_inv in H. destruct H as [graphics [Hgraphics H]].
  exists graphics. split; [exact Hgraphics|].
  apply bind_Ok_inv in H. destruct H as [flags [_ H]].
  pose proof (proj1 (check_figure_format_steps figure) Hcheck)
    as [_ [_ [Hone [Hscripts _]]]].
  destruct (findall "LABEL" figure) as [|label0 labs].
  - left. inversion H. split; reflexivity.
  - right. destruct labs as [|l1 labs]; [|cbn in Hone; lia].
    apply bind_Ok_inv in H. destruct H as [sc [Hsc H]].
    apply bind_Ok_inv in H. destruct H as [datasets [_ H]].
    apply bind_Ok_inv in H. destruct H as [command [_ H]].
    inversion H. eexists. eexists. split; [reflexivity|].
    split; [|reflexivity].
    unfold entry_of_figure. cbn.
    split; [exact Hgraphics|]. split; [reflexivity|].
    apply (script_and_command_Ok _ _ _ _ _ Hscripts Hsc).
Qed.

Lemma figure_step_invariant (config : Config) (graphicspath : PurePath)
  (done : list Element) (figure : Element)
  (st st' : kdict (option string) FigureEntry.t * list string) :
  tree_invariant config graphicspath done st ->
  figure_step config graphicspath st figure = Ok st' ->
  tree_invariant config graphicspath (done ++ [figure]) st'.
Proof.
  intros [Hchecked [Hentries [Hhas Hfree]]] Hstep.
  destruct (figure_step_Ok _ _ _ _ _ Hstep) as [Hcheck [graphics [Hgraphics Hcases]]].
  assert (Hchecked' : forall f, In f (done ++ [figure]) ->
                                check_figure_format f = Ok tt).
  { intros f Hin. apply in_app_or in Hin.
    destruct Hin as [Hin|[<-|[]]]; [apply Hchecked; exact Hin | exact Hcheck]. }
  destruct Hcases as [[Hnone ->]|[label [entry [Hlabel [Hentry ->]]]]];
    unfold tree_invariant; cbn [fst snd];
    (split; [exact Hchecked'|]); (split; [|split]).
  - intros k e Hk. destruct (Hentries k e Hk) as [f [l [Hin Hrest]]].
    exists f, l. split; [apply in_or_app; left; exact Hin | exact Hrest].
  - intros f l Hin Hl. apply in_app_or in Hin.
    destruct Hin as [Hin|[<-|[]]]; [apply (Hhas f l Hin Hl) | congruence].
  - intros g. rewrite in_app_iff, Hfree, (map_result_In _ _ _ Hgraphics). split.
    + intros [[f [gr [Hin Hrest]]]|[gr [Hgr Hres]]].
      * exists f, gr. split; [apply in_or_app; left; exact Hin | exact Hrest].
      * exists figure, gr. split; [apply in_or_app; right; left; reflexivity|].
        repeat split; assumption.
    + intros [f [gr [Hin [Hl [Hgr Hres]]]]]. apply in_app_or in Hin.
      destruct Hin as [Hin|[<-|[]]].
      * left. exists f, gr. repeat split; assumption.
      * right. exists gr. split; assumption.
  - intros k e Hk.
    destruct (key_eqb k (text label)) eqn:Heq.
    + assert (Hkl : k = text label) by (apply key_eqb_eq; exact Heq).
      subst k. rewrite dict_get_set_same in Hk. inversion Hk. subst e.
      exists figure, label. split; [apply in_or_app; right; left; reflexivity|].
      split; [exact Hlabel|]. split; [reflexivity | exact Hentry].
    + assert (Hkl : k <> text label).
      { intros ->. rewrite key_eqb_refl in Heq. discriminate Heq. }
      rewrite dict_get_set_other in Hk by exact Hkl.
      destruct (Hentries k e Hk) as [f [l [Hin Hrest]]].
      exists f, l. split; [apply in_or_app; left; exact Hin | exact Hrest].
  - intros f l Hin Hl. apply in_app_or in Hin.
    destruct Hin as [Hin|[<-|[]]].
    + apply dict_has_set. apply (Hhas f l Hin Hl).
    + rewrite Hlabel in Hl. inversion Hl. subst l.
      unfold dict_has. rewrite dict_get_set_same. reflexivity.
  - intros g. rewrite Hfree. split.
    + intros [f [gr [Hin Hrest]]].
      exists f, gr. split; [apply in_or_app; left; exact Hin | exact Hrest].
    + intros [f [gr [Hin [Hl [Hgr Hres]]]]]. apply in_app_or in Hin.
      destruct Hin as [Hin|[<-|[]]]; [|congruence].
      exists f, gr. repeat split; assumption.
Qed.

(** [get_json_tree], step by step. *)
Lemma get_json_tree_Ok (config : Config) (xml_tree : Element) (t : Tree) :
  get_json_tree config (Ok xml_tree) = Ok t ->
  exists graphicspath st top static command,
    parse_graphicspath xml_tree = Ok graphicspath /\
    tree_invariant config graphicspath (findall "FIGURE" xml_tree) st /\
    map_result (resolve_graphic graphicspath) (findall "GRAPHICS" xml_tree)
    = Ok top /\
    filter_result is_static_graphic
      (filter (fun g => negb (mem g (tex_files_out config))) (top ++ snd st))
    = Ok static /\
    t = mkTree
          (dict_set (Some "free-floating-static")
             (FigureEntry.mk None static [] [] (Some command))
             (dict_set (Some "free-floating-dynamic")
                (FigureEntry.mk None
                   (filter (fun g => negb (mem g static))
                      (filter (fun g => negb (mem g (tex_files_out config)))
                         (top ++ snd st)))
                   [] [] None)
                (fst st))).
Proof.
  unfold get_json_tree. cbn [bind]. intros H.
  apply bind_Ok_inv in H. destruct H as [graphicspath [Hgp H]].
  apply bind_Ok_inv in H. destruct H as [st [Hfold H]].
  apply bind_Ok_inv in H. destruct H as [top [Htop H]].
  apply bind_Ok_inv in H. destruct H as [static [Hstatic H]].
  apply bind_Ok_inv in H. destruct H as [command [_ H]].
  inversion H. clear H.
  exists graphicspath, st, top, static, command.
  split; [exact Hgp|]. split; [|split; [exact Htop|split; [exact Hstatic|reflexivity]]].
  apply (fold_result_invariant (figure_step config graphicspath)
           (tree_invariant config graphicspath)
           (fun done x s s' => figure_step_invariant config graphicspath done x s s')
           (findall "FIGURE" xml_tree) [] ([], []) st); [|exact Hfold].
  split; [|split; [|split]].
  - intros f [].
  - intros k e Hk. discriminate Hk.
  - intros f l [].
  - intros g. split; [intros [] | intros [f [gr [[] _]]]].
Qed.

(** X16.  A tree is built from well-formed figure blocks only: when
    [get_json_tree] succeeds, every figure block of the manuscript
    passed the validation. *)
Theorem get_json_tree_figures_well_formed (config : Config) (xml_tree : Element)
  (t : Tree) :
  get_json_tree config (Ok xml_tree) = Ok t ->
  forall figure, In figure (findall "FIGURE" xml_tree) -> well_formed_figure figure.
Proof.
  intros H figure Hin.
  destruct (get_json_tree_Ok _ _ _ H)
    as [gp [st [top [static [command [_ [[Hchecked _] _]]]]]]].
  pose proof (proj1 (check_figure_format_steps figure) (Hchecked figure Hin))
    as [Hnested [Horder [Hlabels [Hscripts Hscript]]]].
  unfold well_formed_figure.
  split; [apply for_each_nested_Ok; exact Hnested|].
  split; [exact Hlabels|]. split; [exact Hscripts|]. split; [exact Hscript|].
  apply order_check_Ok. exact Horder.
Qed.

(** X17.  Every entry of the tree other than the two synthetic ones
    is the entry of a labelled figure block, under the text of its
    label: its graphics are the resolved graphics of that block, its
    script the path of the script the block names, if any, and its
    dependencies those the configuration lists for that script. *)
Theorem get_json_tree_entries (config : Config) (xml_tree : Element) (t : Tree)
  (k : option string) (e : FigureEntry.t) :
  get_json_tree config (Ok xml_tree) = Ok t ->
  dict_get k (figures t) = Some e ->
  k <> Some "free-floating-dynamic" ->
  k <> Some "free-floating-static" ->
  exists graphicspath figure label,
    parse_graphicspath xml_tree = Ok graphicspath /\
    In figure (findall "FIGURE" xml_tree) /\
    findall "LABEL" figure = [label] /\
    k = text label /\
    entry_of_figure config graphicspath figure e.
Proof.
  intros H Hk Hdyn Hstat.
  destruct (get_json_tree_Ok _ _ _ H)
    as [gp [st [top [static [command [Hgp [[_ [Hentries _]] [_ [_ ->]]]]]]]]].
  cbn [figures] in Hk. rewrite !dict_get_set_other in Hk by assumption.
  destruct (Hentries k e Hk) as [figure [label Hrest]].
  exists gp, figure, label. split; [exact Hgp | exact Hrest].
Qed.

(** X18.  The figure tree has one entry for each label of a figure
    block and the two synthetic entries, and nothing else: a block
    without label gets no entry. *)
Theorem get_json_tree_keys (config : Config) (xml_tree : Element) (t : Tree) :
  get_json_tree config (Ok xml_tree) = Ok t ->
  (forall k, In k (dict_keys (figures t)) ->
             k = Some "free-floating-dynamic" \/
             k = Some "free-floating-static" \/
             exists figure label,
               In figure (findall "FIGURE" xml_tree) /\
               findall "LABEL" figure = [label] /\
               k = text label)
  /\
  (forall figure label,
      In figure (findall "FIGURE" xml_tree) ->
      findall "LABEL" figure = [label] ->
      dict_has (text label) (figures t) = true).
Proof.
  intros H.
  destruct (get_json_tree_Ok _ _ _ H)
    as [gp [st [top [static [command [_ [[_ [Hentries [Hhas _]]] [_ [_ ->]]]]]]]]].
  cbn [figures]. split.
  - intros k Hk.
    assert (Hcases : forall (k0 : option string) e (d : kdict (option string) FigureEntry.t),
               In k (dict_keys (dict_set k0 e d)) -> k = k0 \/ In k (dict_keys d)).
    { intros k0 e d Hin.
      destruct (dict_set_keys k0 e d) as [[_ Heq]|[_ Heq]]; rewrite Heq in Hin.
      - right. exact Hin.
      - apply in_app_or in Hin. destruct Hin as [Hin|[<-|[]]];
          [right; exact Hin | left; reflexivity]. }
    apply Hcases in Hk. destruct Hk as [->|Hk]; [right; left; reflexivity|].
    apply Hcases in Hk. destruct Hk as [->|Hk]; [left; reflexivity|].
    right. right. destruct (dict_get_key k (fst st) Hk) as [e He].
    destruct (Hentries k e He) as [f [l [Hin [Hl [Hkl _]]]]].
    exists f, l. repeat split; assumption.
  - intros f l Hin Hl. apply dict_has_set. apply dict_has_set.
    apply (Hhas f l Hin Hl).
Qed.

(** X19.  The free-floating graphics are split in two: the static
    entry holds those whose file sits in the figures directory and has
    a copy in the static directory, the dynamic entry the others; no
    dependency of the manuscript file ([tex_files_out]) is in either,
    and no graphic is in both. *)
Theorem get_json_tree_free_floating_split (config : Config) (xml_tree : Element)
  (t : Tree) :
  get_json_tree config (Ok xml_tree) = Ok t ->
  exists dynamic static command,
    dict_get (Some "free-floating-dynamic") (figures t)
    = Some (FigureEntry.mk None dynamic [] [] None) /\
    dict_get (Some "free-floating-static") (figures t)
    = Some (FigureEntry.mk None static [] [] (Some command)) /\
    (forall g, In g static ->
               is_static_graphic g = Ok true /\ ~ In g (tex_files_out config)) /\
    (forall g, In g dynamic ->
               is_static_graphic g = Ok false /\ ~ In g (tex_files_out config)) /\
    (forall g, In g static -> ~ In g dynamic).
Proof.
  intros H.
  destruct (get_json_tree_Ok _ _ _ H)
    as [gp [st [top [static [command [_ [_ [_ [Hstatic ->]]]]]]]]].
  cbn [figures]. eexists. exists static, command.
  split; [rewrite dict_get_set_other by discriminate; apply dict_get_set_same|].
  split; [apply dict_get_set_same|].
  destruct (filter_result_In _ _ _ Hstatic) as [Htotal Hin].
  assert (Hout : forall g,
             In g (filter (fun g => negb (mem g (tex_files_out config)))
                          (top ++ snd st)) ->
             ~ In g (tex_files_out config)).
  { intros g Hg. apply filter_In in Hg. destruct Hg as [_ Hg].
    apply negb_true_iff in Hg. apply mem_false_iff. exact Hg. }
  split; [|split].
  - intros g Hg. apply Hin in Hg. destruct Hg as [Hg Hs].
    split; [exact Hs | apply Hout; exact Hg].
  - intros g Hg. apply filter_In in Hg. destruct Hg as [Hg Hnot].
    split; [|apply Hout; exact Hg].
    destruct (Htotal g Hg) as [[|] Hb]; [|exact Hb].
    apply negb_true_iff in Hnot.
    assert (Hmem : mem g static = true)
      by (apply mem_true_iff; apply Hin; split; assumption).
    congruence.
  - intros g Hs Hd. apply filter_In in Hd. destruct Hd as [_ Hnot].
    apply negb_true_iff in Hnot. apply mem_true_iff in Hs. congruence.
Qed.

(** X20.  Where the free-floating graphics come from: a graphic is in
    one of the two synthetic entries exactly when it is no dependency
    of the manuscript file and is the resolved path of a graphic placed
    outside the figure blocks, or inside a block without label. *)
Theorem get_json_tree_free_floating_sources (config : Config) (xml_tree : Element)
  (t : Tree) :
  get_json_tree config (Ok xml_tree) = Ok t ->
  exists graphicspath dynamic static command,
    parse_graphicspath xml_tree = Ok graphicspath /\
    dict_get (Some "free-floating-dynamic") (figures t)
    = Some (FigureEntry.mk None dynamic [] [] None) /\
    dict_get (Some "free-floating-static") (figures t)
    = Some (FigureEntry.mk None static [] [] (Some command)) /\
    forall g,
      In g (static ++ dynamic) <->
      ~ In g (tex_files_out config) /\
      ((exists graphic,
           In graphic (findall "GRAPHICS" xml_tree) /\
           resolve_graphic graphicspath graphic = Ok g) \/
       (exists figure graphic,
           In figure (findall "FIGURE" xml_tree) /\
           findall "LABEL" figure = [] /\
           In graphic (findall "GRAPHICS" figure) /\
           resolve_graphic graphicspath graphic = Ok g)).
Proof.
  intros H.
  destruct (get_json_tree_Ok _ _ _ H)
    as [gp [st [top [static [command [Hgp [[_ [_ [_ Hfree]]] [Htop [Hstatic ->]]]]]]]]].
  cbn [figures]. exists gp. eexists. exists static, command.
  split; [exact Hgp|].
  split; [rewrite dict_get_set_other by discriminate; apply dict_get_set_same|].
  split; [apply dict_get_set_same|].
  destruct (filter_result_In _ _ _ Hstatic) as [Htotal Hin].
  intros g.
  set (ffg := filter (fun g => negb (mem g (tex_files_out config))) (top ++ snd st))
    in *.
  assert (Hffg : In g ffg <->
                 ~ In g (tex_files_out config) /\ (In g top \/ In g (snd st))).
  { unfold ffg. rewrite filter_In, in_app_iff, negb_true_iff, mem_false_iff. tauto. }
  assert (Hsplit : In g (static ++ filter (fun g => negb (mem g static)) ffg)
                   <-> In g ffg).
  { rewrite in_app_iff, filter_In, Hin. split.
    - intros [[Hg _]|[Hg _]]; exact Hg.
    - intros Hg. destruct (mem g static) eqn:Hmem.
      + left. apply mem_true_iff in Hmem. apply Hin in Hmem. exact Hmem.
      + right. split; [exact Hg | reflexivity]. }
  rewrite Hsplit, Hffg, (map_result_In _ _ _ Htop), Hfree. tauto.
Qed.

End TreeEntries.

(** The example manuscript holds the labelled figure [fig:one], an
    unlabelled figure, a static logo and a graphic that the manuscript
    file depends on; its tree is built, so its figures are well formed. *)
Lemma get_json_tree_figures_well_formed_witness :
  well_formed_figure
    (figure_of [mkElement "GRAPHICS" (Some "fig.pdf") []; a_caption; a_label; a_script]).
Proof.
  destruct (get_json_tree (Z_:=Example.zenodo) (P_:=Example.paths)
              (F_:=Example.file_system) (B_:=Example.builtins)
              plain_config (Ok example_xml)) as [t|e] eqn:Hrun;
    [|vm_compute in Hrun; discriminate Hrun].
  apply (get_json_tree_figures_well_formed (Z_:=Example.zenodo) (P_:=Example.paths)
           (F_:=Example.file_system) (B_:=Example.builtins)
           plain_config example_xml t Hrun).
  left. reflexivity.
Defined.

(** The entry of the labelled figure of the example manuscript. *)
Lemma get_json_tree_entries_witness :
  exists t e,
    get_json_tree (Z_:=Example.zenodo) (P_:=Example.paths) (F_:=Example.file_system)
      (B_:=Example.builtins) plain_config (Ok example_xml) = Ok t /\
    dict_get (Some "fig:one") (figures t) = Some e /\
    exists graphicspath figure,
      In figure (findall "FIGURE" example_xml) /\
      entry_of_figure (P_:=Example.paths) (F_:=Example.file_system)
        plain_config graphicspath figure e.
Proof.
  destruct (get_json_tree (Z_:=Example.zenodo) (P_:=Example.paths)
              (F_:=Example.file_system) (B_:=Example.builtins)
              plain_config (Ok example_xml)) as [t|e] eqn:Hrun;
    [|vm_compute in Hrun; discriminate Hrun].
  destruct (dict_get (Some "fig:one") (figures t)) as [e|] eqn:Hget.
  - destruct (get_json_tree_entries (Z_:=Example.zenodo) (P_:=Example.paths)
                (F_:=Example.file_system) (B_:=Example.builtins)
                plain_config example_xml t (Some "fig:one") e Hrun Hget
                ltac:(discriminate) ltac:(discriminate))
      as [gp [figure [label [_ [Hin [_ [_ Hentry]]]]]]].
    exists t, e. split; [reflexivity|]. split; [exact Hget|].
    exists gp, figure. split; [exact Hin | exact Hentry].
  - exfalso. vm_compute in Hrun. inversion Hrun. subst t.
    vm_compute in Hget. discriminate Hget.
Defined.

(** The labelled figure of the example manuscript has its key. *)
Lemma get_json_tree_keys_witness :
  exists t,
    get_json_tree (Z_:=Example.zenodo) (P_:=Example.paths) (F_:=Example.file_system)
      (B_:=Example.builtins) plain_config (Ok example_xml) = Ok t /\
    dict_has (Some "fig:one") (figures t) = true.
Proof.
  destruct (get_json_tree (Z_:=Example.zenodo) (P_:=Example.paths)
              (F_:=Example.file_system) (B_:=Example.builtins)
              plain_config (Ok example_xml)) as [t|e] eqn:Hrun;
    [|vm_compute in Hrun; discriminate Hrun].
  exists t. split; [reflexivity|].
  apply (proj2 (get_json_tree_keys (Z_:=Example.zenodo) (P_:=Example.paths)
                  (F_:=Example.file_system) (B_:=Example.builtins)
                  plain_config example_xml t Hrun)
           (figure_of [mkElement "GRAPHICS" (Some "fig.pdf") []; a_caption; a_label;
                       a_script])
           a_label).
  - left. reflexivity.
  - reflexivity.
Defined.

(** The two synthetic entries of the example manuscript. *)
Lemma get_json_tree_free_floating_split_witness :
  exists t dynamic static command,
    get_json_tree (Z_:=Example.zenodo) (P_:=Example.paths) (F_:=Example.file_system)
      (B_:=Example.builtins) plain_config (Ok example_xml) = Ok t /\
    dict_get (Some "free-floating-dynamic") (figures t)
    = Some (FigureEntry.mk None dynamic [] [] None) /\
    dict_get (Some "free-floating-static") (figures t)
    = Some (FigureEntry.mk None static [] [] (Some command)) /\
    (forall g, In g static -> ~ In g dynamic).
Proof.
  destruct (get_json_tree (Z_:=Example.zenodo) (P_:=Example.paths)
              (F_:=Example.file_system) (B_:=Example.builtins)
              plain_config (Ok example_xml)) as [t|e] eqn:Hrun;
    [|vm_compute in Hrun; discriminate Hrun].
  destruct (get_json_tree_free_floating_split (Z_:=Example.zenodo) (P_:=Example.paths)
              (F_:=Example.file_system) (B_:=Example.builtins)
              plain_config example_xml t Hrun)
    as [dynamic [static [command [Hd [Hs [_ [_ Hdisjoint]]]]]]].
  exists t, dynamic, static, command.
  split; [reflexivity|]. split; [exact Hd|]. split; [exact Hs | exact Hdisjoint].
Defined.

(** The graphic of the unlabelled figure is free-floating; the one
    the manuscript file depends on is left out. *)
Lemma get_json_tree_free_floating_sources_witness :
  exists t dynamic static command,
    get_json_tree (Z_:=Example.zenodo) (P_:=Example.paths) (F_:=Example.file_system)
      (B_:=Example.builtins) plain_config (Ok example_xml) = Ok t /\
    dict_get (Some "free-floating-dynamic") (figures t)
    = Some (FigureEntry.mk None dynamic [] [] None) /\
    dict_get (Some "free-floating-static") (figures t)
    = Some (FigureEntry.mk None static [] [] (Some command)) /\
    In "src/tex/figures/un.pdf" (static ++ dynamic) /\
    ~ In "src/tex/orcid.png" (static ++ dynamic).
Proof.
  destruct (get_json_tree (Z_:=Example.zenodo) (P_:=Example.paths)
              (F_:=Example.file_system) (B_:=Example.builtins)
              plain_config (Ok example_xml)) as [t|e] eqn:Hrun;
    [|vm_compute in Hrun; discriminate Hrun].
  destruct (get_json_tree_free_floating_sources (Z_:=Example.zenodo)
              (P_:=Example.paths) (F_:=Example.file_system) (B_:=Example.builtins)
              plain_config example_xml t Hrun)
    as [gp [dynamic [static [command [Hgp [Hd [Hs Hiff]]]]]]].
  exists t, dynamic, static, command.
  split; [reflexivity|]. split; [exact Hd|]. split; [exact Hs|].
  vm_compute in Hgp. inversion Hgp. subst gp. clear Hgp.
  split.
  - apply Hiff. split.
    + cbn. intros [H|[]]. discriminate H.
    + right.
      exists (figure_of [mkElement "GRAPHICS" (Some "un.pdf") []]),
             (mkElement "GRAPHICS" (Some "un.pdf") []).
      split; [right; left; reflexivity|]. split; [reflexivity|].
      split; [left; reflexivity | reflexivity].
  - intros Hin. apply Hiff in Hin. destruct Hin as [Hout _].
    apply Hout. left. reflexivity.
Defined.

(* ================================================================= *)
(** ** After the tree: dependencies of the manuscript and script labels *)

Lemma ms_dependencies_flat_map (config : Config)
  (figs : kdict (option string) FigureEntry.t) :
  ms_dependencies config figs
  = dict_get_default (ms_tex config) [] (dependencies config)
    ++ flat_map (fun kv => map (fun g => as_posix (Path g))
                               (FigureEntry.graphics (snd kv))) figs.
Proof.
  unfold ms_dependencies.
  generalize (dict_get_default (ms_tex config) [] (dependencies config)) as init.
  induction figs as [|kv figs IH]; intros init; cbn [fold_left flat_map].
  - rewrite app_nil_r. reflexivity.
  - rewrite IH. rewrite <- app_assoc. reflexivity.
Qed.

Lemma alias_dependencies_same (config : Config) (extended : list string)
  (e : FigureEntry.t) :
  FigureEntry.script (alias_dependencies config extended e) = FigureEntry.script e /\
  FigureEntry.graphics (alias_dependencies config extended e) = FigureEntry.graphics e /\
  FigureEntry.datasets (alias_dependencies config extended e) = FigureEntry.datasets e /\
  FigureEntry.command (alias_dependencies config extended e) = FigureEntry.command e.
Proof.
  unfold alias_dependencies. destruct (FigureEntry.script e) eqn:Hs;
    [|repeat split; assumption].
  destruct (_ && _); cbn; repeat split; assumption.
Qed.

(** X21.  "Make all of the graphics dependencies of the article":
    after the tree is built, the dependencies of the manuscript file
    are the former ones followed by the graphics of all the entries of
    the tree, in the order of the tree; so every graphic of every
    entry is one of them.  The dependencies of the other files stay. *)
Theorem finalize_manuscript_dependencies (config : Config) (t : Tree) :
  dict_get (ms_tex config) (dependencies (finalize config t))
  = Some (dict_get_default (ms_tex config) [] (dependencies config)
          ++ flat_map (fun kv => map (fun g => as_posix (Path g))
                                     (FigureEntry.graphics (snd kv)))
                      (figures t))
  /\
  (forall k, k <> ms_tex config ->
             dict_get k (dependencies (finalize config t))
             = dict_get k (dependencies config))
  /\
  (exists t',
      tree (finalize config t) = Some t' /\
      forall label e g deps,
        dict_get label (figures t') = Some e ->
        In g (FigureEntry.graphics e) ->
        dict_get (ms_tex config) (dependencies (finalize config t)) = Some deps ->
        In (as_posix (Path g)) deps).
Proof.
  unfold finalize. cbn [dependencies set_labels set_dependencies set_tree tree].
  rewrite ms_dependencies_flat_map.
  split; [apply dict_get_set_same|].
  split; [intros k Hk; apply dict_get_set_other; exact Hk|].
  eexists. split; [reflexivity|]. cbn [figures].
  intros label e g deps Hget Hg Hdeps.
  rewrite dict_get_set_same in Hdeps. inversion Hdeps. subst deps. clear Hdeps.
  apply dict_get_In in Hget. apply in_map_iff in Hget.
  destruct Hget as [[label0 e0] [Heq Hin]]. cbn [fst snd] in Heq.
  inversion Heq. subst label0. clear Heq.
  match goal with
  | H : alias_dependencies _ ?ext e0 = e |- _ =>
      destruct (alias_dependencies_same config ext e0) as [_ [Hgr _]];
      rewrite H in Hgr
  end.
  apply in_or_app. right. apply in_flat_map. exists (label, e0).
  split; [exact Hin|]. cbn [snd].
  apply (in_map (fun g => as_posix (Path g))). rewrite <- Hgr. exact Hg.
Qed.

Lemma append_length_inj (a b s t : string) :
  String.length s = String.length t ->
  a +++ s = b +++ t -> a = b /\ s = t.
Proof.
  intros Hlen.
  assert (Hlen_app : forall x y, String.length (x +++ y)
                                 = String.length x + String.length y).
  { induction x as [|c x IH]; intros y; simpl; [reflexivity|].
    rewrite IH. reflexivity. }
  revert b. induction a as [|c a IH]; intros [|d b] H; cbn [append] in H.
  - split; [reflexivity | exact H].
  - exfalso. apply (f_equal String.length) in H. cbn [String.length] in H.
    rewrite Hlen_app in H. lia.
  - exfalso. apply (f_equal String.length) in H. cbn [String.length] in H.
    rewrite Hlen_app in H. lia.
  - inversion H. subst d. destruct (IH b) as [-> Hst]; [assumption|].
    split; [reflexivity | exact Hst].
Qed.

(** The keys of two figures with different label texts are apart. *)
Lemma script_key_apart (label label' : option string) (n : string) :
  format_text label' <> format_text label ->
  In n ["One"; "Two"; "Three"] ->
  script_key label' <> script_key label /\
  dataset_key label' n <> script_key label.
Proof.
  unfold script_key, dataset_key. intros Hne Hn. split.
  - intros H. apply append_length_inj in H; [|reflexivity]. tauto.
  - intros H.
    destruct Hn as [<-|[<-|[<-|[]]]].
    + change (format_text label' +++ "_dataset" +++ "One")
        with (format_text label' +++ "_dat" +++ "asetOne") in H.
      rewrite <- append_assoc in H.
      apply append_length_inj in H; [|reflexivity]. destruct H as [_ H]. discriminate H.
    + change (format_text label' +++ "_dataset" +++ "Two")
        with (format_text label' +++ "_dat" +++ "asetTwo") in H.
      rewrite <- append_assoc in H.
      apply append_length_inj in H; [|reflexivity]. destruct H as [_ H]. discriminate H.
    + change (format_text label' +++ "_dataset" +++ "Three")
        with (format_text label' +++ "_datas" +++ "etThree") in H.
      rewrite <- append_assoc in H.
      apply append_length_inj in H; [|reflexivity]. destruct H as [_ H]. discriminate H.
Qed.

Lemma figure_labels_script_other (labels : dict string) (label label' : option string)
  (e : FigureEntry.t) :
  format_text label' <> format_text label ->
  dict_get (script_key label) (figure_labels labels (label', e))
  = dict_get (script_key label) labels.
Proof.
  intros Hne. apply figure_labels_other; intros H; symmetry in H; revert H.
  - apply (script_key_apart label label' "One" Hne). left. reflexivity.
  - apply (script_key_apart label label' "One" Hne). left. reflexivity.
  - apply (script_key_apart label label' "Two" Hne). right. left. reflexivity.
  - apply (script_key_apart label label' "Three" Hne). right. right. left. reflexivity.
Qed.

Lemma fold_figure_labels_script_other (figs : kdict (option string) FigureEntry.t)
  (labels : dict string) (label : option string) :
  (forall kv, In kv figs -> format_text (fst kv) <> format_text label) ->
  dict_get (script_key label) (fold_left figure_labels figs labels)
  = dict_get (script_key label) labels.
Proof.
  revert labels. induction figs as [|[l e] figs IH]; intros labels H;
    cbn [fold_left]; [reflexivity|].
  rewrite IH by (intros kv Hin; apply H; right; exact Hin).
  apply figure_labels_script_other. apply (H (l, e)). left. reflexivity.
Qed.

Lemma figure_labels_script_own (labels : dict string) (label : option string)
  (e : FigureEntry.t) :
  dict_get (script_key label) (figure_labels labels (label, e))
  = match FigureEntry.script e with
    | Some s => Some s
    | None => dict_get (script_key label) labels
    end.
Proof.
  unfold figure_labels. cbn [fst snd].
  rewrite fold_dataset_labels_other.
  - destruct (FigureEntry.script e); [|reflexivity].
    apply dict_get_set_same.
  - intros [d n] Hin. cbn [snd]. apply (script_key_not_dataset_key label n).
Qed.

Lemma make_labels_script (figs : kdict (option string) FigureEntry.t)
  (label : option string) (e : FigureEntry.t) :
  NoDup (map (fun kv => format_text (fst kv)) figs) ->
  In (label, e) figs ->
  dict_get (script_key label) (make_labels figs) = FigureEntry.script e.
Proof.
  intros Hnodup Hin. unfold make_labels.
  apply in_split in Hin. destruct Hin as [pre [post ->]].
  rewrite map_app in Hnodup. cbn [map fst] in Hnodup.
  pose proof (NoDup_remove_2 _ _ _ Hnodup) as Hnotin.
  rewrite fold_left_app. cbn [fold_left].
  rewrite fold_figure_labels_script_other.
  - rewrite figure_labels_script_own.
    destruct (FigureEntry.script e); [reflexivity|].
    rewrite fold_figure_labels_script_other; [reflexivity|].
    intros kv Hkv Heq. apply Hnotin. apply in_or_app. left.
    rewrite <- Heq. apply (in_map (fun kv => format_text (fst kv))). exact Hkv.
  - intros kv Hkv Heq. apply Hnotin. apply in_or_app. right.
    rewrite <- Heq. apply (in_map (fun kv => format_text (fst kv))). exact Hkv.
Qed.

(** X22.  When no two entries of the tree have the same label text,
    the label [<label>_script] of every entry holds its script, and
    is absent for an entry without script. *)
Theorem finalize_script_labels (config : Config) (t : Tree)
  (label : option string) (e : FigureEntry.t) :
  NoDup (map (fun kv => format_text (fst kv)) (figures t)) ->
  In (label, e) (figures t) ->
  dict_get (script_key label) (labels (finalize config t)) = FigureEntry.script e.
Proof.
  intros Hnodup Hin. unfold finalize. cbn [labels set_labels].
  set (extended := ms_dependencies config (figures t)).
  destruct (alias_dependencies_same config extended e) as [<- _].
  apply make_labels_script.
  - rewrite map_map. cbn [fst]. exact Hnodup.
  - apply (in_map (fun kv => (fst kv, alias_dependencies config extended (snd kv)))
                  _ (label, e)). exact Hin.
Qed.

(** A tree with one figure and one graphic. *)
Lemma finalize_manuscript_dependencies_witness :
  dict_get "src/tex/ms.tex"
    (dependencies
       (finalize plain_config
          (mkTree [(Some "fig:one",
                    FigureEntry.mk (Some "src/scripts/fig.py")
                      ["src/tex/figures/fig.pdf"] [] ["src/data/a.csv"] None)])))
  = Some ["src/tex/figures/fig.pdf"] /\
  dict_get "src/scripts/fig.py"
    (dependencies
       (finalize plain_config
          (mkTree [(Some "fig:one",
                    FigureEntry.mk (Some "src/scripts/fig.py")
                      ["src/tex/figures/fig.pdf"] [] ["src/data/a.csv"] None)])))
  = Some ["src/data/a.csv"].
Proof.
  destruct (finalize_manuscript_dependencies plain_config
              (mkTree [(Some "fig:one",
                        FigureEntry.mk (Some "src/scripts/fig.py")
                          ["src/tex/figures/fig.pdf"] [] ["src/data/a.csv"] None)]))
    as [Hms [Hother _]].
  split; [exact Hms|].
  rewrite Hother by discriminate. reflexivity.
Defined.

(** A figure with a script and one without. *)
Lemma finalize_script_labels_witness :
  let t := mkTree [(Some "fig:one",
                    FigureEntry.mk (Some "src/scripts/fig.py") [] [] [] None);
                   (Some "fig:two", FigureEntry.mk None [] [] [] None)] in
  dict_get "fig:one_script" (labels (finalize plain_config t))
  = Some "src/scripts/fig.py" /\
  dict_get "fig:two_script" (labels (finalize plain_config t)) = None.
Proof.
  intros t.
  assert (Hnodup : NoDup (map (fun kv => format_text (fst kv)) (figures t))).
  { cbn. constructor; [|constructor; [|constructor]].
    - intros [H|[]]. discriminate H.
    - intros []. }
  split.
  - apply (finalize_script_labels plain_config t (Some "fig:one")
             (FigureEntry.mk (Some "src/scripts/fig.py") [] [] [] None) Hnodup).
    left. reflexivity.
  - apply (finalize_script_labels plain_config t (Some "fig:two")
             (FigureEntry.mk None [] [] [] None) Hnodup).
    right. left. reflexivity.
Defined.

(* ================================================================= *)
(** ** The TeX wrapper: copies and undecodable output *)

Section CompileTexMore.
Context {O : OS}.
Variable user : PurePath.

(** X23.  When the engine fails and its output is not valid UTF-8,
    the decoding error is what [compile_tex] raises, not the engine
    failure: before anything is printed if the standard output cannot
    be decoded, after the standard output was printed if only the
    standard error cannot. *)
Theorem compile_tex_undecodable_output (cfg : Tex.config) (args : list string)
  (stylesheet : option PurePath) (st st1 : Tex.state)
  (r : CompletedProcess) (w2 : world) :
  Tex.prepare user cfg stylesheet st = (Ok tt, st1) ->
  subprocess_run (Tex.tectonic_argv user cfg args) (Tex.os st1) = Ok (r, w2) ->
  returncode r <> 0%Z ->
  (forall e,
      decode_utf8 (stdout r) = Raise e ->
      Tex.compile_tex user cfg args stylesheet st
      = (Raise e, Tex.mkState w2 (Tex.printed st)))
  /\
  (forall out e,
      decode_utf8 (stdout r) = Ok out ->
      decode_utf8 (stderr r) = Raise e ->
      Tex.compile_tex user cfg args stylesheet st
      = (Raise e, Tex.mkState w2 (Tex.printed st ++ [out]))).
Proof.
  intros Hprep Hrun Hrc.
  rewrite (compile_tex_unfold _ _ _ _ _ _ _ _ Hprep Hrun).
  rewrite (prepare_printed _ _ _ _ _ _ Hprep).
  unfold Tex.report. apply Z.eqb_neq in Hrc. rewrite Hrc. cbn [negb].
  unfold Tex.mbind, Tex.lift, Tex.print, Tex.raise. split.
  - intros e He. rewrite He. reflexivity.
  - intros out e Hout He. rewrite Hout. cbn [Tex.os Tex.printed].
    rewrite He. reflexivity.
Qed.

(** X24.  Auxiliary files that are already in the manuscript
    directory are not copied again: when the destination of every
    auxiliary file exists and no stylesheet is given, the preparation
    leaves the file system as it is. *)
Theorem prepare_keeps_existing_files (cfg : Tex.config) (st : Tex.state) :
  Forall (fun file =>
            path_exists (joinpath (WorkflowPaths.tex user)
                                  (Path (name (joinpath user (Path file)))))
                        (Tex.os st) = true)
         (Tex.tex_files_in cfg) ->
  Tex.prepare user cfg None st = (Ok tt, st).
Proof.
  unfold Tex.prepare, Tex.mbind.
  induction 1 as [|file files Hfile _ IH]; cbn [Tex.mfor].
  - reflexivity.
  - unfold Tex.mbind at 1. unfold Tex.copy_auxiliary at 1.
    rewrite Hfile. exact IH.
Qed.

End CompileTexMore.

(* ================================================================= *)
(** ** The path registry *)

Lemma is_prefix_app (l l' : list string) : is_prefix l (l ++ l') = true.
Proof.
  induction l as [|x l IH]; cbn [is_prefix app]; [reflexivity|].
  rewrite String.eqb_refl. exact IH.
Qed.

Lemma skipn_length_app {A : Type} (l l' : list A) :
  skipn (List.length l) (l ++ l') = l'.
Proof. induction l as [|x l IH]; cbn; [reflexivity | exact IH]. Qed.

(** A relative path appended to a directory is found again relative
    to it. *)
Lemma relative_to_joinpath (p : PurePath) (l : list string) :
  relative_to (joinpath p (mkPath "" l)) p = Ok (mkPath "" l).
Proof.
  unfold relative_to, is_relative_to, joinpath. cbn [root segs String.eqb].
  rewrite String.eqb_refl, is_prefix_app, skipn_length_app. reflexivity.
Qed.

(** X25.  Every user path of the registry lies inside the user
    directory, whatever that directory is: relative to it, the paths
    are [src], [src/tex], [src/figure-scripts], [src/static-figures],
    [src/tex/figures], and the scratch directory [.showyourwork] with
    [preprocess], [compile] and [logs] inside it. *)
Theorem registry_inside_user (user : PurePath) :
  relative_to (WorkflowPaths.src user) user = Ok (Path "src") /\
  relative_to (WorkflowPaths.tex user) user = Ok (Path "src/tex") /\
  relative_to (WorkflowPaths.figure_scripts user) user = Ok (Path "src/figure-scripts") /\
  relative_to (WorkflowPaths.static_figures user) user = Ok (Path "src/static-figures") /\
  relative_to (WorkflowPaths.figures user) user = Ok (Path "src/tex/figures") /\
  relative_to (WorkflowPaths.temp user) user = Ok (Path ".showyourwork") /\
  relative_to (WorkflowPaths.preprocess user) (WorkflowPaths.temp user)
  = Ok (Path "preprocess") /\
  relative_to (WorkflowPaths.compile user) (WorkflowPaths.temp user)
  = Ok (Path "compile") /\
  relative_to (WorkflowPaths.logs user) (WorkflowPaths.temp user) = Ok (Path "logs").
Proof.
  assert (Hjoin : forall p l l',
             joinpath (joinpath p (mkPath "" l)) (mkPath "" l')
             = joinpath p (mkPath "" (l ++ l'))).
  { intros p l l'. unfold joinpath. cbn [root segs String.eqb].
    rewrite app_assoc. reflexivity. }
  unfold WorkflowPaths.figures, WorkflowPaths.preprocess, WorkflowPaths.compile,
    WorkflowPaths.logs, WorkflowPaths.tex, WorkflowPaths.figure_scripts,
    WorkflowPaths.static_figures, WorkflowPaths.temp, WorkflowPaths.src.
  change (Path "src") with (mkPath "" ["src"]).
  change (Path "tex") with (mkPath "" ["tex"]).
  change (Path "figures") with (mkPath "" ["figures"]).
  change (Path "figure-scripts") with (mkPath "" ["figure-scripts"]).
  change (Path "static-figures") with (mkPath "" ["static-figures"]).
  change (Path ".showyourwork") with (mkPath "" [".showyourwork"]).
  change (Path "preprocess") with (mkPath "" ["preprocess"]).
  change (Path "compile") with (mkPath "" ["compile"]).
  change (Path "logs") with (mkPath "" ["logs"]).
  change (Path "src/tex") with (mkPath "" ["src"; "tex"]).
  change (Path "src/figure-scripts") with (mkPath "" ["src"; "figure-scripts"]).
  change (Path "src/static-figures") with (mkPath "" ["src"; "static-figures"]).
  change (Path "src/tex/figures") with (mkPath "" ["src"; "tex"; "figures"]).
  repeat split;
    first [apply relative_to_joinpath
          | rewrite !Hjoin; cbn [app]; apply relative_to_joinpath].
Qed.

(** An engine that fails with a standard output, then with a standard
    error, that is not UTF-8. *)
Lemma compile_tex_undecodable_output_witness :
  let user := Path "/repo" in
  let cfg := Tex.mkConfig [] "src/tex/ms.tex" in
  Tex.compile_tex (O:=garbled_os) user cfg ["--binary"] None
    (Tex.mkState (O:=garbled_os) [] [])
  = (Raise UnicodeDecodeError, Tex.mkState (O:=garbled_os) [] []) /\
  Tex.compile_tex (O:=garbled_os) user cfg [] None
    (Tex.mkState (O:=garbled_os) [] [])
  = (Raise UnicodeDecodeError, Tex.mkState (O:=garbled_os) [] ["out"]).
Proof.
  split.
  - apply (proj1 (compile_tex_undecodable_output (O:=garbled_os) (Path "/repo")
                    (Tex.mkConfig [] "src/tex/ms.tex") ["--binary"] None
                    (Tex.mkState (O:=garbled_os) [] [])
                    (Tex.mkState (O:=garbled_os) [] [])
                    (mkCompletedProcess 1 [Byte.xff] [Byte.x65; Byte.x72; Byte.x72])
                    [] eq_refl eq_refl ltac:(discriminate))).
    reflexivity.
  - apply (proj2 (compile_tex_undecodable_output (O:=garbled_os) (Path "/repo")
                    (Tex.mkConfig [] "src/tex/ms.tex") [] None
                    (Tex.mkState (O:=garbled_os) [] [])
                    (Tex.mkState (O:=garbled_os) [] [])
                    (mkCompletedProcess 1 [Byte.x6f; Byte.x75; Byte.x74] [Byte.xff])
                    [] eq_refl eq_refl ltac:(discriminate)) "out");
      reflexivity.
Defined.

(** An auxiliary file that is already in the manuscript directory. *)
Lemma prepare_keeps_existing_files_witness :
  Tex.prepare (O:=Example.os) (Path "/repo") (Tex.mkConfig ["a.bst"] "src/tex/ms.tex")
    None (Tex.mkState (O:=Example.os) ["/repo/a.bst"; "/repo/src/tex/a.bst"] [])
  = (Ok tt, Tex.mkState (O:=Example.os) ["/repo/a.bst"; "/repo/src/tex/a.bst"] []).
Proof.
  apply (prepare_keeps_existing_files (O:=Example.os) (Path "/repo")
           (Tex.mkConfig ["a.bst"] "src/tex/ms.tex")
           (Tex.mkState (O:=Example.os) ["/repo/a.bst"; "/repo/src/tex/a.bst"] [])).
  constructor; [reflexivity | constructor].
Defined.

(* ================================================================= *)
(** ** The provisioning CLI: patterns *)







Lemma all_chars_app (p : ascii -> bool) (a b : string) :
  all_chars p (a +++ b) = all_chars p a && all_chars p b.
Proof.
  induction a as [|c a IH]; cbn [append all_chars]; [reflexivity|].
  rewrite IH. apply andb_assoc.
Qed.






(* ================================================================= *)
(** ** The provisioning CLI: the package specifier *)

Section SpecFacts.
Context {P_ : Paths} {F_ : FileSystem}.



(** X28.  Without a [showyourwork] section in the user's file, or
    without a [version] in it, the package is installed unpinned;
    a section that is not a mapping is an [AttributeError], and a
    version that is not text (a number, a list, nothing) a
    [TypeError]. *)
Theorem syw_spec_of_config_defaults (c : dict pyval) :
  (dict_get "showyourwork" c = None ->
   CondaSpec.syw_spec_of_config (PDict c) = Ok "showyourwork")
  /\
  (forall section,
      dict_get "showyourwork" c = Some (PDict section) ->
      dict_get "version" section = None ->
      CondaSpec.syw_spec_of_config (PDict c) = Ok "showyourwork")
  /\
  (forall section,
      dict_get "showyourwork" c = Some section ->
      (forall d, section <> PDict d) ->
      CondaSpec.syw_spec_of_config (PDict c) = Raise AttributeError)
  /\
  (forall section version,
      dict_get "showyourwork" c = Some (PDict section) ->
      dict_get "version" section = Some version ->
      (forall s, version <> PStr s) ->
      CondaSpec.syw_spec_of_config (PDict c) = Raise TypeError).
Proof.
  unfold CondaSpec.syw_spec_of_config, CondaSpec.requested_version, dict_get_default.
  split; [|split; [|split]].
  - intros ->. reflexivity.
  - intros section -> ->. reflexivity.
  - intros section -> Hsection.
    destruct section; try reflexivity. exfalso. apply (Hsection d). reflexivity.
  - intros section version -> -> Hversion. cbn [bind].
    destruct version; try reflexivity. exfalso. apply (Hversion s). reflexivity.
Qed.

End SpecFacts.

(** X29.  A [pip] section that is not a list stops the provisioning:
    when some dependency entry is a mapping whose [pip] value is not a
    list, the step raises [AttributeError] and no document is produced. *)
Theorem add_syw_spec_bad_pip_section (syw_spec : string) (env : dict pyval)
  (deps : list pyval) :
  dict_get "dependencies" env = Some (PList deps) ->
  forallb CondaEnv.well_formed_dep deps = false ->
  CondaEnv.add_syw_spec syw_spec (PDict env) = Raise AttributeError.
Proof.
  intros Hdeps Hbad. unfold CondaEnv.add_syw_spec, dict_item.
  rewrite Hdeps. cbn [bind].
  assert (Hmap : map_result (CondaEnv.add_to_dep syw_spec) deps = Raise AttributeError).
  { clear Hdeps. induction deps as [|dep deps IH]; cbn [forallb] in Hbad; [discriminate|].
    cbn [map_result].
    assert (Hdep : (CondaEnv.well_formed_dep dep = true /\
                    exists dep', CondaEnv.add_to_dep syw_spec dep = Ok dep') \/
                   (CondaEnv.well_formed_dep dep = false /\
                    CondaEnv.add_to_dep syw_spec dep = Raise AttributeError)).
    { destruct dep as [| | | |l|d]; cbn;
        try (left; split; [reflexivity | eexists; reflexivity]).
      destruct (dict_get "pip" d) as [[| | | |pip|]|];
        solve [left; split; [reflexivity | eexists; reflexivity]
              | right; split; reflexivity]. }
    destruct Hdep as [[Hwf [dep' Hdep']]|[_ Hraise]].
    - rewrite Hdep'. cbn [bind]. rewrite Hwf in Hbad. cbn [andb] in Hbad.
      rewrite (IH Hbad). reflexivity.
    - rewrite Hraise. reflexivity. }
  rewrite Hmap. reflexivity.
Qed.



(** A user file without the section, and one whose version is a
    number. *)
Lemma syw_spec_of_config_defaults_witness :
  CondaSpec.syw_spec_of_config (P_:=Example.paths) (F_:=Example.file_system)
    (PDict [("ms", PStr "src/tex/ms.tex")]) = Ok "showyourwork" /\
  CondaSpec.syw_spec_of_config (P_:=Example.paths) (F_:=Example.file_system)
    (PDict [("showyourwork", PDict [("version", PInt 2)])]) = Raise TypeError.
Proof.
  split.
  - apply (proj1 (syw_spec_of_config_defaults (P_:=Example.paths)
                    (F_:=Example.file_system) [("ms", PStr "src/tex/ms.tex")])).
    reflexivity.
  - apply (proj2 (proj2 (proj2 (syw_spec_of_config_defaults (P_:=Example.paths)
                    (F_:=Example.file_system)
                    [("showyourwork", PDict [("version", PInt 2)])])))
             [("version", PInt 2)] (PInt 2) eq_refl eq_refl).
    discriminate.
Defined.

(** An environment file whose [pip] section is a text. *)
Lemma add_syw_spec_bad_pip_section_witness :
  CondaEnv.add_syw_spec "showyourwork"
    (PDict [("dependencies", PList [PStr "python"; PDict [("pip", PStr "snakemake")]])])
  = Raise AttributeError.
Proof.
  apply (add_syw_spec_bad_pip_section "showyourwork"
           [("dependencies", PList [PStr "python"; PDict [("pip", PStr "snakemake")]])]
           [PStr "python"; PDict [("pip", PStr "snakemake")]]);
    reflexivity.
Defined.

(* ================================================================= *)
(** ** The whole script *)

Section WholeScript.
Context {Z_ : Zenodo} {P_ : Paths} {F_ : FileSystem} {B_ : Builtins}.

Lemma parse_entry_Ok_dict (host key : string) (entry entry' : pyval) :
  parse_entry host key entry = Ok entry' -> exists e, entry = PDict e.
Proof.
  unfold parse_entry. intros H.
  apply bind_Ok_inv in H. destruct H as [deposit_id [_ H]].
  apply bind_Ok_inv in H. destruct H as [id_type [_ H]].
  destruct entry; try discriminate. eexists. reflexivity.
Qed.

Lemma parse_overleaf_dict_fields (ov ov' : dict pyval) :
  parse_overleaf_dict ov = Ok ov' ->
  dict_has "id" ov' = true /\
  dict_has "auto-commit" ov' = true /\
  (exists push, dict_get "push" ov' = Some (PList push)) /\
  (exists pull, dict_get "pull" ov' = Some (PList pull)).
Proof.
  intros H. unfold parse_overleaf_dict in H.
  apply bind_Ok_inv in H. destruct H as [[ov3 push] [Hpush H]].
  apply bind_Ok_inv in H. destruct H as [[ov4 pull] [Hpull H]].
  cbn [fst snd] in *.
  apply bind_Ok_inv in H. destruct H as [[] [_ H]].
  apply bind_Ok_inv in H. destruct H as [push_files [_ H]].
  apply bind_Ok_inv in H. destruct H as [pull_files [_ H]].
  destruct (overlap push_files pull_files); [discriminate|].
  inversion H. subst ov4. clear H.
  destruct (normalize_list_field_Ok _ _ _ _ Hpush) as [Hpush3 Hframe3].
  destruct (normalize_list_field_Ok _ _ _ _ Hpull) as [Hpull4 Hframe4].
  unfold dict_has. repeat split.
  - rewrite Hframe4, Hframe3 by discriminate.
    rewrite dict_get_set_other by discriminate. rewrite dict_get_set_same. reflexivity.
  - rewrite Hframe4, Hframe3 by discriminate. rewrite dict_get_set_same. reflexivity.
  - exists push. rewrite Hframe4 by discriminate. exact Hpush3.
  - exists pull. exact Hpull4.
Qed.

(** X30.  What a successful run of the script leaves in the
    configuration: every deposit of both hosts with the identifier
    type "version", a destination, its [contents] and its [zip_files];
    the Overleaf settings with [id], [auto-commit] and the lists
    [push] and [pull]; the tree; and an entry for the manuscript in
    the dependencies. *)
Theorem preprocess_postconditions (config config' : Config) (xml : result Element) :
  preprocess config xml = Ok config' ->
  (forall host, host = "zenodo" \/ host = "zenodo_sandbox" ->
     exists entries,
       host_entries host config' = PDict entries /\
       forall key entry, In (key, entry) entries ->
         exists e contents zip_files,
           entry = PDict e /\
           dict_get "id_type" e = Some (PStr "version") /\
           dict_has "destination" e = true /\
           dict_get "contents" e = Some (PDict contents) /\
           dict_get "zip_files" e = Some (zip_files_value zip_files))
  /\
  (exists ov push pull,
      overleaf config' = PDict ov /\
      dict_has "id" ov = true /\
      dict_has "auto-commit" ov = true /\
      dict_get "push" ov = Some (PList push) /\
      dict_get "pull" ov = Some (PList pull))
  /\
  (exists t, tree config' = Some t)
  /\
  dict_has (ms_tex config') (dependencies config') = true.
Proof.
  unfold preprocess. intros H.
  apply bind_Ok_inv in H. destruct H as [c1 [Hzenodo H]].
  apply bind_Ok_inv in H. destruct H as [c2 [Hoverleaf H]].
  apply bind_Ok_inv in H. destruct H as [t [_ H]].
  inversion H. subst config'. clear H.
  unfold parse_overleaf in Hoverleaf.
  destruct (overleaf c1) as [| | | | |ov] eqn:Hov; try discriminate.
  apply bind_Ok_inv in Hoverleaf. destruct Hoverleaf as [ov' [Hdict Hc2]].
  inversion Hc2. subst c2. clear Hc2.
  split; [|split; [|split]].
  - intros host Hhost.
    unfold parse_zenodo_datasets in Hzenodo.
    apply bind_Ok_inv in Hzenodo. destruct Hzenodo as [c0 [H1 H2]].
    destruct (parse_host_entries _ _ _ H1) as [es1 [es1' [_ [Hc0 Hall1]]]].
    destruct (parse_host_entries _ _ _ H2) as [es2 [es2' [_ [Hc1 Hall2]]]].
    assert (Hparsed : forall h es es',
               Forall2 (fun kv kv' => fst kv' = fst kv /\
                          parse_entry h (fst kv) (snd kv) = Ok (snd kv')) es es' ->
               forall key entry, In (key, entry) es' ->
                 exists e contents zip_files,
                   entry = PDict e /\
                   dict_get "id_type" e = Some (PStr "version") /\
                   dict_has "destination" e = true /\
                   dict_get "contents" e = Some (PDict contents) /\
                   dict_get "zip_files" e = Some (zip_files_value zip_files)).
    { intros h es es' Hall. induction Hall as [|kv kv' es es' [_ Hkv] _ IH];
        intros key entry Hin; [destruct Hin|].
      destruct Hin as [Heq|Hin]; [|apply (IH key entry Hin)].
      subst kv'. cbn [snd] in Hkv.
      destruct (parse_entry_Ok_dict _ _ _ _ Hkv) as [e0 He0].
      rewrite He0 in Hkv.
      destruct (parse_entry_shape _ _ _ _ Hkv)
        as [deposit_id [flattened [contents [zip_files [e'
             [_ [_ [_ [-> [Hid [Hdest [Hc [Hzf _]]]]]]]]]]]]].
      exists e', contents, zip_files. split; [reflexivity|].
      split; [exact Hid|]. split; [|split; assumption].
      unfold dict_has. rewrite Hdest. reflexivity. }
    subst c1 c0. destruct Hhost as [->| ->].
    + exists es1'. split; [reflexivity|]. apply (Hparsed _ _ _ Hall1).
    + exists es2'. split; [reflexivity|]. apply (Hparsed _ _ _ Hall2).
  - destruct (parse_overleaf_dict_fields _ _ Hdict) as [Hid [Hac [[push Hpush] [pull Hpull]]]].
    exists ov', push, pull. split; [reflexivity|]. repeat split; assumption.
  - eexists. reflexivity.
  - unfold finalize. cbn [ms_tex dependencies set_labels set_dependencies set_tree
                            set_overleaf].
    unfold dict_has. rewrite dict_get_set_same. reflexivity.
Qed.

End WholeScript.

(** A whole run on the example manuscript. *)
Lemma preprocess_postconditions_witness :
  exists config' ov push pull t,
    preprocess (Z_:=Example.zenodo) (P_:=Example.paths) (F_:=Example.file_system)
      (B_:=Example.builtins) example_config (Ok example_xml) = Ok config' /\
    overleaf config' = PDict ov /\
    dict_get "push" ov = Some (PList push) /\
    dict_get "pull" ov = Some (PList pull) /\
    tree config' = Some t /\
    dict_has (ms_tex config') (dependencies config') = true.
Proof.
  destruct (preprocess (Z_:=Example.zenodo) (P_:=Example.paths)
              (F_:=Example.file_system) (B_:=Example.builtins)
              example_config (Ok example_xml)) as [config'|e] eqn:Hrun;
    [|vm_compute in Hrun; discriminate Hrun].
  destruct (preprocess_postconditions (Z_:=Example.zenodo) (P_:=Example.paths)
              (F_:=Example.file_system) (B_:=Example.builtins)
              example_config config' (Ok example_xml) Hrun)
    as [_ [[ov [push [pull [Hov [_ [_ [Hpush Hpull]]]]]]] [[t Ht] Hdeps]]].
  exists config', ov, push, pull, t.
  split; [reflexivity|]. repeat split; assumption.
Defined.
